(** * NetApp exporter: collection path of [netapp_exporter.py]

    A shallow embedding of the metric-collection path of the exporter:
    the fetcher [fetch_json], the three resource collectors
    [collect_volume_metrics], [collect_tier_metrics] and
    [collect_node_metrics], and the metric declarations they write to.

    The Python code is duck-typed, so the embedding works on the values
    that [response.json()] can return and keeps the exceptions that the
    built-in operations raise on values of the wrong type.  Effects
    (the metric registry, the failure counter, the log, the HTTP requests
    issued) are threaded through a state-and-exception monad in which the
    state survives an exception, as the registry does in Python.

    Each collector is described on its own, as one sequential run.  The
    thread pool of [collect_metrics] runs the three of them side by side on
    the same registry, where they write disjoint gauge families; the pool
    is outside the embedding, and of the Flask handler only the choice of
    the connection parameters is described. *)

From Stdlib Require Import ZArith Lia Ascii String List Bool.
From Stdlib Require Import PrimFloat SpecFloat FloatOps.
From stdpp Require Import base option list strings pretty gmap.

#[local] Set Warnings "-register-all".
#[local] Open Scope string_scope.
#[local] Open Scope Z_scope.

(* ================================================================== *)
(** * Python values and built-in operations *)
(* ================================================================== *)

Module Py.

(** The values produced by [json.loads]: [None], booleans, integers of any
    size, binary64 floats, strings, lists and dictionaries with string
    keys.  A string is a sequence of characters with code points below 256.
    A dictionary is a finite map; the order of its keys is not kept, and
    nothing in the collectors depends on it. *)
Inductive value : Type :=
| VNone
| VBool (b : bool)
| VInt (z : Z)
| VFloat (f : float)
| VStr (s : string)
| VList (l : list value)
| VDict (d : gmap string value).

(** The exceptions that can occur on the collection path; all of them are
    subclasses of [Exception].  [ConnectionError] and [Timeout] are those of
    [requests]. *)
Inductive exn : Type :=
| AttributeError
| TypeError
| ValueError
| OverflowError
| ZeroDivisionError
| ConnectionError
| Timeout
| JSONDecodeError.

(** The result of evaluating an expression: a value or a raised exception. *)
Inductive outcome (A : Type) : Type :=
| Ret (a : A)
| Raise (e : exn).
Arguments Ret {A} a.
Arguments Raise {A} e.

(** Sequencing of expressions: the first exception raised wins. *)
#[global] Instance outcome_ret : MRet outcome := fun A a => Ret a.
#[global] Instance outcome_bind : MBind outcome := fun A B k o =>
  match o with
  | Ret a => k a
  | Raise e => Raise e
  end.

(** ** Objects *)

(** [x is None] *)
Definition is_none (v : value) : bool :=
  match v with VNone => true | _ => false end.

(** [bool(v)]: the truth value used by [if v:] and [if not v:]. *)
Definition truthy (v : value) : bool :=
  match v with
  | VNone => false
  | VBool b => b
  | VInt z => negb (z =? 0)
  | VFloat f => negb (PrimFloat.eqb f 0)
  | VStr s => negb (String.eqb s "")
  | VList l => match l with [] => false | _ :: _ => true end
  | VDict d => negb (bool_decide (d = ∅))
  end.

(** [obj.get(key, default)]: only dictionaries have a [get] method. *)
Definition get (obj : value) (key : string) (default : value) : outcome value :=
  match obj with
  | VDict d => Ret (from_option id default (d !! key))
  | _ => Raise AttributeError
  end.

(** [iter(v)], as run once by [for x in v:].  Iterating a dictionary yields
    its keys and iterating a string yields its characters. *)
Definition iter (v : value) : outcome (list value) :=
  match v with
  | VList l => Ret l
  | VDict d => Ret (VStr <$> (map_to_list d).*1)
  | VStr s => Ret ((fun c => VStr (String c EmptyString)) <$> list_ascii_of_string s)
  | VNone | VBool _ | VInt _ | VFloat _ => Raise TypeError
  end.

(** ** Numbers *)

(** [float(n)] for an integer [n]: the nearest binary64 value, ties to even;
    [OverflowError] when [n] is too large. *)
Definition nearest_float (z : Z) : float :=
  SF2Prim (binary_normalize prec emax z 0 false).

Definition float_of_int (z : Z) : outcome float :=
  let f := nearest_float z in
  if PrimFloat.is_infinity f then Raise OverflowError else Ret f.

Definition spec_of_int (z : Z) : spec_float :=
  match z with
  | Z0 => S754_zero false
  | Zpos p => S754_finite false p 0
  | Zneg p => S754_finite true p 0
  end.

(** [a / b] on integers: the correctly rounded quotient. *)
Definition int_truediv (a b : Z) : outcome float :=
  if b =? 0 then Raise ZeroDivisionError
  else
    let f := SF2Prim (SFdiv prec emax (spec_of_int a) (spec_of_int b)) in
    if PrimFloat.is_infinity f then Raise OverflowError else Ret f.

(** A number is an [int], a [bool] (a subclass of [int]) or a [float]. *)
Inductive number : Type :=
| NInt (z : Z)
| NFloat (f : float).

Definition as_number (v : value) : option number :=
  match v with
  | VInt z => Some (NInt z)
  | VBool b => Some (NInt (if b then 1 else 0))
  | VFloat f => Some (NFloat f)
  | _ => None
  end.

Definition to_float (n : number) : outcome float :=
  match n with
  | NInt z => float_of_int z
  | NFloat f => Ret f
  end.

(** Exact comparison of a float with an integer; [None] for a NaN. *)
Definition float_compare_int (f : float) (z : Z) : option comparison :=
  match Prim2SF f with
  | S754_nan => None
  | S754_infinity s => Some (if s then Lt else Gt)
  | S754_zero _ => Some (0 ?= z)
  | S754_finite s m e =>
      let sm := if s then Zneg m else Zpos m in
      Some (if 0 <=? e then (sm * 2 ^ e ?= z) else (sm ?= z * 2 ^ (- e)))
  end.

(** [a > b]: defined between numbers, [TypeError] otherwise (the operands
    compared in the collectors are a JSON value and the literal [0]). *)
Definition gt (a b : value) : outcome bool :=
  match as_number a, as_number b with
  | Some (NInt x), Some (NInt y) => Ret (y <? x)
  | Some (NFloat x), Some (NFloat y) => Ret (PrimFloat.ltb y x)
  | Some (NFloat x), Some (NInt y) =>
      Ret (match float_compare_int x y with Some Gt => true | _ => false end)
  | Some (NInt x), Some (NFloat y) =>
      Ret (match float_compare_int y x with Some Lt => true | _ => false end)
  | _, _ => Raise TypeError
  end.

(** [a / b]: true division. *)
Definition truediv (a b : value) : outcome value :=
  match as_number a, as_number b with
  | Some (NInt x), Some (NInt y) =>
      match int_truediv x y with Ret f => Ret (VFloat f) | Raise e => Raise e end
  | Some x, Some y =>
      match to_float x with
      | Raise e => Raise e
      | Ret fx =>
          match to_float y with
          | Raise e => Raise e
          | Ret fy =>
              if PrimFloat.eqb fy 0 then Raise ZeroDivisionError
              else Ret (VFloat (PrimFloat.div fx fy))
          end
      end
  | _, _ => Raise TypeError
  end.

(** [a * b] between numbers.  The collectors only multiply a quotient by the
    literal [100]; sequence repetition is left out and reported as
    [TypeError]. *)
Definition mul (a b : value) : outcome value :=
  match as_number a, as_number b with
  | Some (NInt x), Some (NInt y) => Ret (VInt (x * y))
  | Some x, Some y =>
      match to_float x with
      | Raise e => Raise e
      | Ret fx =>
          match to_float y with
          | Raise e => Raise e
          | Ret fy => Ret (VFloat (PrimFloat.mul fx fy))
          end
      end
  | _, _ => Raise TypeError
  end.

(** ** Strings *)

(** [str.lower] on one character: the upper-case letters below code point
    256 are A-Z and the Latin-1 letters 192-222 except the multiplication
    sign 215. *)
Definition lower_char (c : ascii) : ascii :=
  let n := N_of_ascii c in
  if ((65 <=? n) && (n <=? 90) ||
      (192 <=? n) && (n <=? 222) && negb (n =? 215))%N
  then ascii_of_N (n + 32)
  else c.

Fixpoint lower_string (s : string) : string :=
  match s with
  | EmptyString => EmptyString
  | String c s' => String (lower_char c) (lower_string s')
  end.

(** Equality of strings up to the case of their letters. *)
Fixpoint caseless_eq (s t : string) : bool :=
  match s, t with
  | EmptyString, EmptyString => true
  | String a s', String b t' =>
      Ascii.eqb (lower_char a) (lower_char b) && caseless_eq s' t'
  | _, _ => false
  end.

(** [v.lower()]: only strings have the method. *)
Definition lower (v : value) : outcome string :=
  match v with
  | VStr s => Ret (lower_string s)
  | _ => Raise AttributeError
  end.

(** [s.replace(old, new)] for a pattern [old] of one character. *)
Fixpoint replace_char (old : ascii) (new : string) (s : string) : string :=
  match s with
  | EmptyString => EmptyString
  | String c s' =>
      if Ascii.eqb c old then new +:+ replace_char old new s'
      else String c (replace_char old new s')
  end.

(** [v.replace("Z", "+00:00")]: only strings have the method. *)
Definition replace (v : value) (old : ascii) (new : string) : outcome string :=
  match v with
  | VStr s => Ret (replace_char old new s)
  | _ => Raise AttributeError
  end.

End Py.

(* ================================================================== *)
(** * The part of [datetime] behind the creation-time conversion *)
(* ================================================================== *)

Module Datetime.

(** A [datetime] object.  [utcoffset] is the offset of its [tzinfo] from
    UTC in microseconds, [None] for a naive object. *)
Record datetime : Type := mk_datetime {
  year : Z; month : Z; day : Z;
  hour : Z; minute : Z; second : Z; microsecond : Z;
  utcoffset : option Z
}.

(** The proleptic Gregorian calendar of the module: [_is_leap],
    [_days_before_year], [_days_in_month], [_days_before_month] and
    [_ymd2ord]. *)
Definition is_leap (y : Z) : bool :=
  (y mod 4 =? 0) && (negb (y mod 100 =? 0) || (y mod 400 =? 0)).

Definition days_before_year (y : Z) : Z :=
  let y' := y - 1 in y' * 365 + y' / 4 - y' / 100 + y' / 400.

Definition days_in_month (y m : Z) : Z :=
  match m with
  | 1 | 3 | 5 | 7 | 8 | 10 | 12 => 31
  | 4 | 6 | 9 | 11 => 30
  | 2 => if is_leap y then 29 else 28
  | _ => 0
  end.

Definition days_before_month (y m : Z) : Z :=
  match m with
  | 1 => 0 | 2 => 31 | 3 => 59 | 4 => 90 | 5 => 120 | 6 => 151
  | 7 => 181 | 8 => 212 | 9 => 243 | 10 => 273 | 11 => 304 | 12 => 334
  | _ => 0
  end + (if (2 <? m) && is_leap y then 1 else 0).

Definition ymd2ord (y m d : Z) : Z :=
  days_before_year y + days_before_month y m + d.

(** The checks of the [datetime] constructor and of [timezone]: the offset
    lies strictly between minus and plus 24 hours. *)
Definition valid_fields (y m d hh mm ss us : Z) : bool :=
  (1 <=? y) && (y <=? 9999) && (1 <=? m) && (m <=? 12) &&
  (1 <=? d) && (d <=? days_in_month y m) &&
  (0 <=? hh) && (hh <=? 23) && (0 <=? mm) && (mm <=? 59) &&
  (0 <=? ss) && (ss <=? 59) && (0 <=? us) && (us <=? 999999).

Definition valid_offset (off : Z) : bool :=
  (- 86400000000 <? off) && (off <? 86400000000).

Definition make (y m d hh mm ss us : Z) (off : option Z) : option datetime :=
  if valid_fields y m d hh mm ss us && from_option valid_offset true off
  then Some (mk_datetime y m d hh mm ss us off)
  else None.

(** ** [datetime.fromisoformat]

    The recogniser of the format documented for the function up to
    Python 3.10, [YYYY-MM-DD[*HH[:MM[:SS[.fff[fff]]]][+HH:MM[:SS[.ffffff]]]]],
    where [*] is any single character.  This is the format that needs the
    trailing ["Z"] rewritten before the call, and every version of Python
    that has the function reads a text of this format in this way.  From
    Python 3.11 on the function accepts more of ISO 8601 (a fraction of
    any length, the basic format, offsets without a colon); what it makes
    of a text outside the format below is therefore left to the runtime
    ([fromisoformat_beyond]), and [None] here only means that the text is
    outside this format. *)

Definition digit_value (c : ascii) : option Z :=
  let n := N_of_ascii c in
  if ((48 <=? n) && (n <=? 57))%N then Some (Z.of_N n - 48) else None.

Fixpoint parse_digits (n : nat) (acc : Z) (s : string) : option (Z * string) :=
  match n with
  | O => Some (acc, s)
  | S n' =>
      match s with
      | String c s' =>
          match digit_value c with
          | Some d => parse_digits n' (10 * acc + d) s'
          | None => None
          end
      | EmptyString => None
      end
  end.

Definition expect (c : ascii) (s : string) : option string :=
  match s with
  | String c' s' => if Ascii.eqb c' c then Some s' else None
  | EmptyString => None
  end.

Definition parse_isoformat_date (s : string) : option (Z * Z * Z * string) :=
  '(y, s) ← parse_digits 4 0 s;
  s ← expect "-" s;
  '(m, s) ← parse_digits 2 0 s;
  s ← expect "-" s;
  '(d, s) ← parse_digits 2 0 s;
  Some (y, m, d, s).

(** The fraction [.fff] or [.ffffff], in microseconds. *)
Definition parse_fraction (s : string) : option Z :=
  match String.length s with
  | 3%nat => '(f, _) ← parse_digits 3 0 s; Some (f * 1000)
  | 6%nat => '(f, _) ← parse_digits 6 0 s; Some f
  | _ => None
  end.

(** [HH[:MM[:SS[.fff[fff]]]]], up to the end of the string. *)
Definition parse_hh_mm_ss_ff (s : string) : option (Z * Z * Z * Z) :=
  '(hh, s) ← parse_digits 2 0 s;
  match s with
  | EmptyString => Some (hh, 0, 0, 0)
  | String c s =>
      if negb (Ascii.eqb c ":") then None else
      '(mm, s) ← parse_digits 2 0 s;
      match s with
      | EmptyString => Some (hh, mm, 0, 0)
      | String c s =>
          if negb (Ascii.eqb c ":") then None else
          '(ss, s) ← parse_digits 2 0 s;
          match s with
          | EmptyString => Some (hh, mm, ss, 0)
          | String c s =>
              if negb (Ascii.eqb c ".") then None else
              us ← parse_fraction s;
              Some (hh, mm, ss, us)
          end
      end
  end.

(** Cut the time string at its first sign: the time proper, and the sign
    ([true] for minus) and digits of the offset when there is one. *)
Fixpoint split_offset (s : string) : string * option (bool * string) :=
  match s with
  | EmptyString => (EmptyString, None)
  | String c s' =>
      if Ascii.eqb c "+" then (EmptyString, Some (false, s'))
      else if Ascii.eqb c "-" then (EmptyString, Some (true, s'))
      else let '(t, z) := split_offset s' in (String c t, z)
  end.

Definition parse_offset (neg : bool) (s : string) : option Z :=
  match String.length s with
  | 5%nat | 8%nat | 15%nat =>
      '(hh, mm, ss, us) ← parse_hh_mm_ss_ff s;
      let off := (hh * 3600 + mm * 60 + ss) * 1000000 + us in
      Some (if neg then - off else off)
  | _ => None
  end.

Definition fromisoformat (s : string) : option datetime :=
  '(y, m, d, rest) ← parse_isoformat_date s;
  match rest with
  | EmptyString => make y m d 0 0 0 0 None
  | String _ tstr =>
      let '(timestr, tz) := split_offset tstr in
      '(hh, mm, ss, us) ← parse_hh_mm_ss_ff timestr;
      match tz with
      | None => make y m d hh mm ss us None
      | Some (neg, tzstr) =>
          off ← parse_offset neg tzstr;
          make y m d hh mm ss us (Some off)
      end
  end.

(** ** [datetime.timestamp]

    For an aware object, [(self - _EPOCH).total_seconds()]: the microseconds
    since 1970-01-01T00:00:00+00:00 divided by [10**6].  For a naive object
    the result depends on the local time zone of the process and is left to
    the function [local]. *)
Definition epoch_ordinal : Z := 719163.

Definition micros_since_epoch (dt : datetime) (off : Z) : Z :=
  (((ymd2ord (year dt) (month dt) (day dt) - epoch_ordinal) * 86400
    + hour dt * 3600 + minute dt * 60 + second dt) * 1000000
   + microsecond dt) - off.

Definition timestamp (local : datetime -> Py.outcome float) (dt : datetime)
  : Py.outcome float :=
  match utcoffset dt with
  | Some off => Py.int_truediv (micros_since_epoch dt off) 1000000
  | None => local dt
  end.

End Datetime.

(* ================================================================== *)
(** * Unix time, as a specification *)
(* ================================================================== *)

Module UnixTime.

(** The number of seconds from 1970-01-01T00:00:00Z to a UTC calendar date
    and time of day, obtained by adding up the lengths of the years and
    months that have gone by. *)
Definition year_length (y : Z) : Z :=
  if Datetime.is_leap y then 366 else 365.

(** Total length of the years [1 .. n]. *)
Fixpoint days_of_years (n : nat) : Z :=
  match n with
  | O => 0
  | S k => days_of_years k + year_length (Z.of_nat (S k))
  end.

(** Total length of the months [1 .. n] of year [y]. *)
Fixpoint days_of_months (y : Z) (n : nat) : Z :=
  match n with
  | O => 0
  | S k => days_of_months y k + Datetime.days_in_month y (Z.of_nat (S k))
  end.

Definition days_since_epoch (y m d : Z) : Z :=
  (days_of_years (Z.to_nat (y - 1)) + days_of_months y (Z.to_nat (m - 1)) + (d - 1))
  - days_of_years 1969.

Definition unix_time (y m d hh mm ss : Z) : Z :=
  days_since_epoch y m d * 86400 + hh * 3600 + mm * 60 + ss.

(** A number of seconds as the float that dividing its count of microseconds
    by [10**6] gives, which is how [timedelta.total_seconds] produces it. *)
Definition as_float (seconds : Z) : float :=
  match Py.int_truediv (seconds * 1000000) 1000000 with
  | Py.Ret f => f
  | Py.Raise _ => 0%float
  end.

(** The ISO 8601 text [YYYY-MM-DDThh:mm:ssZ] of a UTC date and time. *)
Definition digit_char (d : Z) : ascii := ascii_of_N (48 + Z.to_N d).

Definition digits2 (v : Z) (rest : string) : string :=
  String (digit_char (v / 10)) (String (digit_char (v mod 10)) rest).

Definition digits4 (v : Z) (rest : string) : string :=
  digits2 (v / 100) (digits2 (v mod 100) rest).


End UnixTime.

(* ================================================================== *)
(** * The exporter *)
(* ================================================================== *)

Module Exporter.
Import Py.

(** ** Metric declarations (lines 18-44) *)

(** The sixteen module-level [Gauge] objects, under their Python names. *)
Inductive gauge : Type :=
| volume_used | volume_size | volume_available | volume_usage_percent
| volume_info | volume_create_time
| tier_used | tier_size | tier_available | tier_usage_percent
| tier_full_threshold_percent | tier_physical_used
| node_uptime | node_state | node_cpu_count | node_memory_size.

Definition all_gauges : list gauge :=
  [ volume_used; volume_size; volume_available; volume_usage_percent;
    volume_info; volume_create_time;
    tier_used; tier_size; tier_available; tier_usage_percent;
    tier_full_threshold_percent; tier_physical_used;
    node_uptime; node_state; node_cpu_count; node_memory_size ].

(** First argument of each [Gauge(...)]: the metric name. *)
Definition gauge_name (g : gauge) : string :=
  match g with
  | volume_used => "netapp_volume_used_bytes"
  | volume_size => "netapp_volume_size_bytes"
  | volume_available => "netapp_volume_available_bytes"
  | volume_usage_percent => "netapp_volume_usage_percent"
  | volume_info => "netapp_volume_info"
  | volume_create_time => "netapp_volume_create_time"
  | tier_used => "netapp_tier_used_bytes"
  | tier_size => "netapp_tier_size_bytes"
  | tier_available => "netapp_tier_available_bytes"
  | tier_usage_percent => "netapp_tier_usage_percent"
  | tier_full_threshold_percent => "netapp_tier_full_threshold_percent"
  | tier_physical_used => "netapp_tier_physical_used_bytes"
  | node_uptime => "netapp_node_uptime_seconds"
  | node_state => "netapp_node_state"
  | node_cpu_count => "netapp_node_cpu_count"
  | node_memory_size => "netapp_node_memory_size_bytes"
  end.

(** Third argument of each [Gauge(...)]: the label names. *)
Definition gauge_labelnames (g : gauge) : list string :=
  match g with
  | volume_used | volume_size | volume_available | volume_usage_percent
  | volume_create_time => ["volume"]
  | volume_info => ["volume"; "style"; "type"; "snapshot_policy"; "svm"]
  | tier_used | tier_size | tier_available | tier_usage_percent
  | tier_full_threshold_percent | tier_physical_used => ["tier"]
  | node_uptime | node_state | node_cpu_count | node_memory_size => ["node"]
  end.

(** The [Counter] object [failed_requests]. *)
Definition failed_requests_name : string := "netapp_failed_requests".
Definition failed_requests_labelnames : list string := ["endpoint"].

(** Every metric family the module declares, as (name, label names). *)
Definition declared_metrics : list (string * list string) :=
  ((fun g => (gauge_name g, gauge_labelnames g)) <$> all_gauges)
  ++ [(failed_requests_name, failed_requests_labelnames)].

#[global] Instance gauge_eq_dec : EqDecision gauge.
Proof. solve_decision. Defined.

Definition gauge_index (g : gauge) : nat :=
  match g with
  | volume_used => 0 | volume_size => 1 | volume_available => 2
  | volume_usage_percent => 3 | volume_info => 4 | volume_create_time => 5
  | tier_used => 6 | tier_size => 7 | tier_available => 8
  | tier_usage_percent => 9 | tier_full_threshold_percent => 10
  | tier_physical_used => 11
  | node_uptime => 12 | node_state => 13 | node_cpu_count => 14
  | node_memory_size => 15
  end%nat.

#[global] Program Instance gauge_countable : Countable gauge :=
  inj_countable' gauge_index (fun n => nth n all_gauges volume_used) _.
Next Obligation. by intros []. Qed.

(** ** The log *)

Inductive level : Type := INFO | ERROR.

(** One constructor per [logging] call of the module, carrying the values
    interpolated into its message. *)
Inductive message : Type :=
| FetchStatus (status_code : Z) (url : string)           (* line 53 *)
| FetchException (url : string) (e : exn)                (* line 56 *)
| VolumesStart                                           (* line 62 *)
| VolumesListFailed                                      (* line 66 *)
| VolumeNoDetailLink (vol_name : value)                  (* line 74 *)
| VolumeDetailFailed (vol_name : value)                  (* line 79 *)
| VolumeSpace (vol_name used size available percent_used : value) (* line 93 *)
| VolumeNoSpace (vol_name : value)                       (* line 95 *)
| VolumeDateError (vol_name create_time_str : value)     (* line 105 *)
| TiersStart                                             (* line 117 *)
| TiersListFailed                                        (* line 121 *)
| TierNoDetailLink (tier_name : value)                   (* line 129 *)
| TierDetailFailed (tier_name : value)                   (* line 134 *)
| TierSummary (tier_name used size available percent_used
               full_threshold physical_used : value)     (* line 154 *)
| NodesStart                                             (* line 158 *)
| NodesListFailed                                        (* line 162 *)
| NodeSummary (node_name uptime : value) (state_str : string)
              (cpu_count memory_size : value).           (* line 179 *)

(** ** The state the collectors act on *)

(** [gauges] holds the samples of the labelled gauges, keyed by gauge and
    label values; [failed_requests] the samples of the failure counter,
    keyed by endpoint; [requests] the URLs passed to [requests.get] and
    [log] the log records, both most recent first. *)
Record world : Type := mk_world {
  gauges : gmap (gauge * list string) float;
  failed_requests : gmap string nat;
  requests : list string;
  log : list (level * message)
}.

(** What [requests.get] does: raise, or return a response with a status
    code and a body that [response.json()] decodes to a value or rejects
    ([None]). *)
Record response : Type := mk_response {
  status_code : Z;
  json_body : option value
}.

Inductive http_result : Type :=
| Failed (e : exn)
| Responded (r : response).

(** What lies outside the module: the upstream API and the parts of the
    Python runtime that the embedding does not define. *)
Record runtime : Type := mk_runtime {
  (** [requests.get(url, auth=HTTPBasicAuth(username, password), ...)],
      given the number of requests made before it *)
  http_get : nat -> string -> string -> string -> http_result;
  (** [str(v)] of a float, a list or a dictionary *)
  repr : value -> string;
  (** [float(s)] of a string, [None] for [ValueError] *)
  float_of_str : string -> option float;
  (** [datetime.fromisoformat(s)] of a text outside the format that
      [Datetime.fromisoformat] recognises, as the version of Python in use
      has it; [None] for [ValueError] (before Python 3.11, on every such
      text) *)
  fromisoformat_beyond : string -> option Datetime.datetime;
  (** [dt.timestamp()] of a naive [datetime] *)
  local_timestamp : Datetime.datetime -> outcome float
}.

(** ** The monad: state that survives exceptions *)

Definition M (A : Type) : Type := world -> outcome A * world.

Definition ret {A} (a : A) : M A := fun w => (Ret a, w).

Definition raise {A} (e : exn) : M A := fun w => (Raise e, w).

Definition bind {A B} (m : M A) (k : A -> M B) : M B :=
  fun w =>
    match m w with
    | (Ret a, w') => k a w'
    | (Raise e, w') => (Raise e, w')
    end.

(** An expression without effects. *)
Definition lift {A} (o : outcome A) : M A := fun w => (o, w).

(** [try: m  except Exception as e: handler e] *)
Definition try_except {A} (m : M A) (handler : exn -> M A) : M A :=
  fun w =>
    match m w with
    | (Ret a, w') => (Ret a, w')
    | (Raise e, w') => handler e w'
    end.

Declare Scope py_scope.
Delimit Scope py_scope with py.
Notation "x <- m ;; k" := (bind m (fun x => k))
  (at level 100, m at next level, right associativity) : py_scope.
Notation "m ;; k" := (bind m (fun _ => k))
  (at level 100, right associativity) : py_scope.
#[local] Open Scope py_scope.

(** [for x in xs: body x]; a [continue] is a body that returns early. *)
Fixpoint for_each (xs : list value) (body : value -> M unit) : M unit :=
  match xs with
  | [] => ret tt
  | x :: xs' => body x ;; for_each xs' body
  end.

(** The state after running [m] from [w]. *)
Definition exec {A} (m : M A) (w : world) : world := (m w).2.

(** ** Primitive effects *)

(** The state after a record is appended to the log, and after the child
    [key] of a gauge receives the sample [f]. *)
Definition record_log (l : level) (msg : message) (w : world) : world :=
  mk_world (gauges w) (failed_requests w) (requests w) ((l, msg) :: log w).

Definition record_sample (key : gauge * list string) (f : PrimFloat.float) (w : world)
  : world :=
  mk_world (<[key := f]> (gauges w)) (failed_requests w) (requests w) (log w).

(** [logging.info(msg)] and [logging.error(msg)] *)
Definition logging (l : level) (msg : message) : M unit :=
  fun w => (Ret tt, record_log l msg w).

Definition counter_value (c : gmap string nat) (endpoint : string) : nat :=
  from_option id 0%nat (c !! endpoint).

(** [failed_requests.labels(endpoint=url).inc()] *)
Definition failed_requests_inc (url : string) : M unit :=
  fun w => (Ret tt,
            mk_world (gauges w)
                     (<[url := S (counter_value (failed_requests w) url)]>
                        (failed_requests w))
                     (requests w) (log w)).

Section WithRuntime.
Context (rt : runtime).

(** [str(v)], as applied to label values and inside f-strings. *)
Definition str (v : value) : string :=
  match v with
  | VStr s => s
  | VNone => "None"
  | VBool b => if b then "True" else "False"
  | VInt z => pretty z
  | VFloat _ | VList _ | VDict _ => repr rt v
  end.

(** [float(v)], as applied by [Gauge.set] to its argument. *)
Definition float (v : value) : outcome PrimFloat.float :=
  match v with
  | VFloat f => Ret f
  | VInt z => float_of_int z
  | VBool b => Ret (if b then 1%float else 0%float)
  | VStr s =>
      match float_of_str rt s with
      | Some f => Ret f
      | None => Raise ValueError
      end
  | VNone | VList _ | VDict _ => Raise TypeError
  end.

(** [g.labels(k1=v1, ...)]: the keywords must be the label names of [g]; the
    child is keyed by the [str] of the values, in declaration order, and
    is created with sample [0.0] when it does not exist yet. *)
Definition labelvalues (g : gauge) (kwargs : list (string * value))
  : outcome (list string) :=
  if bool_decide (kwargs.*1 ≡ₚ gauge_labelnames g)
  then Ret ((fun l => str (from_option id VNone (list_to_map (M := gmap string value) kwargs !! l)))
              <$> gauge_labelnames g)
  else Raise ValueError.

Definition labels (g : gauge) (kwargs : list (string * value))
  : M (gauge * list string) :=
  lvs <- lift (labelvalues g kwargs) ;;
  fun w =>
    let key := (g, lvs) in
    (Ret key,
     match gauges w !! key with
     | Some _ => w
     | None => record_sample key 0%float w
     end).

(** [child.set(v)] *)
Definition set (key : gauge * list string) (v : value) : M unit :=
  f <- lift (float v) ;;
  fun w => (Ret tt, record_sample key f w).

(** [g.labels(k1=v1, ...).set(v)] *)
Definition gauge_set (g : gauge) (kwargs : list (string * value)) (v : value)
  : M unit :=
  child <- labels g kwargs ;;
  set child v.

(** [requests.get(url, auth=..., verify=False, timeout=10)] *)
Definition requests_get (url username password : string) : M response :=
  fun w =>
    let w' := mk_world (gauges w) (failed_requests w) (url :: requests w) (log w) in
    match http_get rt (length (requests w)) url username password with
    | Failed e => (Raise e, w')
    | Responded r => (Ret r, w')
    end.

(** [response.json()] *)
Definition response_json (r : response) : M value :=
  match json_body r with
  | Some v => ret v
  | None => raise JSONDecodeError
  end.

(** ** [fetch_json] (lines 46-58) *)
Definition fetch_json (url username password : string) : M value :=
  try_except
    (response <- requests_get url username password ;;
     if status_code response =? 200 then
       response_json response
     else
       logging ERROR (FetchStatus (status_code response) url) ;;
       failed_requests_inc url ;;
       ret VNone)
    (fun e =>
       logging ERROR (FetchException url e) ;;
       failed_requests_inc url ;;
       ret VNone).

(** A fetch fails when [requests.get] raises (transport failure, timeout),
    when the status is not 200, or when the body of a 200 response is not
    JSON. *)
Definition fetch_fails (h : http_result) : bool :=
  match h with
  | Failed _ => true
  | Responded r =>
      negb (status_code r =? 200) ||
      match json_body r with None => true | Some _ => false end
  end.

(** [used / size * 100 if size > 0 else 0] (lines 88 and 141) *)
Definition percent_used (used size : value) : outcome value :=
  positive ← gt size (VInt 0);
  if positive : bool then q ← truediv used size; mul q (VInt 100)
  else Ret (VInt 0).

(** [entry.get("_links", {}).get("self", {}).get("href")] (lines 72, 127) *)
Definition self_link (entry : value) : outcome value :=
  links ← get entry "_links" (VDict ∅);
  self ← get links "self" (VDict ∅);
  get self "href" VNone.

(** The self detail link that the document of an entry holds: the value
    at [_links.self.href], when the entry, its ["_links"] and the ["self"]
    of that are objects. *)
Definition detail_link (entry : value) : option value :=
  match entry with
  | VDict d =>
      match d !! "_links" with
      | Some (VDict links) =>
          match links !! "self" with
          | Some (VDict self) => self !! "href"
          | _ => None
          end
      | _ => None
      end
  | _ => None
  end.

(** An entry lacks a self detail link when its document holds none, or
    holds one that is a false value ([None], empty). *)
Definition lacks_self_link (entry : value) : bool :=
  match detail_link entry with
  | Some href => negb (truthy href)
  | None => true
  end.

(** [v] is a JSON object. *)
Definition is_object (v : value) : bool :=
  match v with VDict _ => true | _ => false end.

(** The shapes on which the chain of [get] calls of [self_link] cannot go
    through: an entry that is not an object, a ["_links"] that is present
    and is not an object, a ["self"] of it that is present and is not an
    object.  An absent key is not among them: its default is [{}]. *)
Definition links_malformed (entry : value) : bool :=
  match entry with
  | VDict d =>
      match d !! "_links" with
      | Some (VDict links) =>
          match links !! "self" with
          | Some self => negb (is_object self)
          | None => false
          end
      | Some _ => true
      | None => false
      end
  | _ => true
  end.

(** ** [collect_volume_metrics] (lines 60-113) *)

(** Lines 82-95: the four space gauges. *)
Definition volume_space_metrics (vol_name vol_detail : value) : M unit :=
  space <- lift (get vol_detail "space" (VDict ∅)) ;;
  if truthy space then
    used <- lift (get space "used" (VInt 0)) ;;
    size <- lift (get space "size" (VInt 0)) ;;
    available <- lift (get space "available" (VInt 0)) ;;
    percent_used <- lift (percent_used used size) ;;
    gauge_set volume_used [("volume", vol_name)] used ;;
    gauge_set volume_size [("volume", vol_name)] size ;;
    gauge_set volume_available [("volume", vol_name)] available ;;
    gauge_set volume_usage_percent [("volume", vol_name)] percent_used ;;
    logging INFO (VolumeSpace vol_name used size available percent_used)
  else
    logging INFO (VolumeNoSpace vol_name).

(** [datetime.fromisoformat(s)]: a text of the format documented up to
    Python 3.10 is read as documented; any other text is read as the
    version of Python in use reads it. *)
Definition fromisoformat (s : string) : option Datetime.datetime :=
  match Datetime.fromisoformat s with
  | Some dt => Some dt
  | None => fromisoformat_beyond rt s
  end.

(** Lines 102-103, the conversion inside the [try]:
    [datetime.fromisoformat(create_time_str.replace("Z", "+00:00")).timestamp()] *)
Definition create_time_timestamp (create_time_str : value) : outcome PrimFloat.float :=
  iso ← replace create_time_str "Z" "+00:00";
  dt ← match fromisoformat iso with
       | Some dt => Ret dt
       | None => Raise ValueError
       end;
  Datetime.timestamp (local_timestamp rt) dt.

(** Lines 97-106: the creation time as a Unix timestamp. *)
Definition volume_create_time_metric (vol_name vol_detail : value) : M unit :=
  create_time_str <- lift (get vol_detail "create_time" VNone) ;;
  ts <- (if truthy create_time_str then
           try_except
             (t <- lift (create_time_timestamp create_time_str) ;;
              ret (VFloat t))
             (fun e =>
                logging ERROR (VolumeDateError vol_name create_time_str) ;;
                ret (VInt 0))
         else ret (VInt 0)) ;;
  gauge_set volume_create_time [("volume", vol_name)] ts.

(** Lines 108-113: the info metric. *)
Definition volume_info_metric (vol_name vol_detail : value) : M unit :=
  style <- lift (get vol_detail "style" (VStr "unknown")) ;;
  vtype <- lift (get vol_detail "type" (VStr "unknown")) ;;
  policy <- lift (get vol_detail "snapshot_policy" (VDict ∅)) ;;
  snapshot_policy <- lift (get policy "name" (VStr "unknown")) ;;
  svm <- lift (get vol_detail "svm" (VDict ∅)) ;;
  svm_name <- lift (get svm "name" (VStr "unknown")) ;;
  gauge_set volume_info
    [("volume", vol_name); ("style", style); ("type", vtype);
     ("snapshot_policy", snapshot_policy); ("svm", svm_name)]
    (VInt 1).

(** Lines 82-113: what is recorded from one fetched detail object. *)
Definition volume_detail_metrics (vol_name vol_detail : value) : M unit :=
  volume_space_metrics vol_name vol_detail ;;
  volume_create_time_metric vol_name vol_detail ;;
  volume_info_metric vol_name vol_detail.

(** Lines 71-113: the body of the loop over the list entries. *)
Definition volume_entry (ontap_ip username password : string) (vol : value)
  : M unit :=
  vol_name <- lift (get vol "name" (VStr "Inconnu")) ;;
  self_href <- lift (self_link vol) ;;
  if negb (truthy self_href) then
    logging ERROR (VolumeNoDetailLink vol_name)
  else
    let vol_detail_url := "https://" +:+ ontap_ip +:+ str self_href in
    vol_detail <- fetch_json vol_detail_url username password ;;
    if is_none vol_detail then
      logging ERROR (VolumeDetailFailed vol_name)
    else
      volume_detail_metrics vol_name vol_detail.

Definition collect_volume_metrics (ontap_ip username password : string)
  : M unit :=
  logging INFO VolumesStart ;;
  let volumes_list_url := "https://" +:+ ontap_ip +:+ "/api/storage/volumes" in
  data <- fetch_json volumes_list_url username password ;;
  if is_none data then
    logging ERROR VolumesListFailed
  else
    volumes <- lift (get data "records" data) ;;
    items <- lift (iter volumes) ;;
    for_each items (volume_entry ontap_ip username password).

(** ** [collect_tier_metrics] (lines 115-154) *)

(** Lines 137-154: what is recorded from one fetched detail object. *)
Definition tier_detail_metrics (tier_name agg_detail : value) : M unit :=
  space <- lift (get agg_detail "space" (VDict ∅)) ;;
  block_storage <- lift (get space "block_storage" (VDict ∅)) ;;
  used <- lift (get block_storage "used" (VInt 0)) ;;
  size <- lift (get block_storage "size" (VInt 0)) ;;
  available <- lift (get block_storage "available" (VInt 0)) ;;
  percent_used <- lift (percent_used used size) ;;
  gauge_set tier_used [("tier", tier_name)] used ;;
  gauge_set tier_size [("tier", tier_name)] size ;;
  gauge_set tier_available [("tier", tier_name)] available ;;
  gauge_set tier_usage_percent [("tier", tier_name)] percent_used ;;
  full_threshold <- lift (get block_storage "full_threshold_percent" (VInt 0)) ;;
  physical_used <- lift (get block_storage "physical_used" (VInt 0)) ;;
  gauge_set tier_full_threshold_percent [("tier", tier_name)] full_threshold ;;
  gauge_set tier_physical_used [("tier", tier_name)] physical_used ;;
  logging INFO (TierSummary tier_name used size available percent_used
                            full_threshold physical_used).

(** Lines 126-154: the body of the loop over the list entries. *)
Definition tier_entry (ontap_ip username password : string) (agg : value)
  : M unit :=
  tier_name <- lift (get agg "name" (VStr "Inconnu")) ;;
  self_href <- lift (self_link agg) ;;
  if negb (truthy self_href) then
    logging ERROR (TierNoDetailLink tier_name)
  else
    let agg_detail_url := "https://" +:+ ontap_ip +:+ str self_href in
    agg_detail <- fetch_json agg_detail_url username password ;;
    if is_none agg_detail then
      logging ERROR (TierDetailFailed tier_name)
    else
      tier_detail_metrics tier_name agg_detail.

Definition collect_tier_metrics (ontap_ip username password : string)
  : M unit :=
  logging INFO TiersStart ;;
  let aggregates_list_url := "https://" +:+ ontap_ip +:+ "/api/storage/aggregates" in
  data <- fetch_json aggregates_list_url username password ;;
  if is_none data then
    logging ERROR TiersListFailed
  else
    aggregates <- lift (get data "records" data) ;;
    items <- lift (iter aggregates) ;;
    for_each items (tier_entry ontap_ip username password).

(** ** [collect_node_metrics] (lines 156-179) *)

(** Lines 167-179: the body of the loop over the list entries. *)
Definition node_entry (node : value) : M unit :=
  node_name <- lift (get node "name" (VStr "Inconnu")) ;;
  uptime <- lift (get node "uptime" (VInt 0)) ;;
  state <- lift (get node "state" (VStr "")) ;;
  state_str <- lift (lower state) ;;
  let state_val := if String.eqb state_str "up" then VInt 1 else VInt 0 in
  controller <- lift (get node "controller" (VDict ∅)) ;;
  cpu <- lift (get controller "cpu" (VDict ∅)) ;;
  cpu_count <- lift (get cpu "count" (VInt 0)) ;;
  controller' <- lift (get node "controller" (VDict ∅)) ;;
  memory_size <- lift (get controller' "memory_size" (VInt 0)) ;;
  gauge_set node_uptime [("node", node_name)] uptime ;;
  gauge_set node_state [("node", node_name)] state_val ;;
  gauge_set node_cpu_count [("node", node_name)] cpu_count ;;
  gauge_set node_memory_size [("node", node_name)] memory_size ;;
  logging INFO (NodeSummary node_name uptime state_str cpu_count memory_size).

Definition collect_node_metrics (ontap_ip username password : string)
  : M unit :=
  logging INFO NodesStart ;;
  let nodes_url := "https://" +:+ ontap_ip +:+ "/api/cluster/nodes" in
  data <- fetch_json nodes_url username password ;;
  if is_none data then
    logging ERROR NodesListFailed
  else
    nodes <- lift (get data "records" data) ;;
    items <- lift (iter nodes) ;;
    for_each items node_entry.

End WithRuntime.

(** ** The metric catalogue of the specification *)

(** The names and label sets listed in the specification's catalogue, in
    its order; used to compare with [declared_metrics]. *)
Definition catalogue : list (string * list string) :=
  [ ("volume_used_bytes", ["volume"]);
    ("volume_size_bytes", ["volume"]);
    ("volume_available_bytes", ["volume"]);
    ("volume_usage_percent", ["volume"]);
    ("volume_info", ["volume"; "style"; "type"; "snapshot_policy"; "svm"]);
    ("volume_create_time", ["volume"]);
    ("tier_used_bytes", ["tier"]);
    ("tier_size_bytes", ["tier"]);
    ("tier_available_bytes", ["tier"]);
    ("tier_usage_percent", ["tier"]);
    ("tier_full_threshold_percent", ["tier"]);
    ("tier_physical_used_bytes", ["tier"]);
    ("node_uptime_seconds", ["node"]);
    ("node_state", ["node"]);
    ("node_cpu_count", ["node"]);
    ("node_memory_size_bytes", ["node"]);
    ("failed_requests", ["endpoint"]) ].

End Exporter.

(* ================================================================== *)
(** * Terms in which the runs of the collectors are described *)
(* ================================================================== *)

Module Frame.
Import Py Exporter.

(** [preserves R m]: every run of [m], whether it returns or raises, leaves
    the state related by [R] to the state it started from. *)
Definition preserves {A} (R : relation world) (m : M A) : Prop :=
  forall w, R w (exec m w).

(** Only samples of the gauges in [P] may differ. *)
Definition gauges_outside (P : gauge -> Prop) : relation world :=
  fun w w' => forall g lvs, ~ P g -> gauges w' !! (g, lvs) = gauges w !! (g, lvs).

Definition same_gauges : relation world :=
  fun w w' => gauges w' = gauges w.

Definition same_failed_requests : relation world :=
  fun w w' => failed_requests w' = failed_requests w.

Definition same_requests : relation world :=
  fun w w' => requests w' = requests w.

(** Requests are only ever added. *)
Definition more_requests : relation world :=
  fun w w' => exists new, requests w' = (new ++ requests w)%list.

(** The four gauges written from the [space] object of a volume. *)
Definition space_gauges : list gauge :=
  [volume_used; volume_size; volume_available; volume_usage_percent].

(** The state in which a collector enters its loop, after a list fetch that
    succeeded. *)
Definition listed (start : message) (url : string) (w : world) : world :=
  mk_world (gauges w) (failed_requests w) (url :: requests w) ((INFO, start) :: log w).

End Frame.

(* ================================================================== *)
(** * A small upstream, used to run the collectors on concrete documents *)
(* ================================================================== *)

Module Fixture.
Import Py Exporter.

Definition dict (kvs : list (string * value)) : value := VDict (list_to_map kvs).

Definition links (href : string) : value :=
  dict [("self", dict [("href", VStr href)])].

(** [GET /api/storage/volumes]: the second entry has no detail link. *)
Definition volume_records : list value :=
  [ dict [("name", VStr "vol1"); ("_links", links "/api/storage/volumes/1")];
    dict [("name", VStr "vol2")];
    dict [("name", VStr "vol3"); ("_links", links "/api/storage/volumes/3")] ].

Definition vol1_detail : value :=
  dict [("name", VStr "vol1");
        ("space", dict [("used", VInt 50); ("size", VInt 200); ("available", VInt 150)]);
        ("create_time", VStr "2023-01-01T00:00:00Z");
        ("style", VStr "flexvol"); ("type", VStr "rw");
        ("snapshot_policy", dict [("name", VStr "default")]);
        ("svm", dict [("name", VStr "svm1")])].

(** A volume with an empty [space] object and a malformed creation time. *)
Definition vol3_fields : gmap string value :=
  list_to_map [("name", VStr "vol3"); ("space", dict []);
               ("create_time", VStr "not-a-date")].

Definition vol3_detail : value := VDict vol3_fields.

(** [GET /api/storage/aggregates] *)
Definition aggregate_records : list value :=
  [ dict [("name", VStr "aggr1"); ("_links", links "/api/storage/aggregates/1")] ].

Definition aggr1_detail : value :=
  dict [("name", VStr "aggr1");
        ("space", dict [("block_storage",
           dict [("used", VInt 300); ("size", VInt 1000); ("available", VInt 700);
                 ("full_threshold_percent", VInt 98); ("physical_used", VInt 280)])])].

(** [GET /api/cluster/nodes]: the entry carries its fields and a detail link. *)
Definition node_records : list value :=
  [ dict [("name", VStr "node1"); ("state", VStr "UP"); ("uptime", VInt 1234);
          ("controller", dict [("cpu", dict [("count", VInt 8)]);
                               ("memory_size", VInt 17179869184)]);
          ("_links", links "/api/cluster/nodes/1")] ].

Definition ok (v : value) : http_result := Responded (mk_response 200 (Some v)).

Definition routes : list (string * http_result) :=
  [ (* host 10.0.0.1 wraps its lists in an envelope *)
    ("https://10.0.0.1/api/storage/volumes", ok (dict [("records", VList volume_records)]));
    ("https://10.0.0.1/api/storage/volumes/1", ok vol1_detail);
    ("https://10.0.0.1/api/storage/volumes/3", ok vol3_detail);
    ("https://10.0.0.1/api/storage/aggregates", ok (dict [("records", VList aggregate_records)]));
    ("https://10.0.0.1/api/storage/aggregates/1", ok aggr1_detail);
    ("https://10.0.0.1/api/cluster/nodes", ok (dict [("records", VList node_records)]));
    (* host 10.0.0.2 answers with bare arrays *)
    ("https://10.0.0.2/api/storage/volumes", ok (VList volume_records));
    ("https://10.0.0.2/api/storage/aggregates", ok (VList aggregate_records));
    ("https://10.0.0.2/api/cluster/nodes", ok (VList node_records));
    (* host 10.0.0.3 refuses the connection, host 10.0.0.4 answers with a page
       that is not JSON, host 10.0.0.5 does not answer in time *)
    ("https://10.0.0.3/api/storage/volumes", Failed ConnectionError);
    ("https://10.0.0.4/api/storage/volumes", Responded (mk_response 200 None));
    ("https://10.0.0.5/api/storage/volumes", Failed Timeout);
    (* host 10.0.0.6 lists a node without any link *)
    ("https://10.0.0.6/api/cluster/nodes",
     ok (dict [("records", VList [dict [("name", VStr "node2"); ("state", VStr "up")]])])) ].

Fixpoint route (url : string) (rs : list (string * http_result)) : http_result :=
  match rs with
  | [] => Responded (mk_response 404 None)
  | (u, r) :: rs' => if String.eqb url u then r else route url rs'
  end.

(** No document of the fixture reaches [repr], [float_of_str] or
    [local_timestamp]; the parser is that of a Python before 3.11. *)
Definition upstream : runtime :=
  {| http_get := fun _ url _ _ => route url routes;
     repr := fun _ => "";
     float_of_str := fun _ => None;
     fromisoformat_beyond := fun _ => None;
     local_timestamp := fun _ => Raise OverflowError |}.

(** A freshly started process: nothing recorded yet. *)
Definition fresh : world := mk_world ∅ ∅ [] [].

End Fixture.

(* ================================================================== *)
(** * What a sweep keeps *)
(* ================================================================== *)

Module Keeps.
Import Py Exporter.

(** The gauges each collector writes to. *)
Definition volume_gauges : list gauge :=
  [volume_used; volume_size; volume_available; volume_usage_percent;
   volume_info; volume_create_time].

Definition tier_gauges : list gauge :=
  [tier_used; tier_size; tier_available; tier_usage_percent;
   tier_full_threshold_percent; tier_physical_used].

Definition node_gauges : list gauge :=
  [node_uptime; node_state; node_cpu_count; node_memory_size].

(** Only the samples whose key satisfies [K] may differ. *)
Definition samples_outside (K : gauge * list string -> Prop) : relation world :=
  fun w w' => forall key, ~ K key -> gauges w' !! key = gauges w !! key.

(** No sample is removed. *)
Definition keeps_samples : relation world :=
  fun w w' => forall key, is_Some (gauges w !! key) -> is_Some (gauges w' !! key).

(** No failure count goes down. *)
Definition counts_grow : relation world :=
  fun w w' =>
    forall url,
      (counter_value (failed_requests w) url <= counter_value (failed_requests w') url)%nat.

(** Requests are only added, and every one added satisfies [P]. *)
Definition requests_added (P : string -> Prop) : relation world :=
  fun w w' => exists new, requests w' = (new ++ requests w)%list /\ Forall P new.

(** The URLs of the host [ontap_ip], as the collectors build them: the
    texts that start with ["https://" + ontap_ip]. *)
Definition on_host (ontap_ip : string) (url : string) : Prop :=
  String.prefix ("https://" +:+ ontap_ip) url = true.

(** An info series that reads 1 still reads 1. *)
Definition info_stays : relation world :=
  fun w w' =>
    forall lvs, gauges w !! (volume_info, lvs) = Some 1%float ->
                gauges w' !! (volume_info, lvs) = Some 1%float.

(** What a run can do to the samples: create a child, which reads 0 until
    it is set, or set one. *)
Inductive write : Type :=
| Create (key : gauge * list string)
| Put (key : gauge * list string) (f : PrimFloat.float).

Definition apply_write (g : gmap (gauge * list string) PrimFloat.float) (op : write)
  : gmap (gauge * list string) PrimFloat.float :=
  match op with
  | Create key => match g !! key with Some _ => g | None => <[key := 0%float]> g end
  | Put key f => <[key := f]> g
  end.

Definition apply_writes (ops : list write)
    (g : gmap (gauge * list string) PrimFloat.float)
  : gmap (gauge * list string) PrimFloat.float :=
  foldl apply_write g ops.

(** What a write does to the sample of [key]. *)
Definition write_effect (op : write) (key : gauge * list string)
    (x : option PrimFloat.float) : option PrimFloat.float :=
  match op with
  | Create k => if decide (k = key) then Some (default 0%float x) else x
  | Put k f => if decide (k = key) then Some f else x
  end.

(** [m] reads nothing of the state: its result and the writes it makes to
    the samples are the same from every state. *)
Definition writes_only {A} (m : M A) : Prop :=
  exists (o : outcome A) (ops : list write),
    forall w, (m w).1 = o /\ gauges (exec m w) = apply_writes ops (gauges w).

(** The resource a sample belongs to: its first label value, which every
    gauge of the module reserves for the name of the volume, aggregate or
    node. *)
Definition resource (key : gauge * list string) : option string := head key.2.

(** The samples of the resources called by one of [names]. *)
Definition among_resources (names : list string) (key : gauge * list string) : Prop :=
  exists name, name ∈ names /\ resource key = Some name.

(** The ERROR record that [fetch_json] writes for an answer that makes the
    fetch fail. *)
Definition failure_message (url : string) (answer : http_result) : message :=
  match answer with
  | Failed e => FetchException url e
  | Responded r =>
      if status_code r =? 200 then FetchException url JSONDecodeError
      else FetchStatus (status_code r) url
  end.

(** The state after a fetch of [url] that failed: the request made, the
    ERROR record written and one failure counted for [url]. *)
Definition fetch_failed (url : string) (msg : message) (w : world) : world :=
  mk_world (gauges w)
           (<[url := S (counter_value (failed_requests w) url)]> (failed_requests w))
           (url :: requests w) ((ERROR, msg) :: log w).

Section WithRuntime.
Context (rt : runtime).

(** The samples of the resource whose name is the value [name]. *)
Definition of_resource (name : value) (key : gauge * list string) : Prop :=
  resource key = Some (str rt name).

(** The label values under which the entries of a list are recorded: the
    [str] of their names, for the entries that have a [get] method. *)
Definition entry_names (entries : list value) : list string :=
  omap (fun entry =>
          match get entry "name" (VStr "Inconnu") with
          | Ret name => Some (str rt name)
          | Raise _ => None
          end) entries.

End WithRuntime.

End Keeps.

(* ================================================================== *)
(** * Creation times with an offset, or with none *)
(* ================================================================== *)

Module IsoText.
Import UnixTime.

(** The text [YYYY-MM-DDThh:mm:ss] of a date and time, followed by [rest]. *)
Definition iso8601_fields (y m d hh mm ss : Z) (rest : string) : string :=
  digits4 y (String "-" (digits2 m (String "-" (digits2 d (String "T"
    (digits2 hh (String ":" (digits2 mm (String ":" (digits2 ss rest)))))))))).

(** The text with an offset from UTC, [+HH:MM] or [-HH:MM] ([neg]). *)
Definition iso8601_offset (y m d hh mm ss : Z) (neg : bool) (oh om : Z) : string :=
  iso8601_fields y m d hh mm ss
    (String (if neg then "-" else "+")%char (digits2 oh (String ":" (digits2 om "")))).

(** The text without any designation of the zone. *)
Definition iso8601_naive (y m d hh mm ss : Z) : string :=
  iso8601_fields y m d hh mm ss "".

(** The offset in seconds: positive to the east of Greenwich. *)
Definition offset_seconds (neg : bool) (oh om : Z) : Z :=
  let off := oh * 3600 + om * 60 in if neg then - off else off.

End IsoText.

(* ================================================================== *)
(** * The connection parameters of a scrape *)
(* ================================================================== *)

Module Handler.

(** Lines 196-198 of [metrics]: what a scrape connects with.  [args] holds
    the query parameters of the request (for a parameter given several
    times, its first value, which is what [request.args.get] returns) and
    [environ] the environment of the process. *)

(** [request.args.get(name)] *)
Definition args_get (args : gmap string string) (name : string) : option string :=
  args !! name.

(** [os.getenv(name, default)] *)
Definition getenv (environ : gmap string string) (name default : string) : string :=
  from_option id default (environ !! name).

(** [a or b], for [a] a string or [None]: [b] when [a] is [None] or empty. *)
Definition or_else (a : option string) (b : string) : string :=
  match a with
  | Some s => if String.eqb s "" then b else s
  | None => b
  end.

(** [request.args.get(name) or os.getenv(name, default)] *)
Definition parameter (args environ : gmap string string) (name default : string)
  : string :=
  or_else (args_get args name) (getenv environ name default).

Record connection : Type := mk_connection {
  ontap_ip : string;
  username : string;
  password : string
}.

Definition connection_parameters (args environ : gmap string string) : connection :=
  {| ontap_ip := parameter args environ "ONTAP_IP" "default_ip";
     username := parameter args environ "ONTAP_USER" "admin";
     password := parameter args environ "ONTAP_PASS" "password" |}.

End Handler.

(* ================================================================== *)
(** * More upstreams to run the collectors against *)
(* ================================================================== *)

Module Cases.
Import Py Exporter.

(** An upstream that answers from a table of routes, and with 404
    elsewhere. *)
Definition serving (routes : list (string * http_result)) : runtime :=
  {| http_get := fun _ url _ _ => Fixture.route url routes;
     repr := fun _ => "";
     float_of_str := fun _ => None;
     fromisoformat_beyond := fun _ => None;
     local_timestamp := fun _ => Raise OverflowError |}.

(** An error object, an envelope whose [records] is [null], and the
    envelope of the three volumes of the fixture. *)
Definition error_fields : gmap string value :=
  list_to_map [("error", Fixture.dict [("message", VStr "busy")])].

Definition null_records_fields : gmap string value :=
  list_to_map [("records", VNone)].

Definition volume_envelope_fields : gmap string value :=
  list_to_map [("records", VList Fixture.volume_records)].

(** A volume list entry whose ["_links"] is [null]. *)
Definition null_links_entry : value :=
  Fixture.dict [("name", VStr "z"); ("_links", VNone)].

(** The detail of a volume whose size is [null]. *)
Definition odd_space_fields : gmap string value :=
  list_to_map [("used", VInt 1); ("size", VNone)].

Definition odd_detail_fields : gmap string value :=
  list_to_map [("space", VDict odd_space_fields)].

(** Host 10.0.1.1 answers its volume list with the JSON value [null], host
    10.0.1.2 with an error object, host 10.0.1.3 with an empty object, host
    10.0.1.4 with an envelope whose [records] is [null]; host 10.0.1.5
    lists a volume that has since been removed, then one whose detail gives
    a size that is not a number, then a healthy one. *)
Definition odd_routes : list (string * http_result) :=
  [ ("https://10.0.1.1/api/storage/volumes", Fixture.ok VNone);
    ("https://10.0.1.2/api/storage/volumes", Fixture.ok (VDict error_fields));
    ("https://10.0.1.3/api/storage/volumes", Fixture.ok (Fixture.dict []));
    ("https://10.0.1.4/api/storage/volumes", Fixture.ok (VDict null_records_fields));
    ("https://10.0.1.5/api/storage/volumes",
     Fixture.ok (Fixture.dict [("records", VList
       [ Fixture.dict [("name", VStr "gone"); ("_links", Fixture.links "/api/storage/volumes/0")];
         Fixture.dict [("name", VStr "odd"); ("_links", Fixture.links "/api/storage/volumes/8")];
         Fixture.dict [("name", VStr "fine"); ("_links", Fixture.links "/api/storage/volumes/9")] ])]));
    ("https://10.0.1.5/api/storage/volumes/8",
     Fixture.ok (VDict odd_detail_fields));
    ("https://10.0.1.5/api/storage/volumes/9",
     Fixture.ok (Fixture.dict [("space", Fixture.dict [("used", VInt 1); ("size", VInt 4)])])) ].

Definition odd : runtime := serving odd_routes.

(** An exporter whose process runs in a zone at a fixed offset from UTC, in
    seconds: the timestamp of a naive [datetime] is that of the same fields
    read in that zone. *)
Definition in_zone (offset : Z) : runtime :=
  {| http_get := fun _ url _ _ => Fixture.route url [];
     repr := fun _ => "";
     float_of_str := fun _ => None;
     fromisoformat_beyond := fun _ => None;
     local_timestamp := fun dt =>
       int_truediv (Datetime.micros_since_epoch dt (offset * 1000000)) 1000000 |}.

(** An exporter running on a Python whose parser reads a fraction of any
    length: of the texts outside the documented format, it is given here
    on the one that the examples use. *)
Definition lenient : runtime :=
  {| http_get := fun _ url _ _ => Fixture.route url [];
     repr := fun _ => "";
     float_of_str := fun _ => None;
     fromisoformat_beyond := fun s =>
       if String.eqb s "2023-01-01T00:00:00.5+00:00"
       then Some (Datetime.mk_datetime 2023 1 1 0 0 0 500000 (Some 0))
       else None;
     local_timestamp := fun _ => Raise OverflowError |}.

(** A process that has already swept once: samples of a volume and of a
    node from that sweep, and one failure counted. *)
Definition swept : world :=
  mk_world (list_to_map [ ((volume_used, ["old"]), 7%float);
                          ((volume_info, ["old"; "flexvol"; "rw"; "default"; "svm1"]), 1%float);
                          ((node_state, ["node9"]), 1%float) ])
           (list_to_map [("https://10.0.0.9/api/storage/volumes", 2%nat)])
           ["https://10.0.0.9/api/storage/volumes"] [].

(** A scrape [/metrics?ONTAP_IP=10.0.0.1&ONTAP_USER=] of a process started
    with [ONTAP_IP] and [ONTAP_USER] in its environment. *)
Definition scrape_args : gmap string string :=
  list_to_map [("ONTAP_IP", "10.0.0.1"); ("ONTAP_USER", "")].

Definition process_environ : gmap string string :=
  list_to_map [("ONTAP_IP", "10.0.0.7"); ("ONTAP_USER", "monitor")].

End Cases.
(* ================================================================== *)
(** * Reasoning about runs *)
(* ================================================================== *)

Module Run.
Import Py Exporter.
Export Frame.
#[local] Open Scope py_scope.

(** ** Equations of the monad *)

Lemma bind_ret {A B} (a : A) (k : A -> M B) w : bind (ret a) k w = k a w.
Proof. reflexivity. Qed.

Lemma bind_lift_Ret {A B} (a : A) (k : A -> M B) w :
  bind (lift (Ret a)) k w = k a w.
Proof. reflexivity. Qed.

Lemma bind_lift_Raise {A B} e (k : A -> M B) w :
  bind (lift (Raise e)) k w = (Raise e, w).
Proof. reflexivity. Qed.

Lemma bind_run_Ret {A B} (m : M A) (k : A -> M B) w a w' :
  m w = (Ret a, w') -> bind m k w = k a w'.
Proof. unfold bind. by intros ->. Qed.

Lemma bind_assoc {A B C} (m : M A) (k : A -> M B) (h : B -> M C) w :
  bind (bind m k) h w = bind m (fun a => bind (k a) h) w.
Proof. unfold bind. by destruct (m w) as [[a|e] w']. Qed.

Lemma exec_bind {A B} (m : M A) (k : A -> M B) w :
  exec (bind m k) w =
  match m w with
  | (Ret a, w') => exec (k a) w'
  | (Raise _, w') => w'
  end.
Proof. unfold exec, bind. by destruct (m w) as [[a|e] w']. Qed.

Lemma bind_ext {A B} (m : M A) (k k' : A -> M B) w :
  (forall a w', k a w' = k' a w') -> bind m k w = bind m k' w.
Proof. intros H. unfold bind. destruct (m w) as [[a|e] w']; [apply H | done]. Qed.

Lemma exec_bind_lift_Ret {A B} (a : A) (k : A -> M B) w :
  exec (bind (lift (Ret a)) k) w = exec (k a) w.
Proof. reflexivity. Qed.

Lemma exec_bind_Ret {A B} (m : M A) (k : A -> M B) w a w' :
  m w = (Ret a, w') -> exec (bind m k) w = exec (k a) w'.
Proof. intros H. rewrite exec_bind. by rewrite H. Qed.

Lemma for_each_app xs ys body w :
  for_each (xs ++ ys) body w = bind (for_each xs body) (fun _ => for_each ys body) w.
Proof.
  revert w. induction xs as [|x xs IH]; intros w; simpl.
  - reflexivity.
  - rewrite bind_assoc. apply bind_ext. intros _ w'. apply IH.
Qed.

(** ** Frame conditions follow the structure of the program *)

Section Preserves.
Context (R : relation world) `{!PreOrder R}.

Lemma preserves_ret {A} (a : A) : preserves R (ret a).
Proof. intros w. reflexivity. Qed.

Lemma preserves_raise {A} e : preserves R (@raise A e).
Proof. intros w. reflexivity. Qed.

Lemma preserves_lift {A} (o : outcome A) : preserves R (lift o).
Proof. intros w. reflexivity. Qed.

Lemma preserves_bind {A B} (m : M A) (k : A -> M B) :
  preserves R m -> (forall a, preserves R (k a)) -> preserves R (bind m k).
Proof.
  intros Hm Hk w. rewrite exec_bind. specialize (Hm w). unfold exec in Hm.
  destruct (m w) as [[a|e] w']; simpl in Hm; [|done].
  etrans; [exact Hm | apply Hk].
Qed.

Lemma preserves_try_except {A} (m : M A) (h : exn -> M A) :
  preserves R m -> (forall e, preserves R (h e)) -> preserves R (try_except m h).
Proof.
  intros Hm Hh w. specialize (Hm w). unfold exec, try_except in *.
  destruct (m w) as [[a|e] w']; simpl in *; [done|].
  etrans; [exact Hm | apply Hh].
Qed.

Lemma preserves_for_each xs body :
  (forall x, preserves R (body x)) -> preserves R (for_each xs body).
Proof.
  intros Hb. induction xs as [|x xs IH]; simpl.
  - apply preserves_ret.
  - apply preserves_bind; [apply Hb | intros _; apply IH].
Qed.

End Preserves.

#[global] Instance gauges_outside_preorder P : PreOrder (gauges_outside P).
Proof.
  split.
  - by intros w g lvs _.
  - intros w1 w2 w3 H12 H23 g lvs HP. by rewrite H23, H12.
Qed.

#[global] Instance same_gauges_preorder : PreOrder same_gauges.
Proof. split; [done | intros w1 w2 w3; unfold same_gauges; congruence]. Qed.

#[global] Instance same_failed_requests_preorder : PreOrder same_failed_requests.
Proof. split; [done | intros w1 w2 w3; unfold same_failed_requests; congruence]. Qed.

#[global] Instance same_requests_preorder : PreOrder same_requests.
Proof. split; [done | intros w1 w2 w3; unfold same_requests; congruence]. Qed.

#[global] Instance more_requests_preorder : PreOrder more_requests.
Proof.
  split.
  - intros w. by exists [].
  - intros w1 w2 w3 [n1 H1] [n2 H2]. exists (n2 ++ n1)%list.
    by rewrite H2, H1, app_assoc.
Qed.

Lemma preserves_weaken {A} (R R' : relation world) (m : M A) :
  (forall w w', R w w' -> R' w w') -> preserves R m -> preserves R' m.
Proof. intros HR Hm w. apply HR, Hm. Qed.

Lemma same_requests_more w w' : same_requests w w' -> more_requests w w'.
Proof. intros H. exists []. exact H. Qed.

(** Frame conditions are proved by following the structure of the program;
    the facts about the primitives are collected in the hint database
    [frame]. *)
Create HintDb frame discriminated.

Ltac frame_step :=
  lazymatch goal with
  | |- preserves _ (bind _ _) =>
      apply preserves_bind; [typeclasses eauto | | intros ?]
  | |- preserves _ (try_except _ _) =>
      apply preserves_try_except; [typeclasses eauto | | intros ?]
  | |- preserves _ (for_each _ _) =>
      apply preserves_for_each; [typeclasses eauto | intros ?]
  | |- preserves _ (ret _) => apply preserves_ret; typeclasses eauto
  | |- preserves _ (raise _) => apply preserves_raise; typeclasses eauto
  | |- preserves _ (lift _) => apply preserves_lift; typeclasses eauto
  | |- preserves _ (if ?b then _ else _) => destruct b
  end.

Ltac frame := repeat frame_step; eauto with frame.

End Run.

(* ================================================================== *)
(** * Facts about the registry operations and the fetcher *)
(* ================================================================== *)

Module Facts.
Import Py Exporter Run.
#[local] Open Scope py_scope.

(** ** What each primitive leaves alone *)

Lemma logging_same_gauges l msg : preserves same_gauges (logging l msg).
Proof. by intros w. Qed.

Lemma logging_same_failed_requests l msg :
  preserves same_failed_requests (logging l msg).
Proof. by intros w. Qed.

Lemma logging_same_requests l msg : preserves same_requests (logging l msg).
Proof. by intros w. Qed.

Lemma logging_gauges_outside P l msg : preserves (gauges_outside P) (logging l msg).
Proof. by intros w g lvs _. Qed.

Lemma failed_requests_inc_same_gauges url :
  preserves same_gauges (failed_requests_inc url).
Proof. by intros w. Qed.

Lemma failed_requests_inc_same_requests url :
  preserves same_requests (failed_requests_inc url).
Proof. by intros w. Qed.

Lemma same_gauges_outside {A} P (m : M A) :
  preserves same_gauges m -> preserves (gauges_outside P) m.
Proof. intros H w g lvs _. by rewrite (H w). Qed.

(** Removing a key changes nothing for the readers of the other keys. *)
Lemma get_delete_ne (d : gmap string value) removed key default :
  key <> removed ->
  get (VDict (delete removed d)) key default = get (VDict d) key default.
Proof. intros Hne. unfold get. by rewrite lookup_delete_ne. Qed.

#[export] Hint Resolve logging_same_gauges logging_same_failed_requests
  logging_same_requests logging_gauges_outside failed_requests_inc_same_gauges
  failed_requests_inc_same_requests : frame.

Section WithRuntime.
Context (rt : runtime).

Lemma requests_get_same_gauges url u p :
  preserves same_gauges (requests_get rt url u p).
Proof.
  intros w. unfold exec, requests_get.
  by destruct (http_get rt _ url u p).
Qed.

Lemma requests_get_same_failed_requests url u p :
  preserves same_failed_requests (requests_get rt url u p).
Proof.
  intros w. unfold exec, requests_get.
  by destruct (http_get rt _ url u p).
Qed.

Lemma response_json_preserves R `{!PreOrder R} r : preserves R (response_json r).
Proof. unfold response_json. destruct (json_body r); frame. Qed.

#[local] Hint Resolve requests_get_same_gauges requests_get_same_failed_requests
  response_json_preserves : frame.

(** [fetch_json] never touches a gauge. *)
Lemma fetch_json_same_gauges url u p :
  preserves same_gauges (fetch_json rt url u p).
Proof. unfold fetch_json. frame. apply response_json_preserves, _. Qed.

(** [fetch_json] never raises: every exception is caught. *)
Lemma fetch_json_returns url u p w : exists v, (fetch_json rt url u p w).1 = Ret v.
Proof.
  unfold fetch_json, try_except, bind, requests_get.
  destruct (http_get rt _ url u p) as [e|r]; simpl; [by eexists|].
  destruct (status_code r =? 200); simpl; [|by eexists].
  unfold response_json. destruct (json_body r); simpl; by eexists.
Qed.

(** [fetch_json] issues exactly one request, to the URL it is given. *)
Lemma fetch_json_requests url u p w :
  requests (exec (fetch_json rt url u p) w) = url :: requests w.
Proof.
  unfold exec, fetch_json, try_except, bind, requests_get.
  destruct (http_get rt _ url u p) as [e|r]; simpl; [done|].
  destruct (status_code r =? 200); simpl; [|done].
  unfold response_json. by destruct (json_body r).
Qed.

(** A successful fetch returns the decoded body and counts no failure. *)
Lemma fetch_json_success url u p w v :
  http_get rt (length (requests w)) url u p = Responded (mk_response 200 (Some v)) ->
  fetch_json rt url u p w =
  (Ret v, mk_world (gauges w) (failed_requests w) (url :: requests w) (log w)).
Proof.
  intros H. unfold fetch_json, try_except, bind, requests_get. by rewrite H.
Qed.

End WithRuntime.

End Facts.

(* ================================================================== *)
(** * Writing gauge samples *)
(* ================================================================== *)

Module Gauges.
Import Py Exporter Run Facts.
#[local] Open Scope py_scope.

Section WithRuntime.
Context (rt : runtime).

(** A gauge with one label, called with that label as keyword. *)
Lemma labelvalues_single g l v :
  gauge_labelnames g = [l] -> labelvalues rt g [(l, v)] = Ret [str rt v].
Proof.
  intros Hl. unfold labelvalues. rewrite Hl.
  case_bool_decide as Hperm; [|by destruct Hperm].
  simpl. by rewrite lookup_insert_eq.
Qed.

Lemma labelvalues_volume_info v1 v2 v3 v4 v5 :
  labelvalues rt volume_info
    [("volume", v1); ("style", v2); ("type", v3); ("snapshot_policy", v4); ("svm", v5)]
  = Ret [str rt v1; str rt v2; str rt v3; str rt v4; str rt v5].
Proof.
  unfold labelvalues.
  case_bool_decide as Hperm; [|by destruct Hperm].
  reflexivity.
Qed.

(** Setting a gauge whose labels are accepted and whose value converts to
    a float returns and records the sample. *)
Lemma gauge_set_run g kwargs v w lvs f :
  labelvalues rt g kwargs = Ret lvs ->
  float rt v = Ret f ->
  gauge_set rt g kwargs v w = (Ret tt, record_sample (g, lvs) f w).
Proof.
  intros Hl Hf. unfold gauge_set, labels, set, bind, lift. rewrite Hl, Hf.
  unfold record_sample. destruct (gauges w !! (g, lvs)); simpl; [done|].
  by rewrite insert_insert_eq.
Qed.

(** Whatever happens, [gauge_set g] only touches samples of [g]. *)
Lemma gauge_set_gauges_outside (P : gauge -> Prop) g kwargs v :
  P g -> preserves (gauges_outside P) (gauge_set rt g kwargs v).
Proof.
  intros HP w g' lvs' HnP.
  assert (forall lvs, (g, lvs) <> (g', lvs')) as Hne by (intros lvs [= -> _]; done).
  unfold exec, gauge_set, labels, set, bind, lift.
  destruct (labelvalues rt g kwargs) as [lvs|e]; simpl; [|done].
  destruct (float rt v) as [f|e]; simpl.
  - destruct (gauges w !! (g, lvs)); simpl; by rewrite !lookup_insert_ne.
  - destruct (gauges w !! (g, lvs)); simpl; [done | by rewrite lookup_insert_ne].
Qed.

Lemma gauge_set_same_failed_requests g kwargs v :
  preserves same_failed_requests (gauge_set rt g kwargs v).
Proof.
  intros w. unfold exec, gauge_set, labels, set, bind, lift, same_failed_requests.
  destruct (labelvalues rt g kwargs) as [lvs|e]; simpl; [|done].
  destruct (float rt v) as [f|e]; simpl; by destruct (gauges w !! (g, lvs)).
Qed.

Lemma gauge_set_same_requests g kwargs v :
  preserves same_requests (gauge_set rt g kwargs v).
Proof.
  intros w. unfold exec, gauge_set, labels, set, bind, lift, same_requests.
  destruct (labelvalues rt g kwargs) as [lvs|e]; simpl; [|done].
  destruct (float rt v) as [f|e]; simpl; by destruct (gauges w !! (g, lvs)).
Qed.

End WithRuntime.

(** Reads a sample back from a state built with [record_sample]. *)
Ltac lookup_sample :=
  simpl; repeat (rewrite lookup_insert_ne by (intros [=])); apply lookup_insert_eq.

(** Closes [g ∉ [g1; ...; gn]] for distinct constructors. *)
Ltac not_among :=
  let H := fresh "Hin" in
  intros H;
  repeat (apply elem_of_cons in H as [H|H]; [discriminate H|]);
  by apply elem_of_nil in H.

#[export] Hint Resolve gauge_set_same_failed_requests gauge_set_same_requests : frame.
#[export] Hint Extern 2 (preserves (gauges_outside _) (gauge_set _ _ _ _)) =>
  apply gauge_set_gauges_outside; set_solver : frame.

End Gauges.


(* ================================================================== *)
(** * The three blocks recorded from a volume detail object *)
(* ================================================================== *)

Module Volumes.
Import Py Exporter Run Facts Gauges.
#[local] Open Scope py_scope.

Section WithRuntime.
Context (rt : runtime).

(** A quotient is always a float. *)
Lemma truediv_float a b q : truediv a b = Ret q -> exists f, q = VFloat f.
Proof.
  unfold truediv. intros Hq.
  destruct (as_number a) as [[x|x]|], (as_number b) as [[y|y]|];
    simpl in Hq; try done;
    repeat match type of Hq with
           | context [match ?o with _ => _ end] => destruct o; try done
           end;
    injection Hq as <-; by eexists.
Qed.

(** The two ways the guarded percentage is obtained. *)
Lemma percent_used_cases used size pct :
  percent_used used size = Ret pct ->
  (gt size (VInt 0) = Ret true /\
   (q ← truediv used size; mul q (VInt 100)) = Ret pct /\
   exists f, pct = VFloat f) \/
  (gt size (VInt 0) = Ret false /\ pct = VInt 0).
Proof.
  unfold percent_used. destruct (gt size (VInt 0)) as [[]|]; simpl; [| |done].
  - intros Hpct. left. split; [done|]. split; [done|].
    destruct (truediv used size) as [q|] eqn:Hq; simpl in Hpct; [|done].
    destruct (truediv_float _ _ _ Hq) as [fq ->].
    unfold mul in Hpct. simpl in Hpct. injection Hpct as <-. by eexists.
  - intros [= <-]. by right.
Qed.

(** Lines 82-93, when the [space] object is not empty. *)
Lemma volume_space_metrics_run vol_name vol_detail space used size available pct
      fu fs fa fp w :
  get vol_detail "space" (VDict ∅) = Ret space ->
  truthy space = true ->
  get space "used" (VInt 0) = Ret used ->
  get space "size" (VInt 0) = Ret size ->
  get space "available" (VInt 0) = Ret available ->
  percent_used used size = Ret pct ->
  float rt used = Ret fu -> float rt size = Ret fs ->
  float rt available = Ret fa -> float rt pct = Ret fp ->
  volume_space_metrics rt vol_name vol_detail w =
  (Ret tt,
   record_log INFO (VolumeSpace vol_name used size available pct)
     (record_sample (volume_usage_percent, [str rt vol_name]) fp
        (record_sample (volume_available, [str rt vol_name]) fa
           (record_sample (volume_size, [str rt vol_name]) fs
              (record_sample (volume_used, [str rt vol_name]) fu w))))).
Proof.
  intros Hspace Htrue Hused Hsize Havail Hpct Hfu Hfs Hfa Hfp.
  unfold volume_space_metrics.
  rewrite Hspace, bind_lift_Ret, Htrue, Hused, bind_lift_Ret, Hsize, bind_lift_Ret,
    Havail, bind_lift_Ret, Hpct, bind_lift_Ret.
  repeat (erewrite bind_run_Ret
            by (apply gauge_set_run; [by apply labelvalues_single | eassumption])).
  reflexivity.
Qed.

(** Lines 82-95, when the [space] object is absent or empty. *)
Lemma volume_space_metrics_skip vol_name vol_detail space w :
  get vol_detail "space" (VDict ∅) = Ret space ->
  truthy space = false ->
  volume_space_metrics rt vol_name vol_detail w =
  (Ret tt, record_log INFO (VolumeNoSpace vol_name) w).
Proof.
  intros Hspace Hfalse. unfold volume_space_metrics.
  by rewrite Hspace, bind_lift_Ret, Hfalse.
Qed.

Lemma volume_space_metrics_footprint vol_name vol_detail :
  preserves (gauges_outside (.∈ space_gauges))
            (volume_space_metrics rt vol_name vol_detail).
Proof. unfold volume_space_metrics, space_gauges. frame. Qed.

Lemma volume_create_time_metric_footprint vol_name vol_detail :
  preserves (gauges_outside (.= volume_create_time))
            (volume_create_time_metric rt vol_name vol_detail).
Proof. unfold volume_create_time_metric. frame. Qed.

Lemma volume_info_metric_footprint vol_name vol_detail :
  preserves (gauges_outside (.= volume_info))
            (volume_info_metric rt vol_name vol_detail).
Proof. unfold volume_info_metric. frame. Qed.

(** After the space block, the two later blocks of the loop body do not
    touch the space gauges, whether they return or raise. *)
Lemma volume_later_blocks_footprint vol_name vol_detail :
  preserves (gauges_outside (.∈ [volume_create_time; volume_info]))
    (volume_create_time_metric rt vol_name vol_detail ;;
     volume_info_metric rt vol_name vol_detail).
Proof. unfold volume_create_time_metric, volume_info_metric. frame. Qed.

End WithRuntime.
End Volumes.

(* ================================================================== *)
(** * Aggregates *)
(* ================================================================== *)

Module Tiers.
Import Py Exporter Run Facts Gauges.
#[local] Open Scope py_scope.

Section WithRuntime.
Context (rt : runtime).

(** Lines 137-154, for a detail object whose fields have the expected
    shape. *)
Lemma tier_detail_metrics_run tier_name agg_detail space block_storage
      used size available full_threshold physical_used pct
      fu fs fa fp ft fph w :
  get agg_detail "space" (VDict ∅) = Ret space ->
  get space "block_storage" (VDict ∅) = Ret block_storage ->
  get block_storage "used" (VInt 0) = Ret used ->
  get block_storage "size" (VInt 0) = Ret size ->
  get block_storage "available" (VInt 0) = Ret available ->
  get block_storage "full_threshold_percent" (VInt 0) = Ret full_threshold ->
  get block_storage "physical_used" (VInt 0) = Ret physical_used ->
  percent_used used size = Ret pct ->
  float rt used = Ret fu -> float rt size = Ret fs ->
  float rt available = Ret fa -> float rt pct = Ret fp ->
  float rt full_threshold = Ret ft -> float rt physical_used = Ret fph ->
  tier_detail_metrics rt tier_name agg_detail w =
  (Ret tt,
   record_log INFO (TierSummary tier_name used size available pct
                                full_threshold physical_used)
     (record_sample (tier_physical_used, [str rt tier_name]) fph
        (record_sample (tier_full_threshold_percent, [str rt tier_name]) ft
           (record_sample (tier_usage_percent, [str rt tier_name]) fp
              (record_sample (tier_available, [str rt tier_name]) fa
                 (record_sample (tier_size, [str rt tier_name]) fs
                    (record_sample (tier_used, [str rt tier_name]) fu w))))))).
Proof.
  intros Hspace Hbs Hused Hsize Havail Hthr Hphys Hpct Hfu Hfs Hfa Hfp Hft Hfph.
  unfold tier_detail_metrics.
  rewrite Hspace, bind_lift_Ret, Hbs, bind_lift_Ret, Hused, bind_lift_Ret,
    Hsize, bind_lift_Ret, Havail, bind_lift_Ret, Hpct, bind_lift_Ret.
  do 4 (erewrite bind_run_Ret
          by (apply gauge_set_run; [by apply labelvalues_single | eassumption])).
  rewrite Hthr, bind_lift_Ret, Hphys, bind_lift_Ret.
  do 2 (erewrite bind_run_Ret
          by (apply gauge_set_run; [by apply labelvalues_single | eassumption])).
  reflexivity.
Qed.

End WithRuntime.
End Tiers.

(* ================================================================== *)
(** * Nodes *)
(* ================================================================== *)

Module Nodes.
Import Py Exporter Run Facts Gauges.
#[local] Open Scope py_scope.

(** Lowering both sides and comparing is comparing up to case. *)
Lemma lower_string_eqb s t :
  String.eqb (lower_string s) (lower_string t) = caseless_eq s t.
Proof.
  revert t. induction s as [|a s IH]; intros [|b t]; simpl; try done.
  rewrite IH. by destruct (Ascii.eqb_spec (lower_char a) (lower_char b)).
Qed.

Lemma lower_char_u a : lower_char a = "u"%char -> a = "u"%char \/ a = "U"%char.
Proof.
  destruct a as [[] [] [] [] [] [] [] []]; vm_compute; intros H;
    first [discriminate H | by left | by right].
Qed.

Lemma lower_char_p a : lower_char a = "p"%char -> a = "p"%char \/ a = "P"%char.
Proof.
  destruct a as [[] [] [] [] [] [] [] []]; vm_compute; intros H;
    first [discriminate H | by left | by right].
Qed.

(** The strings equal to ["up"] up to case are its four casings. *)
Lemma caseless_up s :
  caseless_eq s "up" = true <-> s = "up" \/ s = "Up" \/ s = "uP" \/ s = "UP".
Proof.
  split.
  - destruct s as [|a [|b [|c s]]]; simpl; try done.
    + by rewrite andb_false_r.
    + rewrite andb_true_r.
      intros [Ha%Ascii.eqb_eq%lower_char_u Hb%Ascii.eqb_eq%lower_char_p]%andb_true_iff.
      destruct Ha as [-> | ->], Hb as [-> | ->]; auto.
    + by rewrite !andb_false_r.
  - intros [-> | [-> | [-> | ->]]]; reflexivity.
Qed.

Section WithRuntime.
Context (rt : runtime).

(** What follows the write of [node_state] only touches the two gauges of
    the controller. *)
Lemma node_entry_tail_footprint node_name cpu_count memory_size msg :
  preserves (gauges_outside (.∈ [node_cpu_count; node_memory_size]))
    (gauge_set rt node_cpu_count [("node", node_name)] cpu_count ;;
     gauge_set rt node_memory_size [("node", node_name)] memory_size ;;
     logging INFO msg).
Proof. frame. Qed.

End WithRuntime.
End Nodes.

(* ================================================================== *)
(** * The loops of the collectors *)
(* ================================================================== *)

Module Collectors.
Import Py Exporter Run Facts Gauges.
#[local] Open Scope py_scope.

#[export] Hint Extern 3 (preserves more_requests _) =>
  apply (preserves_weaken same_requests more_requests _ same_requests_more) : frame.

Section WithRuntime.
Context (rt : runtime).

(** Recording from a fetched object issues no request. *)
Lemma volume_detail_metrics_same_requests vol_name vol_detail :
  preserves same_requests (volume_detail_metrics rt vol_name vol_detail).
Proof.
  unfold volume_detail_metrics, volume_space_metrics, volume_create_time_metric,
    volume_info_metric.
  frame.
Qed.

Lemma tier_detail_metrics_same_requests tier_name agg_detail :
  preserves same_requests (tier_detail_metrics rt tier_name agg_detail).
Proof. unfold tier_detail_metrics. frame. Qed.

Lemma node_entry_same_requests node : preserves same_requests (node_entry rt node).
Proof. unfold node_entry. frame. Qed.

Lemma fetch_json_more_requests url u p :
  preserves more_requests (fetch_json rt url u p).
Proof. intros w. exists [url]. apply fetch_json_requests. Qed.

#[local] Hint Resolve volume_detail_metrics_same_requests
  tier_detail_metrics_same_requests node_entry_same_requests
  fetch_json_more_requests : frame.

Lemma volume_entry_more_requests ip u p vol :
  preserves more_requests (volume_entry rt ip u p vol).
Proof. unfold volume_entry. frame. Qed.

Lemma tier_entry_more_requests ip u p agg :
  preserves more_requests (tier_entry rt ip u p agg).
Proof. unfold tier_entry. frame. Qed.

(** A collector whose list fetch returns [data] goes on with
    [data.get("records", data)]. *)
Lemma collect_volume_metrics_listed ip u p w data :
  http_get rt (length (requests w)) ("https://" +:+ ip +:+ "/api/storage/volumes") u p
  = Responded (mk_response 200 (Some data)) ->
  is_none data = false ->
  collect_volume_metrics rt ip u p w =
  (volumes <- lift (get data "records" data) ;;
   items <- lift (iter volumes) ;;
   for_each items (volume_entry rt ip u p))
    (listed VolumesStart ("https://" +:+ ip +:+ "/api/storage/volumes") w).
Proof.
  intros Hget Hdata. unfold collect_volume_metrics.
  unfold bind at 1. simpl.
  erewrite bind_run_Ret by (by apply fetch_json_success).
  by rewrite Hdata.
Qed.

Lemma collect_tier_metrics_listed ip u p w data :
  http_get rt (length (requests w)) ("https://" +:+ ip +:+ "/api/storage/aggregates") u p
  = Responded (mk_response 200 (Some data)) ->
  is_none data = false ->
  collect_tier_metrics rt ip u p w =
  (aggregates <- lift (get data "records" data) ;;
   items <- lift (iter aggregates) ;;
   for_each items (tier_entry rt ip u p))
    (listed TiersStart ("https://" +:+ ip +:+ "/api/storage/aggregates") w).
Proof.
  intros Hget Hdata. unfold collect_tier_metrics.
  unfold bind at 1. simpl.
  erewrite bind_run_Ret by (by apply fetch_json_success).
  by rewrite Hdata.
Qed.

Lemma collect_node_metrics_listed ip u p w data :
  http_get rt (length (requests w)) ("https://" +:+ ip +:+ "/api/cluster/nodes") u p
  = Responded (mk_response 200 (Some data)) ->
  is_none data = false ->
  collect_node_metrics rt ip u p w =
  (nodes <- lift (get data "records" data) ;;
   items <- lift (iter nodes) ;;
   for_each items (node_entry rt))
    (listed NodesStart ("https://" +:+ ip +:+ "/api/cluster/nodes") w).
Proof.
  intros Hget Hdata. unfold collect_node_metrics.
  unfold bind at 1. simpl.
  erewrite bind_run_Ret by (by apply fetch_json_success).
  by rewrite Hdata.
Qed.

(** ** Entries without a usable detail link *)

(** The chain of [get] calls only ever raises [AttributeError], and does so
    exactly on the malformed shapes. *)
Lemma self_link_malformed entry :
  links_malformed entry = true -> self_link entry = Raise AttributeError.
Proof.
  unfold links_malformed, self_link.
  destruct entry as [| | | | | |d]; try done.
  cbn [get mbind outcome_bind].
  destruct (d !! "_links") as [[| | | | | |links]|]; try done.
  cbn [from_option id get mbind outcome_bind].
  by destruct (links !! "self") as [[| | | | | |self]|].
Qed.

Lemma self_link_well_formed entry :
  links_malformed entry = false -> exists href, self_link entry = Ret href.
Proof.
  unfold links_malformed, self_link.
  destruct entry as [| | | | | |d]; try done.
  cbn [get mbind outcome_bind].
  destruct (d !! "_links") as [[| | | | | |links]|]; try done;
    cbn [from_option id get mbind outcome_bind].
  - destruct (links !! "self") as [[| | | | | |self]|]; try done;
      cbn [from_option id get mbind outcome_bind]; by eexists.
  - rewrite lookup_empty. cbn [from_option id get mbind outcome_bind]. by eexists.
Qed.

(** On an entry that lacks a self detail link, a chain that goes through
    ends on a false value. *)
Lemma lacks_self_link_falsy entry href :
  lacks_self_link entry = true -> self_link entry = Ret href -> truthy href = false.
Proof.
  unfold lacks_self_link, detail_link, self_link.
  destruct entry as [| | | | | |d]; try done.
  cbn [get mbind outcome_bind].
  destruct (d !! "_links") as [[| | | | | |links]|]; try done;
    cbn [from_option id get mbind outcome_bind].
  - destruct (links !! "self") as [[| | | | | |self]|]; try done;
      cbn [from_option id get mbind outcome_bind].
    + destruct (self !! "href") as [h|]; cbn [from_option id].
      * intros Hlacks [= <-]. by apply negb_true_iff.
      * by intros _ [= <-].
    + rewrite lookup_empty. by intros _ [= <-].
  - rewrite !lookup_empty. by intros _ [= <-].
Qed.

(** A malformed entry lacks a self detail link. *)
Lemma links_malformed_lacks entry :
  links_malformed entry = true -> lacks_self_link entry = true.
Proof.
  unfold links_malformed, lacks_self_link, detail_link.
  destruct entry as [| | | | | |d]; try done.
  destruct (d !! "_links") as [[| | | | | |links]|]; try done.
  by destruct (links !! "self") as [[| | | | | |self]|].
Qed.

(** An entry whose chain ends on a false value: one ERROR record and
    nothing else. *)
Lemma volume_entry_no_link ip u p vol href w :
  self_link vol = Ret href ->
  truthy href = false ->
  exists vol_name,
    get vol "name" (VStr "Inconnu") = Ret vol_name /\
    volume_entry rt ip u p vol w =
    (Ret tt, record_log ERROR (VolumeNoDetailLink vol_name) w).
Proof.
  intros Hlink Hfalse.
  destruct vol as [| | | | | |d]; try done.
  eexists. split; [reflexivity|].
  unfold volume_entry. cbn [get]. rewrite bind_lift_Ret, Hlink, bind_lift_Ret.
  by rewrite Hfalse.
Qed.

Lemma tier_entry_no_link ip u p agg href w :
  self_link agg = Ret href ->
  truthy href = false ->
  exists tier_name,
    get agg "name" (VStr "Inconnu") = Ret tier_name /\
    tier_entry rt ip u p agg w =
    (Ret tt, record_log ERROR (TierNoDetailLink tier_name) w).
Proof.
  intros Hlink Hfalse.
  destruct agg as [| | | | | |d]; try done.
  eexists. split; [reflexivity|].
  unfold tier_entry. cbn [get]. rewrite bind_lift_Ret, Hlink, bind_lift_Ret.
  by rewrite Hfalse.
Qed.

(** An entry of a malformed shape: [AttributeError], and nothing done. *)
Lemma volume_entry_malformed ip u p vol w :
  links_malformed vol = true ->
  volume_entry rt ip u p vol w = (Raise AttributeError, w).
Proof.
  intros Hmal. pose proof (self_link_malformed vol Hmal) as Hlink.
  unfold volume_entry. destruct vol as [| | | | | |d]; try done.
  cbn [get]. by rewrite bind_lift_Ret, Hlink.
Qed.

Lemma tier_entry_malformed ip u p agg w :
  links_malformed agg = true ->
  tier_entry rt ip u p agg w = (Raise AttributeError, w).
Proof.
  intros Hmal. pose proof (self_link_malformed agg Hmal) as Hlink.
  unfold tier_entry. destruct agg as [| | | | | |d]; try done.
  cbn [get]. by rewrite bind_lift_Ret, Hlink.
Qed.

(** The body of the node loop reads no link: an entry stripped of its
    ["_links"] is processed in the same way. *)
Lemma node_entry_ignores_links (d : gmap string value) w :
  node_entry rt (VDict (delete "_links" d)) w = node_entry rt (VDict d) w.
Proof. unfold node_entry. by rewrite !get_delete_ne. Qed.

(** A loop whose body, on one entry, only writes a log record carries on
    with the entries after it. *)
Lemma for_each_skip body pre x post l msg w :
  (forall w', body x w' = (Ret tt, record_log l msg w')) ->
  for_each (pre ++ x :: post) body w =
  (for_each pre body ;; logging l msg ;; for_each post body) w.
Proof.
  intros Hx. rewrite for_each_app. apply bind_ext. intros _ w'. simpl.
  unfold bind, logging. by rewrite Hx.
Qed.

(** A loop whose body raises on one entry stops there. *)
Lemma for_each_stop body pre x post e w :
  (forall w', body x w' = (Raise e, w')) ->
  for_each (pre ++ x :: post) body w = (for_each pre body ;; raise e) w.
Proof.
  intros Hx. rewrite for_each_app. apply bind_ext. intros _ w'. simpl.
  unfold bind. by rewrite Hx.
Qed.

End WithRuntime.
End Collectors.

(* ================================================================== *)
(** * The creation-time block *)
(* ================================================================== *)

Module CreateTime.
Import Py Exporter Run Facts Gauges.
#[local] Open Scope py_scope.

Section WithRuntime.
Context (rt : runtime).

(** The three ways through lines 97-106. *)
Lemma volume_create_time_metric_converted vol_name vol_detail create_time_str t w :
  get vol_detail "create_time" VNone = Ret create_time_str ->
  truthy create_time_str = true ->
  create_time_timestamp rt create_time_str = Ret t ->
  volume_create_time_metric rt vol_name vol_detail w =
  (Ret tt, record_sample (volume_create_time, [str rt vol_name]) t w).
Proof.
  intros Hget Htrue Hconv. unfold volume_create_time_metric.
  rewrite Hget, bind_lift_Ret, Htrue.
  unfold bind at 1, try_except. rewrite Hconv, bind_lift_Ret. unfold ret.
  by apply gauge_set_run; [apply labelvalues_single|].
Qed.

Lemma volume_create_time_metric_failed vol_name vol_detail create_time_str e w :
  get vol_detail "create_time" VNone = Ret create_time_str ->
  truthy create_time_str = true ->
  create_time_timestamp rt create_time_str = Raise e ->
  volume_create_time_metric rt vol_name vol_detail w =
  (Ret tt,
   record_sample (volume_create_time, [str rt vol_name]) 0%float
     (record_log ERROR (VolumeDateError vol_name create_time_str) w)).
Proof.
  intros Hget Htrue Hconv. unfold volume_create_time_metric.
  rewrite Hget, bind_lift_Ret, Htrue.
  unfold bind at 1, try_except. rewrite Hconv, bind_lift_Raise.
  unfold bind at 1, logging, ret.
  by apply gauge_set_run; [apply labelvalues_single|].
Qed.

Lemma volume_create_time_metric_absent vol_name vol_detail create_time_str w :
  get vol_detail "create_time" VNone = Ret create_time_str ->
  truthy create_time_str = false ->
  volume_create_time_metric rt vol_name vol_detail w =
  (Ret tt, record_sample (volume_create_time, [str rt vol_name]) 0%float w).
Proof.
  intros Hget Hfalse. unfold volume_create_time_metric.
  rewrite Hget, bind_lift_Ret, Hfalse, bind_ret.
  by apply gauge_set_run; [apply labelvalues_single|].
Qed.

(** On a detail object the block always returns, having written the sample
    of the volume. *)
Lemma volume_create_time_metric_returns vol_name (d : gmap string value) w :
  exists ts w',
    volume_create_time_metric rt vol_name (VDict d) w =
    (Ret tt, record_sample (volume_create_time, [str rt vol_name]) ts w') /\
    gauges w' = gauges w.
Proof.
  assert (get (VDict d) "create_time" VNone
          = Ret (from_option id VNone (d !! "create_time"))) as Hget by done.
  destruct (truthy (from_option id VNone (d !! "create_time"))) eqn:Htrue.
  - destruct (create_time_timestamp rt (from_option id VNone (d !! "create_time")))
      as [t|e] eqn:Hconv.
    + exists t, w. split; [|done].
      by apply (volume_create_time_metric_converted _ _ _ _ _ Hget).
    + eexists _, _. split;
        [by apply (volume_create_time_metric_failed _ _ _ e _ Hget)|done].
  - exists 0%float, w. split; [|done].
    by apply (volume_create_time_metric_absent _ _ _ _ Hget).
Qed.

(** Lines 108-113, for a detail object whose [snapshot_policy] and [svm]
    are objects when present. *)
Lemma volume_info_metric_run vol_name vol_detail style vtype policy snapshot_policy
      svm svm_name w :
  get vol_detail "style" (VStr "unknown") = Ret style ->
  get vol_detail "type" (VStr "unknown") = Ret vtype ->
  get vol_detail "snapshot_policy" (VDict ∅) = Ret policy ->
  get policy "name" (VStr "unknown") = Ret snapshot_policy ->
  get vol_detail "svm" (VDict ∅) = Ret svm ->
  get svm "name" (VStr "unknown") = Ret svm_name ->
  volume_info_metric rt vol_name vol_detail w =
  (Ret tt,
   record_sample
     (volume_info,
      [str rt vol_name; str rt style; str rt vtype; str rt snapshot_policy;
       str rt svm_name])
     1%float w).
Proof.
  intros Hstyle Htype Hpolicy Hpname Hsvm Hsname. unfold volume_info_metric.
  rewrite Hstyle, bind_lift_Ret, Htype, bind_lift_Ret, Hpolicy, bind_lift_Ret,
    Hpname, bind_lift_Ret, Hsvm, bind_lift_Ret, Hsname, bind_lift_Ret.
  by apply gauge_set_run; [apply labelvalues_volume_info|].
Qed.

End WithRuntime.
End CreateTime.

(* ================================================================== *)
(** * Calendar arithmetic and the parsing of UTC texts *)
(* ================================================================== *)

Module Calendar.
Import Py Datetime UnixTime.

(** ** The closed forms of [datetime] count what the sums count *)

Lemma days_before_next_year y :
  0 < y -> days_before_year (y + 1) = days_before_year y + year_length y.
Proof.
  intros Hy. unfold days_before_year, year_length, is_leap.
  replace (y + 1 - 1) with y by lia.
  destruct (Z.eqb_spec (y mod 4) 0) as [H4|H4];
    destruct (Z.eqb_spec (y mod 100) 0) as [H100|H100];
    destruct (Z.eqb_spec (y mod 400) 0) as [H400|H400]; simpl;
    Z.div_mod_to_equations; lia.
Qed.

Lemma days_before_year_sum (n : nat) :
  days_before_year (Z.of_nat n + 1) = days_of_years n.
Proof.
  induction n as [|n IH].
  - reflexivity.
  - cbn [days_of_years]. rewrite <- IH.
    replace (Z.of_nat (S n) + 1) with (Z.of_nat n + 1 + 1) by lia.
    rewrite days_before_next_year by lia.
    f_equal. f_equal. lia.
Qed.

Lemma days_before_month_sum y m :
  1 <= m <= 12 -> days_before_month y m = days_of_months y (Z.to_nat (m - 1)).
Proof.
  intros Hm.
  assert (m = 1 \/ m = 2 \/ m = 3 \/ m = 4 \/ m = 5 \/ m = 6 \/ m = 7 \/ m = 8 \/
          m = 9 \/ m = 10 \/ m = 11 \/ m = 12) as Hcases by lia.
  unfold days_before_month.
  repeat (destruct Hcases as [-> | Hcases]); try subst m;
    cbv -[is_leap]; destruct (is_leap y); reflexivity.
Qed.

(** The ordinal of a date, counted from the epoch, is the number of days
    that the specification of Unix time adds up. *)
Lemma ymd2ord_since_epoch y m d :
  1 <= y -> 1 <= m <= 12 ->
  ymd2ord y m d - epoch_ordinal = days_since_epoch y m d.
Proof.
  intros Hy Hm. unfold ymd2ord, days_since_epoch, epoch_ordinal.
  rewrite days_before_month_sum by done.
  replace y with (Z.of_nat (Z.to_nat (y - 1)) + 1) at 1 by lia.
  rewrite days_before_year_sum.
  change (days_of_years 1969) with 719162. lia.
Qed.

(** ** Digits *)

Ltac digit_cases k :=
  let H := fresh "Hcases" in
  assert (k = 0 \/ k = 1 \/ k = 2 \/ k = 3 \/ k = 4 \/ k = 5 \/ k = 6 \/ k = 7 \/
          k = 8 \/ k = 9) as H by lia;
  repeat (destruct H as [-> | H]); try subst k.

Lemma digit_value_digit_char k : 0 <= k <= 9 -> digit_value (digit_char k) = Some k.
Proof. intros Hk. digit_cases k; reflexivity. Qed.

Lemma digit_char_not_Z k : 0 <= k <= 9 -> Ascii.eqb (digit_char k) "Z" = false.
Proof. intros Hk. digit_cases k; reflexivity. Qed.

Lemma digit_char_not_plus k : 0 <= k <= 9 -> Ascii.eqb (digit_char k) "+" = false.
Proof. intros Hk. digit_cases k; reflexivity. Qed.

Lemma digit_char_not_minus k : 0 <= k <= 9 -> Ascii.eqb (digit_char k) "-" = false.
Proof. intros Hk. digit_cases k; reflexivity. Qed.

Lemma two_digits v : 0 <= v < 100 -> 0 <= v / 10 <= 9 /\ 0 <= v mod 10 <= 9.
Proof. intros Hv. Z.div_mod_to_equations. lia. Qed.

Lemma parse_digits2 v acc rest :
  0 <= v < 100 -> parse_digits 2 acc (digits2 v rest) = Some (100 * acc + v, rest).
Proof.
  intros Hv. destruct (two_digits v Hv) as [Hhi Hlo].
  unfold digits2. cbn [parse_digits].
  rewrite !digit_value_digit_char by done.
  do 2 f_equal. Z.div_mod_to_equations. lia.
Qed.

Lemma parse_digits_add n m acc s :
  parse_digits (n + m) acc s =
  match parse_digits n acc s with
  | Some (a, s') => parse_digits m a s'
  | None => None
  end.
Proof.
  revert acc s. induction n as [|n IH]; intros acc s; [done|].
  cbn [Nat.add parse_digits]. destruct s as [|c s]; [done|].
  destruct (digit_value c); [apply IH | done].
Qed.

Lemma parse_digits4 v rest :
  0 <= v < 10000 -> parse_digits 4 0 (digits4 v rest) = Some (v, rest).
Proof.
  intros Hv. unfold digits4.
  assert (0 <= v / 100 < 100 /\ 0 <= v mod 100 < 100) as [Hhi Hlo]
    by (Z.div_mod_to_equations; lia).
  change 4%nat with (2 + 2)%nat. rewrite parse_digits_add.
  rewrite parse_digits2 by done. rewrite parse_digits2 by done.
  do 2 f_equal. Z.div_mod_to_equations. lia.
Qed.

Lemma replace_char_digits2 v new rest :
  0 <= v < 100 ->
  replace_char "Z" new (digits2 v rest) = digits2 v (replace_char "Z" new rest).
Proof.
  intros Hv. destruct (two_digits v Hv) as [Hhi Hlo].
  unfold digits2. cbn [replace_char]. by rewrite !digit_char_not_Z.
Qed.

Lemma split_offset_digits2 v rest :
  0 <= v < 100 ->
  split_offset (digits2 v rest) =
  let '(t, z) := split_offset rest in (digits2 v t, z).
Proof.
  intros Hv. destruct (two_digits v Hv) as [Hhi Hlo].
  unfold digits2. cbn [split_offset].
  rewrite !digit_char_not_plus, !digit_char_not_minus by done.
  by destruct (split_offset rest).
Qed.

(** ** The UTC text of a date, rewritten and parsed *)

Lemma days_in_month_le y m : days_in_month y m <= 31.
Proof.
  unfold days_in_month. repeat case_match; lia.
Qed.

Lemma valid_fields_ranges y m d hh mm ss us :
  valid_fields y m d hh mm ss us = true ->
  1 <= y <= 9999 /\ 1 <= m <= 12 /\ 1 <= d <= 31 /\
  0 <= hh <= 23 /\ 0 <= mm <= 59 /\ 0 <= ss <= 59.
Proof.
  unfold valid_fields. rewrite !andb_true_iff, !Z.leb_le.
  pose proof (days_in_month_le y m). lia.
Qed.

Lemma replace_char_other c new rest :
  Ascii.eqb c "Z" = false ->
  replace_char "Z" new (String c rest) = String c (replace_char "Z" new rest).
Proof. intros H. cbn [replace_char]. by rewrite H. Qed.


Lemma expect_same c rest : expect c (String c rest) = Some rest.
Proof. unfold expect. by rewrite Ascii.eqb_refl. Qed.

Lemma parse_isoformat_date_digits y m d rest :
  0 <= y < 10000 -> 0 <= m < 100 -> 0 <= d < 100 ->
  parse_isoformat_date (digits4 y (String "-" (digits2 m (String "-" (digits2 d rest)))))
  = Some (y, m, d, rest).
Proof.
  intros Hy Hm Hd. unfold parse_isoformat_date.
  rewrite parse_digits4 by done. cbn [mbind option_bind].
  rewrite expect_same. cbn [mbind option_bind].
  rewrite parse_digits2 by done. cbn [mbind option_bind].
  rewrite expect_same. cbn [mbind option_bind].
  rewrite parse_digits2 by done. cbn [mbind option_bind].
  do 4 f_equal; lia.
Qed.

Lemma split_offset_other c rest :
  Ascii.eqb c "+" = false -> Ascii.eqb c "-" = false ->
  split_offset (String c rest) =
  let '(t, z) := split_offset rest in (String c t, z).
Proof. intros Hp Hm. cbn [split_offset]. by rewrite Hp, Hm. Qed.


Lemma parse_hh_mm_ss_ff_digits hh mm ss :
  0 <= hh < 100 -> 0 <= mm < 100 -> 0 <= ss < 100 ->
  parse_hh_mm_ss_ff (digits2 hh (String ":" (digits2 mm (String ":" (digits2 ss "")))))
  = Some (hh, mm, ss, 0).
Proof.
  intros Hhh Hmm Hss. unfold parse_hh_mm_ss_ff.
  rewrite parse_digits2 by done. cbn [mbind option_bind].
  rewrite Ascii.eqb_refl. cbn [negb].
  rewrite parse_digits2 by done. cbn [mbind option_bind].
  rewrite Ascii.eqb_refl. cbn [negb].
  rewrite parse_digits2 by done. cbn [mbind option_bind].
  do 4 f_equal; lia.
Qed.


End Calendar.
(* ================================================================== *)
(** * Creation times in other zones *)
(* ================================================================== *)

Module Zones.
Import Py Datetime UnixTime IsoText Calendar.

Lemma replace_Z_fields y m d hh mm ss rest :
  valid_fields y m d hh mm ss 0 = true ->
  replace_char "Z" "+00:00" (iso8601_fields y m d hh mm ss rest) =
  iso8601_fields y m d hh mm ss (replace_char "Z" "+00:00" rest).
Proof.
  intros (Hy & Hm & Hd & Hhh & Hmm & Hss)%valid_fields_ranges.
  assert (0 <= y / 100 < 100 /\ 0 <= y mod 100 < 100) as [Hhi Hlo]
    by (Z.div_mod_to_equations; lia).
  unfold iso8601_fields, digits4.
  repeat first [ rewrite replace_char_digits2 by lia
               | rewrite replace_char_other by reflexivity ].
  reflexivity.
Qed.

Lemma replace_Z_sign (neg : bool) oh om :
  0 <= oh < 100 -> 0 <= om < 100 ->
  replace_char "Z" "+00:00"
    (String (if neg then "-" else "+")%char (digits2 oh (String ":" (digits2 om ""))))
  = String (if neg then "-" else "+")%char (digits2 oh (String ":" (digits2 om ""))).
Proof.
  intros Hoh Hom.
  rewrite replace_char_other by (by destruct neg).
  rewrite replace_char_digits2 by done.
  rewrite replace_char_other by reflexivity.
  by rewrite replace_char_digits2 by done.
Qed.

Lemma split_offset_time hh mm ss rest :
  0 <= hh < 100 -> 0 <= mm < 100 -> 0 <= ss < 100 ->
  split_offset (digits2 hh (String ":" (digits2 mm (String ":" (digits2 ss rest)))))
  = let '(t, z) := split_offset rest in
    (digits2 hh (String ":" (digits2 mm (String ":" (digits2 ss t)))), z).
Proof.
  intros Hhh Hmm Hss.
  repeat first [ rewrite split_offset_digits2 by done
               | rewrite split_offset_other by reflexivity ].
  by destruct (split_offset rest).
Qed.

Lemma split_offset_sign (neg : bool) rest :
  split_offset (String (if neg then "-" else "+")%char rest) = ("", Some (neg, rest)).
Proof. by destruct neg. Qed.

Lemma parse_hh_mm_digits oh om :
  0 <= oh < 100 -> 0 <= om < 100 ->
  parse_hh_mm_ss_ff (digits2 oh (String ":" (digits2 om ""))) = Some (oh, om, 0, 0).
Proof.
  intros Hoh Hom. unfold parse_hh_mm_ss_ff.
  rewrite parse_digits2 by done. cbn [mbind option_bind].
  rewrite Ascii.eqb_refl. cbn [negb].
  rewrite parse_digits2 by done. cbn [mbind option_bind].
  do 4 f_equal; lia.
Qed.

Lemma parse_offset_digits neg oh om :
  0 <= oh < 100 -> 0 <= om < 100 ->
  parse_offset neg (digits2 oh (String ":" (digits2 om "")))
  = Some (offset_seconds neg oh om * 1000000).
Proof.
  intros Hoh Hom. unfold parse_offset.
  change (String.length (digits2 oh (String ":" (digits2 om "")))) with 5%nat.
  cbv iota. rewrite parse_hh_mm_digits by done. cbn [mbind option_bind].
  unfold offset_seconds. destruct neg; f_equal; lia.
Qed.

(** A text with an offset parses to an aware object with that offset. *)
Lemma fromisoformat_offset y m d hh mm ss neg oh om :
  valid_fields y m d hh mm ss 0 = true ->
  0 <= oh < 100 -> 0 <= om < 100 ->
  valid_offset (offset_seconds neg oh om * 1000000) = true ->
  fromisoformat (replace_char "Z" "+00:00" (iso8601_offset y m d hh mm ss neg oh om)) =
  Some (mk_datetime y m d hh mm ss 0 (Some (offset_seconds neg oh om * 1000000))).
Proof.
  intros Hvalid Hoh Hom Hoff. unfold iso8601_offset.
  rewrite replace_Z_fields, replace_Z_sign by done.
  pose proof (valid_fields_ranges _ _ _ _ _ _ _ Hvalid)
    as (Hy & Hm & Hd & Hhh & Hmm & Hss).
  unfold fromisoformat, iso8601_fields.
  rewrite parse_isoformat_date_digits by lia. cbn [mbind option_bind].
  rewrite split_offset_time, split_offset_sign by lia.
  rewrite parse_hh_mm_ss_ff_digits by lia. cbn [mbind option_bind].
  rewrite parse_offset_digits by done. cbn [mbind option_bind].
  unfold make. rewrite Hvalid. cbn [from_option]. by rewrite Hoff.
Qed.

(** A text without a zone parses to a naive object. *)
Lemma fromisoformat_naive y m d hh mm ss :
  valid_fields y m d hh mm ss 0 = true ->
  fromisoformat (replace_char "Z" "+00:00" (iso8601_naive y m d hh mm ss)) =
  Some (mk_datetime y m d hh mm ss 0 None).
Proof.
  intros Hvalid. unfold iso8601_naive.
  rewrite replace_Z_fields by done. cbn [replace_char].
  pose proof (valid_fields_ranges _ _ _ _ _ _ _ Hvalid)
    as (Hy & Hm & Hd & Hhh & Hmm & Hss).
  unfold fromisoformat, iso8601_fields.
  rewrite parse_isoformat_date_digits by lia. cbn [mbind option_bind].
  rewrite split_offset_time by lia. cbn [split_offset].
  rewrite parse_hh_mm_ss_ff_digits by lia. cbn [mbind option_bind].
  unfold make. by rewrite Hvalid.
Qed.

Lemma create_time_timestamp_offset rt y m d hh mm ss neg oh om :
  valid_fields y m d hh mm ss 0 = true ->
  0 <= oh < 100 -> 0 <= om < 100 ->
  valid_offset (offset_seconds neg oh om * 1000000) = true ->
  Exporter.create_time_timestamp rt (VStr (iso8601_offset y m d hh mm ss neg oh om)) =
  int_truediv ((unix_time y m d hh mm ss - offset_seconds neg oh om) * 1000000) 1000000.
Proof.
  intros Hvalid Hoh Hom Hoff. unfold Exporter.create_time_timestamp, Exporter.fromisoformat, replace.
  cbn [mbind outcome_bind].
  rewrite fromisoformat_offset by done. cbn [mbind outcome_bind].
  pose proof (valid_fields_ranges _ _ _ _ _ _ _ Hvalid)
    as (Hy & Hm & Hd & Hhh & Hmm & Hss).
  unfold timestamp, micros_since_epoch.
  cbn [utcoffset year month day hour minute second microsecond].
  rewrite ymd2ord_since_epoch by lia.
  f_equal. unfold unix_time. lia.
Qed.

Lemma create_time_timestamp_naive rt y m d hh mm ss :
  valid_fields y m d hh mm ss 0 = true ->
  Exporter.create_time_timestamp rt (VStr (iso8601_naive y m d hh mm ss)) =
  Exporter.local_timestamp rt (mk_datetime y m d hh mm ss 0 None).
Proof.
  intros Hvalid. unfold Exporter.create_time_timestamp, Exporter.fromisoformat, replace.
  cbn [mbind outcome_bind].
  rewrite fromisoformat_naive by done. reflexivity.
Qed.

End Zones.
(* ================================================================== *)
(** * The fetcher *)
(* ================================================================== *)

Import Py Exporter Run Facts Gauges Volumes Tiers Nodes Collectors CreateTime.
#[local] Open Scope py_scope.

(** C7: a fetch that fails (status other than 200, exception from the
    transport, timeout, or undecodable body) returns [None], adds exactly 1
    to the sample of [failed_requests] labelled with the requested URL,
    leaves the samples of the other endpoints alone, writes an ERROR record
    and modifies no gauge sample at all. *)
Theorem fetch_json_failure (rt : runtime) (url username password : string) (w : world) :
  fetch_fails (http_get rt (length (requests w)) url username password) = true ->
  let r := fetch_json rt url username password w in
  r.1 = Ret VNone /\
  counter_value (failed_requests r.2) url = S (counter_value (failed_requests w) url) /\
  (forall url', url' <> url -> failed_requests r.2 !! url' = failed_requests w !! url') /\
  gauges r.2 = gauges w /\
  (exists msg, log r.2 = (ERROR, msg) :: log w).
Proof.
  intros Hfail. cbv zeta.
  unfold fetch_json, try_except, bind, requests_get.
  destruct (http_get rt _ url username password) as [e|[status body]];
    simpl in *.
  - unfold counter_value. rewrite lookup_insert_eq. simpl.
    repeat split; [|by eexists]. intros url' Hne. by rewrite lookup_insert_ne.
  - destruct (status =? 200); simpl in *.
    + destruct body as [v|]; [done|]. simpl.
      unfold counter_value. rewrite lookup_insert_eq. simpl.
      repeat split; [|by eexists]. intros url' Hne. by rewrite lookup_insert_ne.
    + unfold counter_value. rewrite lookup_insert_eq. simpl.
      repeat split; [|by eexists]. intros url' Hne. by rewrite lookup_insert_ne.
Qed.

Lemma fetch_json_failure_witness :
  fetch_fails (http_get Fixture.upstream (length (requests Fixture.fresh))
                 "https://10.0.0.1/api/storage/volumes/2" "admin" "secret") = true /\
  let r := fetch_json Fixture.upstream "https://10.0.0.1/api/storage/volumes/2"
             "admin" "secret" Fixture.fresh in
  r.1 = Ret VNone /\
  counter_value (failed_requests r.2) "https://10.0.0.1/api/storage/volumes/2" = 1%nat /\
  gauges r.2 = ∅.
Proof.
  split; [reflexivity|].
  pose proof (fetch_json_failure Fixture.upstream
                "https://10.0.0.1/api/storage/volumes/2" "admin" "secret"
                Fixture.fresh eq_refl) as (H1 & H2 & _ & H4 & _).
  cbv zeta. split; [exact H1|]. split; [exact H2 | exact H4].
Defined.

(** A refused connection, a timeout and a page that is not JSON each count
    one failure for their URL; a fetch that succeeds counts none. *)
Example fetch_json_on_fixture :
  let count host :=
    let url := "https://" +:+ host +:+ "/api/storage/volumes" in
    let r := fetch_json Fixture.upstream url "admin" "secret" Fixture.fresh in
    (is_none (from_option id VNone (match r.1 with Ret v => Some v | Raise _ => None end)),
     counter_value (failed_requests r.2) url) in
  count "10.0.0.3" = (true, 1%nat) /\ count "10.0.0.4" = (true, 1%nat) /\
  count "10.0.0.5" = (true, 1%nat) /\ count "10.0.0.1" = (false, 0%nat).
Proof. vm_compute. repeat split. Qed.

(* ================================================================== *)
(** * Volume usage percentage *)
(* ================================================================== *)

(** C1: for a volume detail object whose [space] object gives
    [size > 0], the sample of [volume_usage_percent] for the volume is
    [used / size * 100]; when the space gauges are recorded and [size > 0]
    does not hold (a size of 0, or an absent size, which defaults to 0), the
    sample is exactly 0.  [used], [size] and [available] are the values read
    with default 0 and are numbers that [Gauge.set] accepts. *)
Theorem volume_usage_percent_value (rt : runtime) (vol_name vol_detail space : value)
    (used size available : value) (fu fs fa : PrimFloat.float) (w : world) :
  get vol_detail "space" (VDict ∅) = Ret space ->
  get space "used" (VInt 0) = Ret used ->
  get space "size" (VInt 0) = Ret size ->
  get space "available" (VInt 0) = Ret available ->
  float rt used = Ret fu -> float rt size = Ret fs -> float rt available = Ret fa ->
  let w' := exec (volume_detail_metrics rt vol_name vol_detail) w in
  let sample := gauges w' !! (volume_usage_percent, [str rt vol_name]) in
  (forall pct,
      gt size (VInt 0) = Ret true ->
      (q ← truediv used size; mul q (VInt 100)) = Ret (VFloat pct) ->
      sample = Some pct) /\
  (truthy space = true -> gt size (VInt 0) = Ret false -> sample = Some 0%float).
Proof.
  intros Hspace Hused Hsize Havail Hfu Hfs Hfa. cbv zeta.
  assert (forall pct fp,
             truthy space = true -> percent_used used size = Ret pct ->
             float rt pct = Ret fp ->
             gauges (exec (volume_detail_metrics rt vol_name vol_detail) w)
               !! (volume_usage_percent, [str rt vol_name]) = Some fp) as Hrun.
  { intros pct fp Htrue Hpct Hfp. unfold volume_detail_metrics.
    rewrite exec_bind.
    erewrite volume_space_metrics_run by eassumption.
    rewrite (volume_later_blocks_footprint rt vol_name vol_detail _
               volume_usage_percent [str rt vol_name]) by not_among.
    simpl. apply lookup_insert_eq. }
  split.
  - intros pct Hgt Hq. apply (Hrun (VFloat pct) pct).
    + destruct space as [| | | | | |d]; try done.
      simpl. destruct (decide (d = ∅)) as [->|Hne].
      * unfold get in Hsize. rewrite lookup_empty in Hsize.
        injection Hsize as <-. done.
      * by rewrite bool_decide_eq_false_2.
    + unfold percent_used. rewrite Hgt. exact Hq.
    + reflexivity.
  - intros Htrue Hgt. apply (Hrun (VInt 0) 0%float Htrue).
    + unfold percent_used. by rewrite Hgt.
    + reflexivity.
Qed.

Lemma volume_usage_percent_value_witness :
  let sample :=
    gauges (exec (volume_detail_metrics Fixture.upstream (VStr "vol1")
                    Fixture.vol1_detail) Fixture.fresh)
      !! (volume_usage_percent, ["vol1"]) in
  gt (VInt 200) (VInt 0) = Ret true /\
  (q ← truediv (VInt 50) (VInt 200); mul q (VInt 100)) = Ret (VFloat 25%float) /\
  sample = Some 25%float.
Proof.
  cbv zeta. split; [reflexivity|]. split; [reflexivity|].
  refine (proj1 (volume_usage_percent_value Fixture.upstream (VStr "vol1")
                   Fixture.vol1_detail
                   (Fixture.dict [("used", VInt 50); ("size", VInt 200);
                                  ("available", VInt 150)])
                   (VInt 50) (VInt 200) (VInt 150) 50%float 200%float 150%float
                   Fixture.fresh _ _ _ _ _ _ _) 25%float _ _);
    reflexivity.
Defined.

(** An absent size defaults to 0 and gives a percentage of 0. *)
Example volume_usage_percent_no_size :
  gauges (exec (volume_detail_metrics Fixture.upstream (VStr "v")
                  (Fixture.dict [("space", Fixture.dict [("used", VInt 7)])]))
            Fixture.fresh)
    !! (volume_usage_percent, ["v"]) = Some 0%float.
Proof. vm_compute. reflexivity. Qed.

(* ================================================================== *)
(** * Aggregate metrics *)
(* ================================================================== *)

(** C2: from an aggregate detail object the collector reads [used], [size],
    [available], [full_threshold_percent] and [physical_used] in the nested
    [space.block_storage] object, each with default 0 (the defaults of the
    [get] calls), and records them; [tier_usage_percent] receives
    [used / size * 100] when [size > 0] and 0 otherwise.  The values read
    are numbers that [Gauge.set] accepts. *)
Theorem tier_metrics_recorded (rt : runtime) (tier_name agg_detail : value)
    (space block_storage used size available full_threshold physical_used pct : value)
    (fu fs fa fp ft fph : PrimFloat.float) (w : world) :
  get agg_detail "space" (VDict ∅) = Ret space ->
  get space "block_storage" (VDict ∅) = Ret block_storage ->
  get block_storage "used" (VInt 0) = Ret used ->
  get block_storage "size" (VInt 0) = Ret size ->
  get block_storage "available" (VInt 0) = Ret available ->
  get block_storage "full_threshold_percent" (VInt 0) = Ret full_threshold ->
  get block_storage "physical_used" (VInt 0) = Ret physical_used ->
  percent_used used size = Ret pct ->
  float rt used = Ret fu -> float rt size = Ret fs ->
  float rt available = Ret fa -> float rt pct = Ret fp ->
  float rt full_threshold = Ret ft -> float rt physical_used = Ret fph ->
  let r := tier_detail_metrics rt tier_name agg_detail w in
  let tier := [str rt tier_name] in
  r.1 = Ret tt /\
  gauges r.2 !! (tier_used, tier) = Some fu /\
  gauges r.2 !! (tier_size, tier) = Some fs /\
  gauges r.2 !! (tier_available, tier) = Some fa /\
  gauges r.2 !! (tier_usage_percent, tier) = Some fp /\
  gauges r.2 !! (tier_full_threshold_percent, tier) = Some ft /\
  gauges r.2 !! (tier_physical_used, tier) = Some fph /\
  (gt size (VInt 0) = Ret true ->
   (q ← truediv used size; mul q (VInt 100)) = Ret pct /\ pct = VFloat fp) /\
  (gt size (VInt 0) = Ret false -> pct = VInt 0 /\ fp = 0%float).
Proof.
  intros Hspace Hbs Hused Hsize Havail Hthr Hphys Hpct Hfu Hfs Hfa Hfp Hft Hfph.
  cbv zeta.
  erewrite Tiers.tier_detail_metrics_run by eassumption.
  split; [reflexivity|].
  do 6 (split; [lookup_sample|]).
  destruct (Volumes.percent_used_cases used size pct Hpct)
    as [(Hgt & Hq & f & ->)|[Hgt ->]];
    simpl in Hfp; injection Hfp as <-; split; intros Hgt'; try congruence; done.
Qed.

Lemma tier_metrics_recorded_witness :
  let r := tier_detail_metrics Fixture.upstream (VStr "aggr1") Fixture.aggr1_detail
             Fixture.fresh in
  r.1 = Ret tt /\
  gauges r.2 !! (tier_used, ["aggr1"]) = Some 300%float /\
  gauges r.2 !! (tier_size, ["aggr1"]) = Some 1000%float /\
  gauges r.2 !! (tier_available, ["aggr1"]) = Some 700%float /\
  gauges r.2 !! (tier_usage_percent, ["aggr1"]) = Some 30%float /\
  gauges r.2 !! (tier_full_threshold_percent, ["aggr1"]) = Some 98%float /\
  gauges r.2 !! (tier_physical_used, ["aggr1"]) = Some 280%float.
Proof.
  pose proof (tier_metrics_recorded Fixture.upstream (VStr "aggr1") Fixture.aggr1_detail
    (Fixture.dict [("block_storage",
       Fixture.dict [("used", VInt 300); ("size", VInt 1000); ("available", VInt 700);
                     ("full_threshold_percent", VInt 98); ("physical_used", VInt 280)])])
    (Fixture.dict [("used", VInt 300); ("size", VInt 1000); ("available", VInt 700);
                   ("full_threshold_percent", VInt 98); ("physical_used", VInt 280)])
    (VInt 300) (VInt 1000) (VInt 700) (VInt 98) (VInt 280) (VFloat 30%float)
    300%float 1000%float 700%float 30%float 98%float 280%float Fixture.fresh
    eq_refl eq_refl eq_refl eq_refl eq_refl eq_refl eq_refl eq_refl
    eq_refl eq_refl eq_refl eq_refl eq_refl eq_refl) as H.
  cbv zeta in *. tauto.
Defined.

(** Every field absent: the six gauges receive the default 0. *)
Example tier_metrics_defaults :
  gauges (exec (tier_detail_metrics Fixture.upstream (VStr "a") (Fixture.dict []))
            Fixture.fresh)
  = list_to_map
      [ ((tier_used, ["a"]), 0%float); ((tier_size, ["a"]), 0%float);
        ((tier_available, ["a"]), 0%float); ((tier_usage_percent, ["a"]), 0%float);
        ((tier_full_threshold_percent, ["a"]), 0%float);
        ((tier_physical_used, ["a"]), 0%float) ].
Proof. vm_compute. reflexivity. Qed.

(* ================================================================== *)
(** * Node state *)
(* ================================================================== *)

(** C6: for a node list entry whose [state] is the string [state] (the empty
    string when the field is absent), the sample of [node_state] for the
    node is exactly 1 when [state] equals ["up"] up to case, and exactly 0
    otherwise.  The other fields read before the write have the expected
    shape: [uptime] is a number that [Gauge.set] accepts, [controller] and
    its [cpu] are objects when present. *)
Theorem node_state_value (rt : runtime) (node node_name uptime controller cpu cpu_count : value)
    (state : string) (fu : PrimFloat.float) (w : world) :
  get node "name" (VStr "Inconnu") = Ret node_name ->
  get node "uptime" (VInt 0) = Ret uptime ->
  get node "state" (VStr "") = Ret (VStr state) ->
  get node "controller" (VDict ∅) = Ret controller ->
  get controller "cpu" (VDict ∅) = Ret cpu ->
  get cpu "count" (VInt 0) = Ret cpu_count ->
  float rt uptime = Ret fu ->
  let sample := gauges (exec (node_entry rt node) w) !! (node_state, [str rt node_name]) in
  (caseless_eq state "up" = true -> sample = Some 1%float) /\
  (caseless_eq state "up" = false -> sample = Some 0%float).
Proof.
  intros Hname Hup Hstate Hctl Hcpu Hcount Hfu. cbv zeta.
  assert (exists memory_size, get controller "memory_size" (VInt 0) = Ret memory_size)
    as [memory_size Hmem].
  { destruct controller; try done. by eexists. }
  assert (forall f,
             float rt (if String.eqb (lower_string state) "up" then VInt 1 else VInt 0)
             = Ret f ->
             gauges (exec (node_entry rt node) w) !! (node_state, [str rt node_name])
             = Some f) as Hrun.
  { intros f Hf. unfold node_entry.
    rewrite Hname, exec_bind_lift_Ret, Hup, exec_bind_lift_Ret, Hstate,
      exec_bind_lift_Ret.
    simpl lower.
    rewrite exec_bind_lift_Ret, Hctl, exec_bind_lift_Ret, Hcpu, exec_bind_lift_Ret,
      Hcount, !exec_bind_lift_Ret, Hmem, exec_bind_lift_Ret.
    do 2 (erewrite exec_bind_Ret
            by (apply gauge_set_run; [by apply labelvalues_single | eassumption])).
    rewrite (Nodes.node_entry_tail_footprint rt node_name cpu_count memory_size _ _
               node_state [str rt node_name]) by not_among.
    lookup_sample. }
  change "up" with (lower_string "up") in Hrun. rewrite Nodes.lower_string_eqb in Hrun.
  split; intros Hcase; rewrite Hcase in Hrun; by apply Hrun.
Qed.

Lemma node_state_value_witness :
  caseless_eq "UP" "up" = true /\
  gauges (exec (node_entry Fixture.upstream (hd VNone Fixture.node_records)) Fixture.fresh)
    !! (node_state, ["node1"]) = Some 1%float.
Proof.
  split; [reflexivity|].
  refine (proj1 (node_state_value Fixture.upstream (hd VNone Fixture.node_records)
                   (VStr "node1") (VInt 1234)
                   (Fixture.dict [("cpu", Fixture.dict [("count", VInt 8)]);
                                  ("memory_size", VInt 17179869184)])
                   (Fixture.dict [("count", VInt 8)]) (VInt 8)
                   "UP" 1234%float Fixture.fresh _ _ _ _ _ _ _) _);
    reflexivity.
Defined.

(** The casings named by the specification, and a state that is not up. *)
Example node_state_casings :
  caseless_eq "UP" "up" = true /\ caseless_eq "Up" "up" = true /\
  caseless_eq "up" "up" = true /\ caseless_eq "down" "up" = false /\
  caseless_eq "" "up" = false.
Proof. repeat split. Qed.

(** A node entry without a [state] field: the gauge is 0. *)
Example node_state_absent :
  gauges (exec (node_entry Fixture.upstream (Fixture.dict [("name", VStr "node2")]))
            Fixture.fresh)
    !! (node_state, ["node2"]) = Some 0%float.
Proof. vm_compute. reflexivity. Qed.

(* ================================================================== *)
(** * Entries without a detail link *)
(* ================================================================== *)

(** Against C8 as it is stated.  The node list of host 10.0.0.6 holds one
    entry, without any link, and the node collector records it.  A volume
    list entry whose ["_links"] is [null] has no self detail link either,
    and the body of the volume loop raises [AttributeError] on it: the
    loop stops, the volume listed after it is never asked for, and nothing
    is recorded or logged. *)
Lemma linkless_entry_not_skipped :
  let node := Fixture.dict [("name", VStr "node2"); ("state", VStr "up")] in
  let r := collect_node_metrics Fixture.upstream "10.0.0.6" "admin" "secret"
             Fixture.fresh in
  let sweep :=
    for_each (Cases.null_links_entry :: drop 2 Fixture.volume_records)
      (volume_entry Fixture.upstream "10.0.0.1" "admin" "secret") Fixture.fresh in
  lacks_self_link node = true /\
  r.1 = Ret tt /\
  gauges r.2 !! (node_uptime, ["node2"]) = Some 0%float /\
  gauges r.2 !! (node_state, ["node2"]) = Some 1%float /\
  gauges r.2 !! (node_cpu_count, ["node2"]) = Some 0%float /\
  gauges r.2 !! (node_memory_size, ["node2"]) = Some 0%float /\
  lacks_self_link Cases.null_links_entry = true /\
  length (drop 2 Fixture.volume_records) = 1%nat /\
  sweep = (Raise AttributeError, Fixture.fresh).
Proof. vm_compute. repeat split. Qed.

(** C8, as the code has it.  A list entry lacks a self detail link when
    its document holds no true value at [_links.self.href].  In the volume
    loop and in the aggregate loop such an entry is dealt with in one of
    two ways, according to its shape:
    - when the entry is an object, and its ["_links"] and the ["self"] of
      that are objects where they are present, the entry is skipped: the
      body returns without raising, writes one ERROR record and nothing
      else (no gauge sample, no failure count, no request), and the loop
      goes on with the entries that follow, exactly as it does for the
      entries before it;
    - otherwise (the entry is not an object, or its ["_links"] or the
      ["self"] of that is present and is not an object: [null], a string,
      a number, an array) the body raises [AttributeError] and leaves the
      state as it was, and the loop stops there: the exception propagates
      and the entries that follow are not processed.
    The node loop reads no link: it processes an entry as it does the same
    entry with its ["_links"] removed. *)
Theorem linkless_entry_skipped (rt : runtime) (ontap_ip username password : string)
    (entry : value) (pre post : list value) (w : world) :
  lacks_self_link entry = true ->
  (links_malformed entry = false ->
   (exists vol_name,
       let body := volume_entry rt ontap_ip username password in
       body entry w = (Ret tt, record_log ERROR (VolumeNoDetailLink vol_name) w) /\
       gauges (exec (body entry) w) = gauges w /\
       failed_requests (exec (body entry) w) = failed_requests w /\
       requests (exec (body entry) w) = requests w /\
       for_each (pre ++ entry :: post) body w =
       (for_each pre body ;;
        logging ERROR (VolumeNoDetailLink vol_name) ;;
        for_each post body) w) /\
   (exists tier_name,
       let body := tier_entry rt ontap_ip username password in
       body entry w = (Ret tt, record_log ERROR (TierNoDetailLink tier_name) w) /\
       gauges (exec (body entry) w) = gauges w /\
       failed_requests (exec (body entry) w) = failed_requests w /\
       requests (exec (body entry) w) = requests w /\
       for_each (pre ++ entry :: post) body w =
       (for_each pre body ;;
        logging ERROR (TierNoDetailLink tier_name) ;;
        for_each post body) w)) /\
  (links_malformed entry = true ->
   (let body := volume_entry rt ontap_ip username password in
    body entry w = (Raise AttributeError, w) /\
    for_each (pre ++ entry :: post) body w
    = (for_each pre body ;; raise AttributeError) w) /\
   (let body := tier_entry rt ontap_ip username password in
    body entry w = (Raise AttributeError, w) /\
    for_each (pre ++ entry :: post) body w
    = (for_each pre body ;; raise AttributeError) w)) /\
  (forall d, node_entry rt (VDict (delete "_links" d)) w = node_entry rt (VDict d) w).
Proof.
  intros Hlacks.
  split; [|split; [|intros d; apply node_entry_ignores_links]].
  - intros Hshape.
    destruct (self_link_well_formed entry Hshape) as [href Hlink].
    pose proof (lacks_self_link_falsy entry href Hlacks Hlink) as Hfalse.
    split.
    + destruct (volume_entry_no_link rt ontap_ip username password entry href w
                  Hlink Hfalse) as (vol_name & Hname & Hrun).
      exists vol_name. cbv zeta. unfold exec. rewrite Hrun. repeat split.
      apply for_each_skip. intros w'.
      destruct (volume_entry_no_link rt ontap_ip username password entry href w'
                  Hlink Hfalse) as (vol_name' & Hname' & Hrun').
      rewrite Hrun'. congruence.
    + destruct (tier_entry_no_link rt ontap_ip username password entry href w
                  Hlink Hfalse) as (tier_name & Hname & Hrun).
      exists tier_name. cbv zeta. unfold exec. rewrite Hrun. repeat split.
      apply for_each_skip. intros w'.
      destruct (tier_entry_no_link rt ontap_ip username password entry href w'
                  Hlink Hfalse) as (tier_name' & Hname' & Hrun').
      rewrite Hrun'. congruence.
  - intros Hshape. cbv zeta. split; split.
    + by apply volume_entry_malformed.
    + apply for_each_stop. intros w'. by apply volume_entry_malformed.
    + by apply tier_entry_malformed.
    + apply for_each_stop. intros w'. by apply tier_entry_malformed.
Qed.

Lemma linkless_entry_skipped_witness :
  lacks_self_link (Fixture.dict [("name", VStr "vol2")]) = true /\
  links_malformed (Fixture.dict [("name", VStr "vol2")]) = false /\
  exists vol_name,
    let body := volume_entry Fixture.upstream "10.0.0.1" "admin" "secret" in
    for_each Fixture.volume_records body Fixture.fresh =
    (for_each (take 1 Fixture.volume_records) body ;;
     logging ERROR (VolumeNoDetailLink vol_name) ;;
     for_each (drop 2 Fixture.volume_records) body) Fixture.fresh.
Proof.
  split; [reflexivity|]. split; [reflexivity|].
  destruct (linkless_entry_skipped Fixture.upstream "10.0.0.1" "admin" "secret"
              (Fixture.dict [("name", VStr "vol2")])
              (take 1 Fixture.volume_records) (drop 2 Fixture.volume_records)
              Fixture.fresh eq_refl) as [Hskip _].
  destruct (Hskip eq_refl) as [(vol_name & _ & _ & _ & _ & H) _].
  exists vol_name. exact H.
Defined.

(** The two ways on the fixture: an entry without ["_links"] is skipped, an
    entry whose ["_links"] is [null] raises. *)
Example linkless_shapes :
  links_malformed (Fixture.dict [("name", VStr "vol2")]) = false /\
  links_malformed (Fixture.dict [("name", VStr "a"); ("_links", Fixture.dict [])]) = false /\
  links_malformed
    (Fixture.dict [("name", VStr "b");
                   ("_links", Fixture.dict [("self", Fixture.dict [("href", VStr "")])])])
  = false /\
  links_malformed Cases.null_links_entry = true /\
  links_malformed (Fixture.dict [("name", VStr "c");
                                 ("_links", Fixture.dict [("self", VStr "/x")])]) = true /\
  tier_entry Fixture.upstream "10.0.0.1" "admin" "secret" Cases.null_links_entry
    Fixture.fresh = (Raise AttributeError, Fixture.fresh).
Proof. vm_compute. repeat split. Qed.

(** On the fixture, the first and third volumes are recorded and the second
    only leaves its ERROR record: no sample carries its name. *)
Example volume_loop_on_fixture :
  let r := collect_volume_metrics Fixture.upstream "10.0.0.1" "admin" "secret"
             Fixture.fresh in
  r.1 = Ret tt /\
  (map_to_list (gauges r.2)).*1.*2 =
    [ ["vol1"]; ["vol3"; "unknown"; "unknown"; "unknown"; "unknown"];
      ["vol1"; "flexvol"; "rw"; "default"; "svm1"]; ["vol1"]; ["vol3"];
      ["vol1"]; ["vol1"]; ["vol1"] ] /\
  gauges r.2 !! (volume_usage_percent, ["vol1"]) = Some 25%float /\
  (ERROR, VolumeNoDetailLink (VStr "vol2")) ∈ log r.2.
Proof. vm_compute. repeat split. do 2 right. left. Qed.

(* ================================================================== *)
(** * The shape of a list response *)
(* ================================================================== *)

(** The envelope shape: each collector runs its loop body on every entry of
    the [records] array, in order. *)
Lemma envelope_iterated (rt : runtime) (ontap_ip username password : string)
    (w : world) (d : gmap string value) (records : list value) :
  d !! "records" = Some (VList records) ->
  let answers path :=
    http_get rt (length (requests w)) ("https://" +:+ ontap_ip +:+ path)
      username password = Responded (mk_response 200 (Some (VDict d))) in
  (answers "/api/storage/volumes" ->
   collect_volume_metrics rt ontap_ip username password w =
   for_each records (volume_entry rt ontap_ip username password)
     (listed VolumesStart ("https://" +:+ ontap_ip +:+ "/api/storage/volumes") w)) /\
  (answers "/api/storage/aggregates" ->
   collect_tier_metrics rt ontap_ip username password w =
   for_each records (tier_entry rt ontap_ip username password)
     (listed TiersStart ("https://" +:+ ontap_ip +:+ "/api/storage/aggregates") w)) /\
  (answers "/api/cluster/nodes" ->
   collect_node_metrics rt ontap_ip username password w =
   for_each records (node_entry rt)
     (listed NodesStart ("https://" +:+ ontap_ip +:+ "/api/cluster/nodes") w)).
Proof.
  intros Hrecords answers. repeat split; intros Hget.
  - rewrite (collect_volume_metrics_listed rt _ _ _ _ _ Hget eq_refl).
    unfold get. by rewrite Hrecords.
  - rewrite (collect_tier_metrics_listed rt _ _ _ _ _ Hget eq_refl).
    unfold get. by rewrite Hrecords.
  - rewrite (collect_node_metrics_listed rt _ _ _ _ _ Hget eq_refl).
    unfold get. by rewrite Hrecords.
Qed.

(** C3, the bare-array shape: when a list endpoint answers 200 with a JSON
    array, [data.get("records", data)] raises [AttributeError], since a list
    has no [get]; the collector stops there, before looking at any entry,
    having recorded nothing but its start record and the request. *)
Theorem bare_array_rejected (rt : runtime) (ontap_ip username password : string)
    (w : world) (entries : list value) :
  let answers path :=
    http_get rt (length (requests w)) ("https://" +:+ ontap_ip +:+ path)
      username password = Responded (mk_response 200 (Some (VList entries))) in
  (answers "/api/storage/volumes" ->
   collect_volume_metrics rt ontap_ip username password w =
   (Raise AttributeError,
    listed VolumesStart ("https://" +:+ ontap_ip +:+ "/api/storage/volumes") w)) /\
  (answers "/api/storage/aggregates" ->
   collect_tier_metrics rt ontap_ip username password w =
   (Raise AttributeError,
    listed TiersStart ("https://" +:+ ontap_ip +:+ "/api/storage/aggregates") w)) /\
  (answers "/api/cluster/nodes" ->
   collect_node_metrics rt ontap_ip username password w =
   (Raise AttributeError,
    listed NodesStart ("https://" +:+ ontap_ip +:+ "/api/cluster/nodes") w)).
Proof.
  intros answers. repeat split; intros Hget.
  - by rewrite (collect_volume_metrics_listed rt _ _ _ _ _ Hget eq_refl).
  - by rewrite (collect_tier_metrics_listed rt _ _ _ _ _ Hget eq_refl).
  - by rewrite (collect_node_metrics_listed rt _ _ _ _ _ Hget eq_refl).
Qed.

Lemma bare_array_rejected_witness :
  http_get Fixture.upstream 0 "https://10.0.0.2/api/storage/volumes" "admin" "secret"
  = Responded (mk_response 200 (Some (VList Fixture.volume_records))) /\
  collect_volume_metrics Fixture.upstream "10.0.0.2" "admin" "secret" Fixture.fresh =
  (Raise AttributeError,
   listed VolumesStart "https://10.0.0.2/api/storage/volumes" Fixture.fresh).
Proof.
  split; [reflexivity|].
  exact (proj1 (bare_array_rejected Fixture.upstream "10.0.0.2" "admin" "secret"
                  Fixture.fresh Fixture.volume_records) eq_refl).
Defined.

(** The same three volumes behind an envelope are all looked at. *)
Example envelope_on_fixture :
  collect_volume_metrics Fixture.upstream "10.0.0.1" "admin" "secret" Fixture.fresh =
  for_each Fixture.volume_records (volume_entry Fixture.upstream "10.0.0.1" "admin" "secret")
    (listed VolumesStart "https://10.0.0.1/api/storage/volumes" Fixture.fresh).
Proof.
  refine (proj1 (envelope_iterated Fixture.upstream "10.0.0.1" "admin" "secret"
                   Fixture.fresh
                   (list_to_map [("records", VList Fixture.volume_records)])
                   Fixture.volume_records _) _); reflexivity.
Qed.

(* ================================================================== *)
(** * One level or two *)
(* ================================================================== *)

(** Against C5 as it is stated, the node collector on the fixture: the
    entry of [node1] carries a detail link, the only request made is the one for the list, and the four node
    gauges are recorded from the fields of the list entry. *)
Lemma node_collector_single_level :
  let w := exec (collect_node_metrics Fixture.upstream "10.0.0.1" "admin" "secret")
             Fixture.fresh in
  self_link (hd VNone Fixture.node_records) = Ret (VStr "/api/cluster/nodes/1") /\
  requests w = ["https://10.0.0.1/api/cluster/nodes"] /\
  ("https://10.0.0.1/api/cluster/nodes/1" ∉ requests w) /\
  gauges w !! (node_uptime, ["node1"]) = Some 1234%float /\
  gauges w !! (node_state, ["node1"]) = Some 1%float /\
  gauges w !! (node_cpu_count, ["node1"]) = Some 8%float /\
  gauges w !! (node_memory_size, ["node1"]) = Some 17179869184%float.
Proof.
  vm_compute. repeat split.
  intros Hin. apply list_elem_of_singleton in Hin. discriminate Hin.
Qed.

(** C5, as the code has it: the volume and aggregate collectors fetch the
    list and then, for each entry with a detail link, fetch that link (one
    request, to ["https://" + ontap_ip + href]) and record from the object
    fetched; the node collector makes one request in all, for the list, and
    records each entry from the entry itself. *)
Theorem collectors_protocol (rt : runtime) (ontap_ip username password : string)
    (w : world) :
  (forall entry name self_href,
      get entry "name" (VStr "Inconnu") = Ret name ->
      self_link entry = Ret self_href ->
      truthy self_href = true ->
      let url := "https://" +:+ ontap_ip +:+ str rt self_href in
      (volume_entry rt ontap_ip username password entry w =
       (vol_detail <- fetch_json rt url username password ;;
        if is_none vol_detail then logging ERROR (VolumeDetailFailed name)
        else volume_detail_metrics rt name vol_detail) w /\
       requests (exec (volume_entry rt ontap_ip username password entry) w)
       = url :: requests w) /\
      (tier_entry rt ontap_ip username password entry w =
       (agg_detail <- fetch_json rt url username password ;;
        if is_none agg_detail then logging ERROR (TierDetailFailed name)
        else tier_detail_metrics rt name agg_detail) w /\
       requests (exec (tier_entry rt ontap_ip username password entry) w)
       = url :: requests w)) /\
  (exists later,
      requests (exec (collect_volume_metrics rt ontap_ip username password) w)
      = (later ++ ("https://" +:+ ontap_ip +:+ "/api/storage/volumes") :: requests w)%list) /\
  (exists later,
      requests (exec (collect_tier_metrics rt ontap_ip username password) w)
      = (later ++ ("https://" +:+ ontap_ip +:+ "/api/storage/aggregates") :: requests w)%list) /\
  requests (exec (collect_node_metrics rt ontap_ip username password) w)
  = ("https://" +:+ ontap_ip +:+ "/api/cluster/nodes") :: requests w.
Proof.
  assert (forall (k : value -> M unit) url w0,
             (forall data, preserves same_requests (k data)) ->
             requests (exec (data <- fetch_json rt url username password ;; k data) w0)
             = url :: requests w0) as Hone.
  { intros k url w0 Hk. rewrite exec_bind.
    pose proof (fetch_json_requests rt url username password w0) as Hreq.
    unfold exec in Hreq.
    destruct (fetch_json rt url username password w0) as [[data|e] w1]; simpl in *;
      [|done].
    by rewrite (Hk data w1). }
  assert (forall (k : value -> M unit) url w0,
             (forall data, preserves more_requests (k data)) ->
             exists later,
               requests (exec (data <- fetch_json rt url username password ;; k data) w0)
               = (later ++ url :: requests w0)%list) as Hmore.
  { intros k url w0 Hk. rewrite exec_bind.
    pose proof (fetch_json_requests rt url username password w0) as Hreq.
    unfold exec in Hreq.
    destruct (fetch_json rt url username password w0) as [[data|e] w1]; simpl in *;
      [|by exists []].
    destruct (Hk data w1) as [later Hlater]. exists later. by rewrite Hlater, Hreq. }
  split; [|split; [|split]].
  - intros entry name self_href Hname Hlink Htrue. cbv zeta. repeat split.
    + unfold volume_entry. by rewrite Hname, bind_lift_Ret, Hlink, bind_lift_Ret, Htrue.
    + unfold volume_entry.
      rewrite Hname, exec_bind_lift_Ret, Hlink, exec_bind_lift_Ret, Htrue.
      simpl negb. cbv iota zeta.
      apply Hone. intros data. destruct (is_none data); frame.
      apply volume_detail_metrics_same_requests.
    + unfold tier_entry. by rewrite Hname, bind_lift_Ret, Hlink, bind_lift_Ret, Htrue.
    + unfold tier_entry.
      rewrite Hname, exec_bind_lift_Ret, Hlink, exec_bind_lift_Ret, Htrue.
      simpl negb. cbv iota zeta.
      apply Hone. intros data. destruct (is_none data); frame.
      apply tier_detail_metrics_same_requests.
  - unfold collect_volume_metrics. rewrite exec_bind. simpl.
    change (requests w) with (requests (record_log INFO VolumesStart w)).
    apply Hmore. intros data. frame. apply volume_entry_more_requests.
  - unfold collect_tier_metrics. rewrite exec_bind. simpl.
    change (requests w) with (requests (record_log INFO TiersStart w)).
    apply Hmore. intros data. frame. apply tier_entry_more_requests.
  - unfold collect_node_metrics. rewrite exec_bind. simpl.
    change (requests w) with (requests (record_log INFO NodesStart w)).
    apply Hone. intros data. frame. apply node_entry_same_requests.
Qed.

Lemma collectors_protocol_witness :
  let entry := hd VNone Fixture.volume_records in
  get entry "name" (VStr "Inconnu") = Ret (VStr "vol1") /\
  self_link entry = Ret (VStr "/api/storage/volumes/1") /\
  requests (exec (volume_entry Fixture.upstream "10.0.0.1" "admin" "secret" entry)
              Fixture.fresh)
  = ["https://10.0.0.1/api/storage/volumes/1"] /\
  requests (exec (collect_node_metrics Fixture.upstream "10.0.0.1" "admin" "secret")
              Fixture.fresh)
  = ["https://10.0.0.1/api/cluster/nodes"].
Proof.
  cbv zeta. split; [reflexivity|]. split; [reflexivity|].
  destruct (collectors_protocol Fixture.upstream "10.0.0.1" "admin" "secret"
              Fixture.fresh) as (Hentry & _ & _ & Hnode).
  split; [|exact Hnode].
  exact (proj2 (proj1 (Hentry (hd VNone Fixture.volume_records) (VStr "vol1")
                         (VStr "/api/storage/volumes/1") eq_refl eq_refl eq_refl))).
Defined.

(* ================================================================== *)
(** * An empty space object *)
(* ================================================================== *)

(** C10: a volume detail object whose ["space"] key maps to an empty object
    is processed exactly as the same object without the key: the samples of
    the four space gauges are left as they were, for every label, while the
    sample of [volume_create_time] for the volume is written and, the
    [snapshot_policy] and [svm] fields being objects when present, so is
    the sample of [volume_info]. *)
Theorem empty_space_like_absent (rt : runtime) (vol_name : value)
    (d : gmap string value) (w : world) :
  d !! "space" = Some (VDict ∅) ->
  let present := volume_detail_metrics rt vol_name (VDict d) in
  let absent := volume_detail_metrics rt vol_name (VDict (delete "space" d)) in
  present w = absent w /\
  (forall g lvs, g ∈ space_gauges ->
                 gauges (exec present w) !! (g, lvs) = gauges w !! (g, lvs)) /\
  is_Some (gauges (exec present w) !! (volume_create_time, [str rt vol_name])) /\
  (forall style vtype policy snapshot_policy svm svm_name,
      get (VDict d) "style" (VStr "unknown") = Ret style ->
      get (VDict d) "type" (VStr "unknown") = Ret vtype ->
      get (VDict d) "snapshot_policy" (VDict ∅) = Ret policy ->
      get policy "name" (VStr "unknown") = Ret snapshot_policy ->
      get (VDict d) "svm" (VDict ∅) = Ret svm ->
      get svm "name" (VStr "unknown") = Ret svm_name ->
      (present w).1 = Ret tt /\
      gauges (exec present w)
        !! (volume_info,
            [str rt vol_name; str rt style; str rt vtype; str rt snapshot_policy;
             str rt svm_name])
      = Some 1%float).
Proof.
  intros Hspace. cbv zeta.
  assert (volume_space_metrics rt vol_name (VDict d) w
          = (Ret tt, record_log INFO (VolumeNoSpace vol_name) w)) as Hpresent.
  { apply (volume_space_metrics_skip rt _ _ (VDict ∅)); [|done].
    unfold get. by rewrite Hspace. }
  assert (volume_space_metrics rt vol_name (VDict (delete "space" d)) w
          = (Ret tt, record_log INFO (VolumeNoSpace vol_name) w)) as Habsent.
  { apply (volume_space_metrics_skip rt _ _ (VDict ∅)); [|done].
    unfold get. by rewrite lookup_delete_eq. }
  destruct (CreateTime.volume_create_time_metric_returns rt vol_name d
              (record_log INFO (VolumeNoSpace vol_name) w))
    as (ts & w1 & Hcreate & Hw1).
  split; [|split; [|split]].
  - unfold volume_detail_metrics.
    rewrite (bind_run_Ret _ _ _ _ _ Hpresent), (bind_run_Ret _ _ _ _ _ Habsent).
    unfold volume_create_time_metric, volume_info_metric.
    by rewrite !get_delete_ne.
  - intros g lvs Hg. unfold volume_detail_metrics.
    rewrite (exec_bind_Ret _ _ _ _ _ Hpresent).
    rewrite (volume_later_blocks_footprint rt vol_name (VDict d) _ g lvs); [done|].
    unfold space_gauges in Hg. intros Hin.
    repeat (apply elem_of_cons in Hg as [->|Hg]; [revert Hin; not_among|]).
    by apply elem_of_nil in Hg.
  - unfold volume_detail_metrics.
    rewrite (exec_bind_Ret _ _ _ _ _ Hpresent), (exec_bind_Ret _ _ _ _ _ Hcreate).
    rewrite (volume_info_metric_footprint rt vol_name (VDict d) _
               volume_create_time [str rt vol_name]) by done.
    simpl. rewrite lookup_insert_eq. by eexists.
  - intros style vtype policy snapshot_policy svm svm_name
      Hstyle Htype Hpolicy Hpname Hsvm Hsname.
    unfold volume_detail_metrics, exec.
    rewrite (bind_run_Ret _ _ _ _ _ Hpresent), (bind_run_Ret _ _ _ _ _ Hcreate).
    erewrite CreateTime.volume_info_metric_run by eassumption.
    split; [done|]. simpl. apply lookup_insert_eq.
Qed.

Lemma empty_space_like_absent_witness :
  let r := volume_detail_metrics Fixture.upstream (VStr "vol3") Fixture.vol3_detail
             Fixture.fresh in
  r.1 = Ret tt /\
  (forall g lvs, g ∈ space_gauges -> gauges r.2 !! (g, lvs) = None) /\
  is_Some (gauges r.2 !! (volume_create_time, ["vol3"])) /\
  gauges r.2 !! (volume_info, ["vol3"; "unknown"; "unknown"; "unknown"; "unknown"])
  = Some 1%float.
Proof.
  destruct (empty_space_like_absent Fixture.upstream (VStr "vol3") Fixture.vol3_fields
              Fixture.fresh ltac:(vm_compute; reflexivity)) as (_ & Hspace & Hcreate & Hinfo).
  destruct (Hinfo (VStr "unknown") (VStr "unknown") (VDict ∅) (VStr "unknown")
              (VDict ∅) (VStr "unknown")
              ltac:(vm_compute; reflexivity) ltac:(vm_compute; reflexivity) ltac:(vm_compute; reflexivity)
              ltac:(vm_compute; reflexivity) ltac:(vm_compute; reflexivity) ltac:(vm_compute; reflexivity))
    as [Hret Hsample].
  cbv zeta. split; [exact Hret|]. split; [|split; [exact Hcreate | exact Hsample]].
  intros g lvs Hg. etrans; [exact (Hspace g lvs Hg) | apply lookup_empty].
Defined.

(* ================================================================== *)
(** * Creation time *)
(* ================================================================== *)




(** A text with a fraction of one digit is outside the format documented
    up to Python 3.10.  An exporter running on such a Python records it as
    0 with an ERROR record; one running on a Python that reads it as half
    a second past midnight records that instant. *)
Example create_time_by_version :
  let s := "2023-01-01T00:00:00.5Z" in
  let detail := Fixture.dict [("create_time", VStr s)] in
  let sample rt :=
    let run := volume_create_time_metric rt (VStr "vol1") detail Fixture.fresh in
    (gauges run.2 !! (volume_create_time, ["vol1"]), log run.2) in
  Datetime.fromisoformat (replace_char "Z" "+00:00" s) = None /\
  sample Fixture.upstream
  = (Some 0%float, [(ERROR, VolumeDateError (VStr "vol1") (VStr s))]) /\
  sample Cases.lenient = (Some 1672531200.5%float, []).
Proof. vm_compute. repeat split. Qed.

(** The two strings named by the specification, and the first and last
    seconds that a [datetime] can hold. *)
Example create_time_examples :
  create_time_timestamp Fixture.upstream (VStr "2023-01-01T00:00:00Z")
  = Ret 1672531200%float /\
  create_time_timestamp Fixture.upstream (VStr "0001-01-01T00:00:00Z")
  = Ret (-62135596800)%float /\
  create_time_timestamp Fixture.upstream (VStr "9999-12-31T23:59:59Z")
  = Ret 253402300799%float /\
  create_time_timestamp Fixture.upstream (VStr "not-a-date") = Raise ValueError /\
  log (exec (volume_create_time_metric Fixture.upstream (VStr "vol3") Fixture.vol3_detail)
         Fixture.fresh)
  = [(ERROR, VolumeDateError (VStr "vol3") (VStr "not-a-date"))].
Proof. vm_compute. repeat split. Qed.

(* ================================================================== *)
(** * The metric catalogue *)
(* ================================================================== *)

(** Against C4 as it is stated: the declared names are not those of the
    catalogue, every one of them carrying the prefix of the exporter. *)
Lemma declared_names_not_catalogue :
  gauge_name volume_used = "netapp_volume_used_bytes" /\
  ("volume_used_bytes" ∉ declared_metrics.*1) /\
  declared_metrics <> catalogue.
Proof.
  split; [reflexivity|]. split; [|discriminate].
  vm_compute. intros Hin.
  repeat (apply elem_of_cons in Hin as [Hin|Hin]; [discriminate Hin|]).
  by apply elem_of_nil in Hin.
Qed.

(** C4, as the code has it: the module declares seventeen metric families,
    the sixteen gauges and the counter [failed_requests]; their names are
    the names of the catalogue with the prefix ["netapp_"], in the order of
    the catalogue, and their label names are exactly those of the
    catalogue. *)
Theorem declared_metrics_prefixed :
  declared_metrics
  = (fun '(name, labelnames) => ("netapp_" +:+ name, labelnames)) <$> catalogue.
Proof. reflexivity. Qed.
(* ================================================================== *)
(** * What a sweep keeps: the frame conditions *)
(* ================================================================== *)

Module Kept.
Import Py Exporter Run Facts Gauges Collectors.
Export Keeps.
#[local] Open Scope py_scope.

#[global] Instance samples_outside_preorder K : PreOrder (samples_outside K).
Proof.
  split.
  - by intros w key _.
  - intros w1 w2 w3 H12 H23 key HK. by rewrite H23, H12.
Qed.

#[global] Instance keeps_samples_preorder : PreOrder keeps_samples.
Proof.
  split.
  - by intros w key.
  - intros w1 w2 w3 H12 H23 key Hkey. by apply H23, H12.
Qed.

#[global] Instance counts_grow_preorder : PreOrder counts_grow.
Proof.
  split.
  - by intros w url.
  - intros w1 w2 w3 H12 H23 url. etrans; [apply H12 | apply H23].
Qed.

Lemma same_gauges_samples_outside K w w' : same_gauges w w' -> samples_outside K w w'.
Proof. intros H key _. by rewrite H. Qed.

Lemma same_gauges_keeps_samples w w' : same_gauges w w' -> keeps_samples w w'.
Proof. intros H key. by rewrite H. Qed.

Lemma same_failed_requests_counts_grow w w' :
  same_failed_requests w w' -> counts_grow w w'.
Proof. intros H url. by rewrite H. Qed.

Lemma failed_requests_inc_counts_grow url : preserves counts_grow (failed_requests_inc url).
Proof.
  intros w url'. unfold exec, failed_requests_inc, counter_value. simpl.
  destruct (decide (url' = url)) as [->|Hne].
  - rewrite lookup_insert_eq. simpl. lia.
  - by rewrite lookup_insert_ne.
Qed.

(** A loop keeps what its body keeps on each of the entries. *)
Lemma preserves_for_each_in R `{!PreOrder R} xs body :
  (forall x, x ∈ xs -> preserves R (body x)) -> preserves R (for_each xs body).
Proof.
  induction xs as [|x xs IH]; intros Hb; simpl.
  - by apply preserves_ret.
  - apply preserves_bind; [done | apply Hb; left | intros _].
    apply IH. intros y Hy. apply Hb. by right.
Qed.

Section WithRuntime.
Context (rt : runtime).

(** [gauge_set] only touches the sample it is asked to set. *)
Lemma gauge_set_samples_outside (K : gauge * list string -> Prop) g kwargs v :
  (forall lvs, labelvalues rt g kwargs = Ret lvs -> K (g, lvs)) ->
  preserves (samples_outside K) (gauge_set rt g kwargs v).
Proof.
  intros HK w key HnK.
  unfold exec, gauge_set, labels, set, bind, lift.
  destruct (labelvalues rt g kwargs) as [lvs|e]; simpl; [|done].
  assert ((g, lvs) <> key) as Hne by (intros <-; by apply HnK, HK).
  destruct (float rt v) as [f|e]; simpl.
  - destruct (gauges w !! (g, lvs)); simpl; by rewrite !lookup_insert_ne.
  - destruct (gauges w !! (g, lvs)); simpl; [done | by rewrite lookup_insert_ne].
Qed.

(** [gauge_set] removes nothing. *)
Lemma gauge_set_keeps_samples g kwargs v :
  preserves keeps_samples (gauge_set rt g kwargs v).
Proof.
  intros w key Hkey.
  unfold exec, gauge_set, labels, set, bind, lift.
  destruct (labelvalues rt g kwargs) as [lvs|e]; simpl; [|done].
  destruct (float rt v) as [f|e]; simpl.
  - destruct (gauges w !! (g, lvs)); simpl;
      repeat (apply lookup_insert_is_Some'; right); done.
  - destruct (gauges w !! (g, lvs)); simpl; [done|].
    apply lookup_insert_is_Some'. by right.
Qed.

Lemma fetch_json_same_failed_requests_ne url u p w url' :
  url' <> url ->
  failed_requests (exec (fetch_json rt url u p) w) !! url' = failed_requests w !! url'.
Proof.
  intros Hne. unfold exec, fetch_json, try_except, bind, requests_get.
  destruct (http_get rt _ url u p) as [e|r]; simpl; [by rewrite lookup_insert_ne|].
  destruct (status_code r =? 200); simpl; [|by rewrite lookup_insert_ne].
  unfold response_json. by destruct (json_body r); simpl; [|rewrite lookup_insert_ne].
Qed.

Lemma fetch_json_counts_grow url u p : preserves counts_grow (fetch_json rt url u p).
Proof.
  unfold fetch_json.
  assert (forall l msg, preserves counts_grow (logging l msg)) as Hlog
    by (intros l msg w url'; done).
  assert (preserves counts_grow (requests_get rt url u p)) as Hget.
  { apply (preserves_weaken same_failed_requests); [|apply requests_get_same_failed_requests].
    apply same_failed_requests_counts_grow. }
  pose proof failed_requests_inc_counts_grow as Hinc.
  frame. apply response_json_preserves, _.
Qed.

End WithRuntime.

#[export] Hint Extern 2 (preserves (gauges_outside _) (fetch_json _ _ _ _)) =>
  apply same_gauges_outside, fetch_json_same_gauges : frame.
#[export] Hint Extern 2 (preserves (samples_outside _) (fetch_json _ _ _ _)) =>
  apply (preserves_weaken same_gauges), fetch_json_same_gauges;
  apply same_gauges_samples_outside : frame.
#[export] Hint Extern 2 (preserves (samples_outside _) (logging _ _)) =>
  apply (preserves_weaken same_gauges), logging_same_gauges;
  apply same_gauges_samples_outside : frame.
#[export] Hint Extern 2 (preserves keeps_samples (fetch_json _ _ _ _)) =>
  apply (preserves_weaken same_gauges), fetch_json_same_gauges;
  apply same_gauges_keeps_samples : frame.
#[export] Hint Extern 2 (preserves keeps_samples (logging _ _)) =>
  apply (preserves_weaken same_gauges), logging_same_gauges;
  apply same_gauges_keeps_samples : frame.
#[export] Hint Extern 2 (preserves counts_grow (logging _ _)) =>
  apply (preserves_weaken same_failed_requests), logging_same_failed_requests;
  apply same_failed_requests_counts_grow : frame.
#[export] Hint Extern 2 (preserves counts_grow (gauge_set _ _ _ _)) =>
  apply (preserves_weaken same_failed_requests), gauge_set_same_failed_requests;
  apply same_failed_requests_counts_grow : frame.
#[export] Hint Resolve gauge_set_keeps_samples fetch_json_counts_grow : frame.

End Kept.

(* ================================================================== *)
(** * Sweeps as a whole *)
(* ================================================================== *)

Module Sweeps.
Import Py Exporter Run Facts Gauges Collectors Kept.
#[local] Open Scope py_scope.

Ltac unfold_collectors :=
  unfold collect_volume_metrics, collect_tier_metrics, collect_node_metrics,
    volume_entry, tier_entry, node_entry, volume_detail_metrics, tier_detail_metrics,
    volume_space_metrics, volume_create_time_metric, volume_info_metric.

Section WithRuntime.
Context (rt : runtime).

Lemma collect_volume_metrics_footprint ip u p :
  preserves (gauges_outside (.∈ volume_gauges)) (collect_volume_metrics rt ip u p).
Proof. unfold_collectors. unfold volume_gauges. frame. Qed.

Lemma collect_tier_metrics_footprint ip u p :
  preserves (gauges_outside (.∈ tier_gauges)) (collect_tier_metrics rt ip u p).
Proof. unfold_collectors. unfold tier_gauges. frame. Qed.

Lemma collect_node_metrics_footprint ip u p :
  preserves (gauges_outside (.∈ node_gauges)) (collect_node_metrics rt ip u p).
Proof. unfold_collectors. unfold node_gauges. frame. Qed.

Lemma collect_volume_metrics_keeps_samples ip u p :
  preserves keeps_samples (collect_volume_metrics rt ip u p).
Proof. unfold_collectors. frame. Qed.

Lemma collect_tier_metrics_keeps_samples ip u p :
  preserves keeps_samples (collect_tier_metrics rt ip u p).
Proof. unfold_collectors. frame. Qed.

Lemma collect_node_metrics_keeps_samples ip u p :
  preserves keeps_samples (collect_node_metrics rt ip u p).
Proof. unfold_collectors. frame. Qed.

Lemma collect_volume_metrics_counts_grow ip u p :
  preserves counts_grow (collect_volume_metrics rt ip u p).
Proof. unfold_collectors. frame. Qed.

Lemma collect_tier_metrics_counts_grow ip u p :
  preserves counts_grow (collect_tier_metrics rt ip u p).
Proof. unfold_collectors. frame. Qed.

Lemma collect_node_metrics_counts_grow ip u p :
  preserves counts_grow (collect_node_metrics rt ip u p).
Proof. unfold_collectors. frame. Qed.

(** ** One resource at a time *)

Lemma gauge_set_of_resource g l name v :
  gauge_labelnames g = [l] ->
  preserves (samples_outside (of_resource rt name)) (gauge_set rt g [(l, name)] v).
Proof.
  intros Hl. apply gauge_set_samples_outside. intros lvs Hlvs.
  rewrite labelvalues_single in Hlvs by done. by injection Hlvs as <-.
Qed.

Lemma gauge_set_volume_info_of_resource name v2 v3 v4 v5 v :
  preserves (samples_outside (of_resource rt name))
    (gauge_set rt volume_info
       [("volume", name); ("style", v2); ("type", v3); ("snapshot_policy", v4);
        ("svm", v5)] v).
Proof.
  apply gauge_set_samples_outside. intros lvs Hlvs.
  rewrite labelvalues_volume_info in Hlvs. by injection Hlvs as <-.
Qed.

#[local] Hint Extern 1 (preserves (samples_outside (of_resource _ _)) (gauge_set _ _ [_] _)) =>
  by apply gauge_set_of_resource : frame.
#[local] Hint Resolve gauge_set_volume_info_of_resource : frame.

Lemma volume_detail_metrics_of_resource name vol_detail :
  preserves (samples_outside (of_resource rt name))
    (volume_detail_metrics rt name vol_detail).
Proof. unfold_collectors. frame. Qed.

Lemma tier_detail_metrics_of_resource name agg_detail :
  preserves (samples_outside (of_resource rt name))
    (tier_detail_metrics rt name agg_detail).
Proof. unfold_collectors. frame. Qed.

Lemma preserves_bind_lift_Ret {A B} R (a : A) (k : A -> M B) :
  preserves R (k a) -> preserves R (bind (lift (Ret a)) k).
Proof. intros H w. apply H. Qed.

Lemma preserves_bind_lift_Raise {A B} R `{!Reflexive R} e (k : A -> M B) :
  preserves R (bind (lift (Raise e)) k).
Proof. intros w. reflexivity. Qed.

Lemma of_resource_among name names w w' :
  str rt name ∈ names ->
  samples_outside (of_resource rt name) w w' ->
  samples_outside (among_resources names) w w'.
Proof.
  intros Hin H key HnK. apply H. intros Hkey. apply HnK.
  by exists (str rt name).
Qed.

Lemma entry_names_elem entries entry name :
  entry ∈ entries -> get entry "name" (VStr "Inconnu") = Ret name ->
  str rt name ∈ entry_names rt entries.
Proof.
  intros Hin Hname. unfold entry_names. apply list_elem_of_omap.
  exists entry. by rewrite Hname.
Qed.

(** Each loop body only touches samples of the entry it is run on. *)
Lemma volume_entry_among ip u p entries entry :
  entry ∈ entries ->
  preserves (samples_outside (among_resources (entry_names rt entries)))
    (volume_entry rt ip u p entry).
Proof.
  intros Hin. unfold volume_entry.
  destruct (get entry "name" (VStr "Inconnu")) as [name|e] eqn:Hname;
    [|apply preserves_bind_lift_Raise, _].
  apply preserves_bind_lift_Ret.
  apply (preserves_weaken (samples_outside (of_resource rt name)));
    [intros w w'; by apply of_resource_among, (entry_names_elem _ entry)|].
  pose proof (volume_detail_metrics_of_resource name) as Hdetail.
  frame.
Qed.

Lemma tier_entry_among ip u p entries entry :
  entry ∈ entries ->
  preserves (samples_outside (among_resources (entry_names rt entries)))
    (tier_entry rt ip u p entry).
Proof.
  intros Hin. unfold tier_entry.
  destruct (get entry "name" (VStr "Inconnu")) as [name|e] eqn:Hname;
    [|apply preserves_bind_lift_Raise, _].
  apply preserves_bind_lift_Ret.
  apply (preserves_weaken (samples_outside (of_resource rt name)));
    [intros w w'; by apply of_resource_among, (entry_names_elem _ entry)|].
  pose proof (tier_detail_metrics_of_resource name) as Hdetail.
  frame.
Qed.

Lemma node_entry_among entries entry :
  entry ∈ entries ->
  preserves (samples_outside (among_resources (entry_names rt entries)))
    (node_entry rt entry).
Proof.
  intros Hin. unfold node_entry.
  destruct (get entry "name" (VStr "Inconnu")) as [name|e] eqn:Hname;
    [|apply preserves_bind_lift_Raise, _].
  apply preserves_bind_lift_Ret.
  apply (preserves_weaken (samples_outside (of_resource rt name)));
    [intros w w'; by apply of_resource_among, (entry_names_elem _ entry)|].
  frame.
Qed.

End WithRuntime.
End Sweeps.

(* ================================================================== *)
(** * When a fetch fails or an answer has an unexpected shape *)
(* ================================================================== *)

Module Failures.
Import Py Exporter Run Facts Gauges Collectors Kept.
#[local] Open Scope py_scope.

Section WithRuntime.
Context (rt : runtime).

(** A fetch that fails, in full. *)
Lemma fetch_json_fails_run url u p w :
  fetch_fails (http_get rt (length (requests w)) url u p) = true ->
  fetch_json rt url u p w =
  (Ret VNone,
   fetch_failed url (failure_message url (http_get rt (length (requests w)) url u p)) w).
Proof.
  unfold fetch_json, try_except, bind, requests_get, failure_message.
  destruct (http_get rt _ url u p) as [e|[status body]]; simpl; [done|].
  destruct (status =? 200); simpl; [|done].
  destruct body as [v|]; [done|]. done.
Qed.

(** An entry that is not an object stops the loop it is met in. *)
Lemma for_each_raise body pre x post e w :
  (forall w', body x w' = (Raise e, w')) ->
  for_each (pre ++ x :: post) body w = (for_each pre body ;; raise e) w.
Proof.
  intros Hx. rewrite for_each_app. apply bind_ext. intros _ w'. simpl.
  unfold bind. by rewrite Hx.
Qed.

Lemma get_not_object entry key default :
  (forall d, entry <> VDict d) -> get entry key default = Raise AttributeError.
Proof. intros Hne. destruct entry; try done. by destruct (Hne d). Qed.

(** The keys of an object that is not empty. *)
Lemma iter_object_nonempty (d : gmap string value) :
  d <> ∅ -> exists k rest, iter (VDict d) = Ret (VStr k :: rest).
Proof.
  intros Hne. simpl. destruct (map_to_list d) as [|[k v] l] eqn:Hl.
  - by apply map_to_list_empty_iff in Hl.
  - by exists k, (VStr <$> l.*1).
Qed.

(** A fetch followed by steps that make no request makes one request. *)
Lemma fetch_then_same_requests (k : value -> M unit) url u p w :
  (forall data, preserves same_requests (k data)) ->
  requests (exec (data <- fetch_json rt url u p ;; k data) w) = url :: requests w.
Proof.
  intros Hk. rewrite exec_bind.
  pose proof (fetch_json_requests rt url u p w) as Hreq. unfold exec in Hreq.
  destruct (fetch_json rt url u p w) as [[data|e] w1]; simpl in *; [|done].
  by rewrite (Hk data w1).
Qed.

(** A loop body makes at most one request. *)
Lemma volume_entry_one_request ip u p entry w :
  (length (requests (exec (volume_entry rt ip u p entry) w)) <= S (length (requests w)))%nat.
Proof.
  unfold volume_entry.
  destruct (get entry "name" _) as [name|e]; [|unfold exec, bind, lift; simpl; lia]. rewrite exec_bind_lift_Ret.
  destruct (self_link entry) as [href|e]; [|unfold exec, bind, lift; simpl; lia]. rewrite exec_bind_lift_Ret.
  destruct (negb (truthy href)); [unfold exec, logging; simpl; lia|].
  rewrite fetch_then_same_requests; [simpl; lia|].
  intros data. destruct (is_none data); frame. apply volume_detail_metrics_same_requests.
Qed.

Lemma tier_entry_one_request ip u p entry w :
  (length (requests (exec (tier_entry rt ip u p entry) w)) <= S (length (requests w)))%nat.
Proof.
  unfold tier_entry.
  destruct (get entry "name" _) as [name|e]; [|unfold exec, bind, lift; simpl; lia]. rewrite exec_bind_lift_Ret.
  destruct (self_link entry) as [href|e]; [|unfold exec, bind, lift; simpl; lia]. rewrite exec_bind_lift_Ret.
  destruct (negb (truthy href)); [unfold exec, logging; simpl; lia|].
  rewrite fetch_then_same_requests; [simpl; lia|].
  intros data. destruct (is_none data); frame. apply tier_detail_metrics_same_requests.
Qed.

Lemma for_each_requests_bound body entries w :
  (forall entry w', (length (requests (exec (body entry) w')) <= S (length (requests w')))%nat) ->
  (length (requests (exec (for_each entries body) w))
   <= length entries + length (requests w))%nat.
Proof.
  intros Hbody. revert w. induction entries as [|x xs IH]; intros w; simpl; [unfold exec; simpl; lia|].
  rewrite exec_bind. specialize (Hbody x w). unfold exec in Hbody.
  destruct (body x w) as [[[]|e] w1]; simpl in *; [|lia].
  specialize (IH w1). lia.
Qed.

End WithRuntime.
End Failures.

(* ================================================================== *)
(** * What the recorders write *)
(* ================================================================== *)

Module Recorded.
Import Py Exporter Run Facts Gauges Volumes Collectors Kept.
#[local] Open Scope py_scope.

#[global] Instance info_stays_preorder : PreOrder info_stays.
Proof.
  split.
  - by intros w lvs.
  - intros w1 w2 w3 H12 H23 lvs H. by apply H23, H12.
Qed.

Lemma gauges_outside_info_stays (P : gauge -> Prop) :
  ~ P volume_info -> forall w w', gauges_outside P w w' -> info_stays w w'.
Proof. intros HP w w' H lvs Hlvs. by rewrite H. Qed.

Lemma same_gauges_info_stays w w' : same_gauges w w' -> info_stays w w'.
Proof. intros H lvs. by rewrite H. Qed.

(** ** Scripts of writes *)

Lemma lookup_apply_write g op key :
  apply_write g op !! key = write_effect op key (g !! key).
Proof.
  destruct op as [k|k f]; simpl; destruct (decide (k = key)) as [->|Hne].
  - destruct (g !! key) as [x|] eqn:Hx; [by rewrite Hx | by rewrite lookup_insert_eq].
  - destruct (g !! k); [done | by rewrite lookup_insert_ne].
  - by rewrite lookup_insert_eq.
  - by rewrite lookup_insert_ne.
Qed.

Lemma lookup_apply_writes ops g key :
  apply_writes ops g !! key = foldl (fun x op => write_effect op key x) (g !! key) ops.
Proof.
  revert g. induction ops as [|op ops IH]; intros g; simpl; [done|].
  unfold apply_writes in *. simpl. by rewrite IH, lookup_apply_write.
Qed.

(** On one key a script does nothing, or creates the sample, or sets it. *)
Lemma write_effects_shape ops key :
  let effect x := foldl (fun x op => write_effect op key x) x ops in
  (forall x, effect x = x) \/
  (forall x, effect x = Some (default 0%float x)) \/
  (exists c, forall x, effect x = Some c).
Proof.
  cbv zeta. induction ops as [|op ops IH]; simpl; [by left|].
  destruct op as [k|k f]; simpl; destruct (decide (k = key)) as [->|Hne]; try done.
  - destruct IH as [IH|[IH|[c IH]]].
    + right; left. intros x. by rewrite IH.
    + right; left. intros x. by rewrite IH.
    + right; right. exists c. intros x. by rewrite IH.
  - destruct IH as [IH|[IH|[c IH]]].
    + right; right. exists f. intros x. by rewrite IH.
    + right; right. exists f. intros x. by rewrite IH.
    + right; right. exists c. intros x. by rewrite IH.
Qed.

(** Running a script again changes nothing. *)
Lemma apply_writes_idem ops g : apply_writes ops (apply_writes ops g) = apply_writes ops g.
Proof.
  apply map_eq. intros key. rewrite !lookup_apply_writes.
  destruct (write_effects_shape ops key) as [H|[H|[c H]]]; cbv zeta in H.
  - by rewrite !H.
  - by rewrite !H.
  - by rewrite !H.
Qed.

Lemma writes_only_idem {A} (m : M A) w :
  writes_only m -> gauges (exec m (exec m w)) = gauges (exec m w).
Proof.
  intros (o & ops & Hm).
  rewrite (proj2 (Hm (exec m w))), (proj2 (Hm w)). apply apply_writes_idem.
Qed.

Lemma writes_only_ret {A} (a : A) : writes_only (ret a).
Proof. by exists (Ret a), []. Qed.

Lemma writes_only_raise {A} e : writes_only (@raise A e).
Proof. by exists (Raise e), []. Qed.

Lemma writes_only_lift {A} (o : outcome A) : writes_only (lift o).
Proof. by exists o, []. Qed.

Lemma writes_only_logging l msg : writes_only (logging l msg).
Proof. by exists (Ret tt), []. Qed.

Lemma writes_only_bind {A B} (m : M A) (k : A -> M B) :
  writes_only m -> (forall a, writes_only (k a)) -> writes_only (bind m k).
Proof.
  intros (o & ops & Hm) Hk. destruct o as [a|e].
  - destruct (Hk a) as (o' & ops' & Hka). exists o', (ops ++ ops')%list. intros w.
    destruct (Hm w) as [Hres Hg]. unfold exec, bind in *.
    destruct (m w) as [[a'|e'] w1]; simpl in *; [|done]. injection Hres as ->.
    destruct (Hka w1) as [Hres' Hg']. unfold apply_writes in *.
    by rewrite foldl_app, <- Hg.
  - exists (Raise e), ops. intros w.
    destruct (Hm w) as [Hres Hg]. unfold exec, bind in *.
    destruct (m w) as [[a'|e'] w1]; simpl in *; [done|]. by injection Hres as ->.
Qed.

Lemma writes_only_try_except {A} (m : M A) (h : exn -> M A) :
  writes_only m -> (forall e, writes_only (h e)) -> writes_only (try_except m h).
Proof.
  intros (o & ops & Hm) Hh. destruct o as [a|e].
  - exists (Ret a), ops. intros w.
    destruct (Hm w) as [Hres Hg]. unfold exec, try_except in *.
    destruct (m w) as [[a'|e'] w1]; simpl in *; [|done]. by injection Hres as ->.
  - destruct (Hh e) as (o' & ops' & Hhe). exists o', (ops ++ ops')%list. intros w.
    destruct (Hm w) as [Hres Hg]. unfold exec, try_except in *.
    destruct (m w) as [[a'|e'] w1]; simpl in *; [done|]. injection Hres as ->.
    destruct (Hhe w1) as [Hres' Hg']. unfold apply_writes in *.
    by rewrite foldl_app, <- Hg.
Qed.

Section WithRuntime.
Context (rt : runtime).

Lemma writes_only_gauge_set g kwargs v : writes_only (gauge_set rt g kwargs v).
Proof.
  unfold gauge_set, labels, set, bind, lift, exec.
  destruct (labelvalues rt g kwargs) as [lvs|e]; [|by exists (Raise e), []].
  destruct (float rt v) as [f|e].
  - exists (Ret tt), [Create (g, lvs); Put (g, lvs) f]. intros w. unfold exec. simpl.
    by destruct (gauges w !! (g, lvs)).
  - exists (Raise e), [Create (g, lvs)]. intros w. unfold exec. simpl.
    by destruct (gauges w !! (g, lvs)).
Qed.

(** The info sample is only ever set to 1. *)
Lemma gauge_set_info_stays kwargs :
  preserves info_stays (gauge_set rt volume_info kwargs (VInt 1)).
Proof.
  intros w lvs' Hlvs'. unfold exec, gauge_set, labels, set, bind, lift.
  destruct (labelvalues rt volume_info kwargs) as [lvs|e]; simpl; [|done].
  destruct (decide (lvs = lvs')) as [->|Hne].
  - destruct (gauges w !! (volume_info, lvs')); simpl; apply lookup_insert_eq.
  - assert ((volume_info, lvs) <> (volume_info, lvs')) by congruence.
    destruct (gauges w !! (volume_info, lvs)); simpl; by rewrite !lookup_insert_ne.
Qed.

Lemma float_state_val (b : bool) :
  float rt (if b then VInt 1 else VInt 0) = Ret (if b then 1%float else 0%float).
Proof. by destruct b. Qed.

(** Lines 167-179, for an entry whose fields have the expected shape. *)
Lemma node_entry_run node node_name uptime state controller cpu cpu_count memory_size
      fu fc fm w :
  get node "name" (VStr "Inconnu") = Ret node_name ->
  get node "uptime" (VInt 0) = Ret uptime ->
  get node "state" (VStr "") = Ret (VStr state) ->
  get node "controller" (VDict ∅) = Ret controller ->
  get controller "cpu" (VDict ∅) = Ret cpu ->
  get cpu "count" (VInt 0) = Ret cpu_count ->
  get controller "memory_size" (VInt 0) = Ret memory_size ->
  float rt uptime = Ret fu -> float rt cpu_count = Ret fc ->
  float rt memory_size = Ret fm ->
  node_entry rt node w =
  (Ret tt,
   record_log INFO (NodeSummary node_name uptime (lower_string state) cpu_count memory_size)
     (record_sample (node_memory_size, [str rt node_name]) fm
        (record_sample (node_cpu_count, [str rt node_name]) fc
           (record_sample (node_state, [str rt node_name])
              (if String.eqb (lower_string state) "up" then 1%float else 0%float)
              (record_sample (node_uptime, [str rt node_name]) fu w))))).
Proof.
  intros Hname Hup Hstate Hctl Hcpu Hcount Hmem Hfu Hfc Hfm.
  unfold node_entry.
  rewrite Hname, bind_lift_Ret, Hup, bind_lift_Ret, Hstate, bind_lift_Ret.
  cbn [lower].
  rewrite bind_lift_Ret, Hctl, bind_lift_Ret, Hcpu, bind_lift_Ret, Hcount,
    !bind_lift_Ret, Hmem, bind_lift_Ret.
  pose proof (float_state_val (String.eqb (lower_string state) "up")) as Hfstate.
  do 4 (erewrite bind_run_Ret
          by (apply gauge_set_run; [by apply labelvalues_single | eassumption])).
  reflexivity.
Qed.

End WithRuntime.

Ltac script_step :=
  lazymatch goal with
  | |- writes_only (bind _ _) => apply writes_only_bind; [|intros ?]
  | |- writes_only (try_except _ _) => apply writes_only_try_except; [|intros ?]
  | |- writes_only (ret _) => apply writes_only_ret
  | |- writes_only (raise _) => apply writes_only_raise
  | |- writes_only (lift _) => apply writes_only_lift
  | |- writes_only (logging _ _) => apply writes_only_logging
  | |- writes_only (gauge_set _ _ _ _) => apply writes_only_gauge_set
  | |- writes_only (if ?b then _ else _) => destruct b
  end.

Ltac script := repeat script_step.

#[export] Hint Resolve gauge_set_info_stays : frame.
#[export] Hint Extern 2 (preserves info_stays (fetch_json _ _ _ _)) =>
  apply (preserves_weaken same_gauges), fetch_json_same_gauges;
  apply same_gauges_info_stays : frame.
#[export] Hint Extern 2 (preserves info_stays (logging _ _)) =>
  apply (preserves_weaken same_gauges), logging_same_gauges;
  apply same_gauges_info_stays : frame.
#[export] Hint Extern 3 (preserves info_stays (gauge_set _ ?g _ _)) =>
  apply (preserves_weaken (gauges_outside (.= g)));
  [apply gauges_outside_info_stays; by intros ?
  |by apply gauge_set_gauges_outside] : frame.

Section WithRuntime.
Context (rt : runtime).

Lemma volume_detail_metrics_writes_only name vol_detail :
  writes_only (volume_detail_metrics rt name vol_detail).
Proof.
  unfold volume_detail_metrics, volume_space_metrics, volume_create_time_metric,
    volume_info_metric.
  script.
Qed.

Lemma tier_detail_metrics_writes_only name agg_detail :
  writes_only (tier_detail_metrics rt name agg_detail).
Proof. unfold tier_detail_metrics. script. Qed.

Lemma node_entry_writes_only node : writes_only (node_entry rt node).
Proof. unfold node_entry. script. Qed.

Lemma collect_volume_metrics_info_stays ip u p :
  preserves info_stays (collect_volume_metrics rt ip u p).
Proof. Sweeps.unfold_collectors. frame. Qed.

End WithRuntime.
End Recorded.

(* ================================================================== *)
(** * Where the requests go *)
(* ================================================================== *)

Module Hosts.
Import Py Exporter Run Facts Gauges Collectors Kept.
#[local] Open Scope py_scope.

#[global] Instance requests_added_preorder P : PreOrder (requests_added P).
Proof.
  split.
  - intros w. by exists [].
  - intros w1 w2 w3 (n1 & H1 & HP1) (n2 & H2 & HP2). exists (n2 ++ n1)%list.
    split; [by rewrite H2, H1, app_assoc | by apply Forall_app].
Qed.

Lemma same_requests_added P w w' : same_requests w w' -> requests_added P w w'.
Proof. intros H. by exists []. Qed.

Lemma prefix_append s t : String.prefix s (s +:+ t) = true.
Proof.
  induction s as [|c s IH]; [by destruct t|].
  change (String c s +:+ t) with (String c (s +:+ t)). cbn [String.prefix].
  by destruct (ascii_dec c c).
Qed.

Lemma append_assoc s t u : (s +:+ t) +:+ u = s +:+ (t +:+ u).
Proof.
  induction s as [|c s IH]; [done|].
  change (String c ((s +:+ t) +:+ u) = String c (s +:+ (t +:+ u))). by rewrite IH.
Qed.

Lemma on_host_path ip path : on_host ip ("https://" +:+ ip +:+ path).
Proof. unfold on_host. rewrite <- append_assoc. apply prefix_append. Qed.

Section WithRuntime.
Context (rt : runtime).

Lemma fetch_json_requests_added (P : string -> Prop) url u p :
  P url -> preserves (requests_added P) (fetch_json rt url u p).
Proof.
  intros HP w. exists [url]. split; [apply fetch_json_requests | by constructor].
Qed.

End WithRuntime.

#[export] Hint Extern 2 (preserves (requests_added (on_host _)) (fetch_json _ _ _ _)) =>
  apply fetch_json_requests_added, on_host_path : frame.
#[export] Hint Extern 3 (preserves (requests_added _) _) =>
  apply (preserves_weaken same_requests); [apply same_requests_added|] : frame.

Section WithRuntime.
Context (rt : runtime).

Lemma collect_volume_metrics_on_host ip u p :
  preserves (requests_added (on_host ip)) (collect_volume_metrics rt ip u p).
Proof. Sweeps.unfold_collectors. frame. Qed.

Lemma collect_tier_metrics_on_host ip u p :
  preserves (requests_added (on_host ip)) (collect_tier_metrics rt ip u p).
Proof. Sweeps.unfold_collectors. frame. Qed.

Lemma collect_node_metrics_on_host ip u p :
  preserves (requests_added (on_host ip)) (collect_node_metrics rt ip u p).
Proof. Sweeps.unfold_collectors. frame. Qed.

End WithRuntime.
End Hosts.

Import Kept Sweeps Failures Recorded Zones Hosts.

(* ================================================================== *)
(** * What a sweep leaves alone *)
(* ================================================================== *)

(** X1: whatever the upstream answers and however the run ends, a collector
    only changes samples of its own gauges: the volume collector those of
    the six volume gauges, the aggregate collector those of the six tier
    gauges, the node collector those of the four node gauges.  The three
    families are disjoint and make up the sixteen gauges of the module. *)
Theorem collectors_write_own_gauges (rt : runtime) (ontap_ip username password : string)
    (w : world) (g : gauge) (lvs : list string) :
  (g ∉ volume_gauges ->
   gauges (exec (collect_volume_metrics rt ontap_ip username password) w) !! (g, lvs)
   = gauges w !! (g, lvs)) /\
  (g ∉ tier_gauges ->
   gauges (exec (collect_tier_metrics rt ontap_ip username password) w) !! (g, lvs)
   = gauges w !! (g, lvs)) /\
  (g ∉ node_gauges ->
   gauges (exec (collect_node_metrics rt ontap_ip username password) w) !! (g, lvs)
   = gauges w !! (g, lvs)) /\
  (volume_gauges ++ tier_gauges ++ node_gauges)%list = all_gauges /\
  NoDup all_gauges.
Proof.
  split; [|split; [|split; [|split]]].
  - apply collect_volume_metrics_footprint.
  - apply collect_tier_metrics_footprint.
  - apply collect_node_metrics_footprint.
  - reflexivity.
  - apply (bool_decide_unpack _). by vm_compute.
Qed.

Lemma collectors_write_own_gauges_witness :
  (node_state ∉ volume_gauges) /\
  gauges (exec (collect_volume_metrics Fixture.upstream "10.0.0.1" "admin" "secret")
            Cases.swept) !! (node_state, ["node9"]) = Some 1%float.
Proof.
  split; [not_among|].
  etrans; [apply (proj1 (collectors_write_own_gauges Fixture.upstream "10.0.0.1"
                           "admin" "secret" Cases.swept node_state ["node9"]));
           not_among
          | reflexivity].
Defined.

(** X2: a collector never removes a sample: every series present before a
    run is still present after it, whatever the upstream answers and
    however the run ends.  A resource that has disappeared upstream keeps
    its series. *)
Theorem sweep_keeps_samples (rt : runtime) (ontap_ip username password : string)
    (w : world) (key : gauge * list string) :
  is_Some (gauges w !! key) ->
  is_Some (gauges (exec (collect_volume_metrics rt ontap_ip username password) w) !! key) /\
  is_Some (gauges (exec (collect_tier_metrics rt ontap_ip username password) w) !! key) /\
  is_Some (gauges (exec (collect_node_metrics rt ontap_ip username password) w) !! key).
Proof.
  intros Hkey. split; [|split].
  - by apply collect_volume_metrics_keeps_samples.
  - by apply collect_tier_metrics_keeps_samples.
  - by apply collect_node_metrics_keeps_samples.
Qed.

Lemma sweep_keeps_samples_witness :
  is_Some (gauges Cases.swept !! (volume_used, ["old"])) /\
  is_Some (gauges (exec (collect_volume_metrics Fixture.upstream "10.0.0.1" "admin" "secret")
                     Cases.swept) !! (volume_used, ["old"])).
Proof.
  assert (is_Some (gauges Cases.swept !! (volume_used, ["old"]))) as H
    by (by exists 7%float).
  split; [exact H|].
  exact (proj1 (sweep_keeps_samples Fixture.upstream "10.0.0.1" "admin" "secret"
                  Cases.swept (volume_used, ["old"]) H)).
Defined.

(** X3: the failure count of an endpoint never goes down during a run of a
    collector, whatever the upstream answers and however the run ends. *)
Theorem failure_counts_never_decrease (rt : runtime) (ontap_ip username password : string)
    (w : world) (url : string) :
  let before := counter_value (failed_requests w) url in
  let after collector :=
    counter_value (failed_requests (exec (collector rt ontap_ip username password) w)) url in
  (before <= after collect_volume_metrics)%nat /\
  (before <= after collect_tier_metrics)%nat /\
  (before <= after collect_node_metrics)%nat.
Proof.
  cbv zeta. split; [|split].
  - apply collect_volume_metrics_counts_grow.
  - apply collect_tier_metrics_counts_grow.
  - apply collect_node_metrics_counts_grow.
Qed.

(** X4: a loop over list entries leaves alone every sample whose first
    label value is not the name of one of the entries: the series of a
    resource that is no longer listed keep the values of the sweep that
    last saw it. *)
Theorem unlisted_resource_untouched (rt : runtime) (ontap_ip username password : string)
    (entries : list value) (w : world) (key : gauge * list string) (name : string) :
  resource key = Some name ->
  name ∉ entry_names rt entries ->
  gauges (exec (for_each entries (volume_entry rt ontap_ip username password)) w) !! key
  = gauges w !! key /\
  gauges (exec (for_each entries (tier_entry rt ontap_ip username password)) w) !! key
  = gauges w !! key /\
  gauges (exec (for_each entries (node_entry rt)) w) !! key = gauges w !! key.
Proof.
  intros Hres Hname.
  assert (~ among_resources (entry_names rt entries) key) as HnK.
  { intros (name' & Hin & Hres'). congruence. }
  split; [|split].
  - apply (preserves_for_each_in (samples_outside (among_resources (entry_names rt entries))));
      [intros entry Hin; by apply volume_entry_among | done].
  - apply (preserves_for_each_in (samples_outside (among_resources (entry_names rt entries))));
      [intros entry Hin; by apply tier_entry_among | done].
  - apply (preserves_for_each_in (samples_outside (among_resources (entry_names rt entries))));
      [intros entry Hin; by apply node_entry_among | done].
Qed.

Lemma unlisted_resource_untouched_witness :
  entry_names Fixture.upstream Fixture.volume_records = ["vol1"; "vol2"; "vol3"] /\
  gauges (exec (for_each Fixture.volume_records
                  (volume_entry Fixture.upstream "10.0.0.1" "admin" "secret"))
            Cases.swept) !! (volume_used, ["old"]) = Some 7%float.
Proof.
  split; [reflexivity|].
  etrans; [apply (proj1 (unlisted_resource_untouched Fixture.upstream "10.0.0.1"
                           "admin" "secret" Fixture.volume_records Cases.swept
                           (volume_used, ["old"]) "old" eq_refl
                           ltac:(vm_compute; not_among)))
          | reflexivity].
Defined.

(* ================================================================== *)
(** * Failed fetches *)
(* ================================================================== *)

(** X5: when the fetch of its list fails, a collector returns without
    raising, having made that one request, counted one failure for the
    list URL and written two ERROR records after its start record: the one
    of the fetcher and its own.  No gauge sample is touched. *)
Theorem list_fetch_failure_ends_collector (rt : runtime)
    (ontap_ip username password : string) (w : world) :
  let answer path :=
    http_get rt (length (requests w)) ("https://" +:+ ontap_ip +:+ path)
      username password in
  let after start failed path :=
    let url := "https://" +:+ ontap_ip +:+ path in
    (Ret tt,
     record_log ERROR failed
       (fetch_failed url (failure_message url (answer path)) (record_log INFO start w))) in
  (fetch_fails (answer "/api/storage/volumes") = true ->
   collect_volume_metrics rt ontap_ip username password w
   = after VolumesStart VolumesListFailed "/api/storage/volumes") /\
  (fetch_fails (answer "/api/storage/aggregates") = true ->
   collect_tier_metrics rt ontap_ip username password w
   = after TiersStart TiersListFailed "/api/storage/aggregates") /\
  (fetch_fails (answer "/api/cluster/nodes") = true ->
   collect_node_metrics rt ontap_ip username password w
   = after NodesStart NodesListFailed "/api/cluster/nodes").
Proof.
  cbv zeta. split; [|split]; intros Hfails.
  - unfold collect_volume_metrics. unfold bind at 1. simpl.
    erewrite bind_run_Ret; [|apply fetch_json_fails_run; exact Hfails]; reflexivity.
  - unfold collect_tier_metrics. unfold bind at 1. simpl.
    erewrite bind_run_Ret; [|apply fetch_json_fails_run; exact Hfails]; reflexivity.
  - unfold collect_node_metrics. unfold bind at 1. simpl.
    erewrite bind_run_Ret; [|apply fetch_json_fails_run; exact Hfails]; reflexivity.
Qed.

Lemma list_fetch_failure_ends_collector_witness :
  let url := "https://10.0.0.3/api/storage/volumes" in
  let r := collect_volume_metrics Fixture.upstream "10.0.0.3" "admin" "secret" Cases.swept in
  fetch_fails (http_get Fixture.upstream 1 url "admin" "secret") = true /\
  r.1 = Ret tt /\
  gauges r.2 = gauges Cases.swept /\
  counter_value (failed_requests r.2) url = 1%nat /\
  requests r.2 = url :: requests Cases.swept /\
  log r.2 = [(ERROR, VolumesListFailed); (ERROR, FetchException url ConnectionError);
             (INFO, VolumesStart)].
Proof.
  cbv zeta. split; [reflexivity|].
  rewrite (proj1 (list_fetch_failure_ends_collector Fixture.upstream "10.0.0.3"
                    "admin" "secret" Cases.swept) eq_refl).
  repeat split.
Defined.

(** X6: in the volume loop and in the aggregate loop, an entry whose detail
    fetch fails is given up: the body returns without raising, having made
    the one request, counted one failure for the detail URL and written the
    ERROR record of the fetcher and its own.  No gauge sample is touched,
    and the loop goes on with the next entry. *)
Theorem detail_fetch_failure_skips_entry (rt : runtime)
    (ontap_ip username password : string) (entry name self_href : value) (w : world) :
  get entry "name" (VStr "Inconnu") = Ret name ->
  self_link entry = Ret self_href ->
  truthy self_href = true ->
  let url := "https://" +:+ ontap_ip +:+ str rt self_href in
  let answer := http_get rt (length (requests w)) url username password in
  fetch_fails answer = true ->
  volume_entry rt ontap_ip username password entry w =
  (Ret tt,
   record_log ERROR (VolumeDetailFailed name)
     (fetch_failed url (failure_message url answer) w)) /\
  tier_entry rt ontap_ip username password entry w =
  (Ret tt,
   record_log ERROR (TierDetailFailed name)
     (fetch_failed url (failure_message url answer) w)).
Proof.
  intros Hname Hlink Htrue url answer Hfails. split.
  - unfold volume_entry.
    rewrite Hname, bind_lift_Ret, Hlink, bind_lift_Ret, Htrue. cbn [negb].
    erewrite bind_run_Ret; [|apply fetch_json_fails_run; exact Hfails]; reflexivity.
  - unfold tier_entry.
    rewrite Hname, bind_lift_Ret, Hlink, bind_lift_Ret, Htrue. cbn [negb].
    erewrite bind_run_Ret; [|apply fetch_json_fails_run; exact Hfails]; reflexivity.
Qed.

Lemma detail_fetch_failure_skips_entry_witness :
  let entry := Fixture.dict [("name", VStr "gone");
                             ("_links", Fixture.links "/api/storage/volumes/0")] in
  let url := "https://10.0.1.5/api/storage/volumes/0" in
  let r := volume_entry Cases.odd "10.0.1.5" "admin" "secret" entry Cases.swept in
  fetch_fails (http_get Cases.odd 1 url "admin" "secret") = true /\
  r.1 = Ret tt /\
  gauges r.2 = gauges Cases.swept /\
  counter_value (failed_requests r.2) url = 1%nat /\
  log r.2 = [(ERROR, VolumeDetailFailed (VStr "gone")); (ERROR, FetchStatus 404 url)].
Proof.
  cbv zeta. split; [reflexivity|].
  rewrite (proj1 (detail_fetch_failure_skips_entry Cases.odd "10.0.1.5" "admin" "secret"
                    (Fixture.dict [("name", VStr "gone");
                                   ("_links", Fixture.links "/api/storage/volumes/0")])
                    (VStr "gone") (VStr "/api/storage/volumes/0") Cases.swept
                    eq_refl eq_refl eq_refl eq_refl)).
  repeat split.
Defined.

(** X7: a list endpoint that answers 200 with the JSON value [null] is
    reported by the collector as a failed retrieval (its ERROR record), yet
    no failure is counted and the fetcher writes no record: the fetch
    itself succeeded.  The collector returns without touching a gauge. *)
Theorem null_list_reported_not_counted (rt : runtime)
    (ontap_ip username password : string) (w : world) :
  let answers path :=
    http_get rt (length (requests w)) ("https://" +:+ ontap_ip +:+ path)
      username password = Responded (mk_response 200 (Some VNone)) in
  (answers "/api/storage/volumes" ->
   collect_volume_metrics rt ontap_ip username password w =
   (Ret tt,
    record_log ERROR VolumesListFailed
      (listed VolumesStart ("https://" +:+ ontap_ip +:+ "/api/storage/volumes") w))) /\
  (answers "/api/storage/aggregates" ->
   collect_tier_metrics rt ontap_ip username password w =
   (Ret tt,
    record_log ERROR TiersListFailed
      (listed TiersStart ("https://" +:+ ontap_ip +:+ "/api/storage/aggregates") w))) /\
  (answers "/api/cluster/nodes" ->
   collect_node_metrics rt ontap_ip username password w =
   (Ret tt,
    record_log ERROR NodesListFailed
      (listed NodesStart ("https://" +:+ ontap_ip +:+ "/api/cluster/nodes") w))).
Proof.
  cbv zeta. split; [|split]; intros Hget.
  - unfold collect_volume_metrics. unfold bind at 1. simpl.
    erewrite bind_run_Ret; [|apply fetch_json_success; exact Hget]; reflexivity.
  - unfold collect_tier_metrics. unfold bind at 1. simpl.
    erewrite bind_run_Ret; [|apply fetch_json_success; exact Hget]; reflexivity.
  - unfold collect_node_metrics. unfold bind at 1. simpl.
    erewrite bind_run_Ret; [|apply fetch_json_success; exact Hget]; reflexivity.
Qed.

Lemma null_list_reported_not_counted_witness :
  let url := "https://10.0.1.1/api/storage/volumes" in
  let r := collect_volume_metrics Cases.odd "10.0.1.1" "admin" "secret" Fixture.fresh in
  http_get Cases.odd 0 url "admin" "secret" = Responded (mk_response 200 (Some VNone)) /\
  r.1 = Ret tt /\
  failed_requests r.2 = ∅ /\
  log r.2 = [(ERROR, VolumesListFailed); (INFO, VolumesStart)].
Proof.
  cbv zeta. split; [reflexivity|].
  rewrite (proj1 (null_list_reported_not_counted Cases.odd "10.0.1.1" "admin" "secret"
                    Fixture.fresh) eq_refl).
  repeat split.
Defined.

(* ================================================================== *)
(** * Answers of an unexpected shape *)
(* ================================================================== *)

(** X8: a list entry that is not a JSON object (a string, a number, [null],
    a nested array) makes the loop raise [AttributeError] at that entry:
    the entries before it are processed as usual and the entries after it
    are never looked at.  Nothing catches the exception in the collector. *)
Theorem non_object_entry_ends_sweep (rt : runtime) (ontap_ip username password : string)
    (entry : value) (pre post : list value) (w : world) :
  (forall d, entry <> VDict d) ->
  (let body := volume_entry rt ontap_ip username password in
   for_each (pre ++ entry :: post) body w
   = (for_each pre body ;; raise AttributeError) w) /\
  (let body := tier_entry rt ontap_ip username password in
   for_each (pre ++ entry :: post) body w
   = (for_each pre body ;; raise AttributeError) w) /\
  (let body := node_entry rt in
   for_each (pre ++ entry :: post) body w
   = (for_each pre body ;; raise AttributeError) w).
Proof.
  intros Hentry. cbv zeta.
  pose proof (get_not_object entry "name" (VStr "Inconnu") Hentry) as Hget.
  split; [|split]; apply for_each_raise; intros w'.
  - unfold volume_entry. by rewrite Hget.
  - unfold tier_entry. by rewrite Hget.
  - unfold node_entry. by rewrite Hget.
Qed.

Lemma non_object_entry_ends_sweep_witness :
  let entries := (take 1 Fixture.volume_records ++ VStr "vol2" :: drop 2 Fixture.volume_records)%list in
  let r := for_each entries (volume_entry Fixture.upstream "10.0.0.1" "admin" "secret")
             Fixture.fresh in
  r.1 = Raise AttributeError /\
  requests r.2 = ["https://10.0.0.1/api/storage/volumes/1"] /\
  gauges r.2 !! (volume_create_time, ["vol3"]) = None.
Proof.
  cbv zeta.
  rewrite (proj1 (non_object_entry_ends_sweep Fixture.upstream "10.0.0.1" "admin" "secret"
                    (VStr "vol2") (take 1 Fixture.volume_records)
                    (drop 2 Fixture.volume_records) Fixture.fresh
                    ltac:(intros d; discriminate))).
  vm_compute. repeat split.
Defined.

(** X9: a list endpoint that answers 200 with a JSON object without a
    ["records"] key has the object itself iterated, that is, its keys.  An
    object with a key at all (an error object, say) makes the collector
    raise [AttributeError] on the first key, a string; the empty object
    makes it return without a record of anything amiss.  Either way nothing
    is recorded beyond the start record and the request. *)
Theorem object_without_records (rt : runtime) (ontap_ip username password : string)
    (w : world) (d : gmap string value) :
  d !! "records" = None ->
  let answers path :=
    http_get rt (length (requests w)) ("https://" +:+ ontap_ip +:+ path)
      username password = Responded (mk_response 200 (Some (VDict d))) in
  let result : outcome unit :=
    if bool_decide (d = ∅) then Ret tt else Raise AttributeError in
  (answers "/api/storage/volumes" ->
   collect_volume_metrics rt ontap_ip username password w =
   (result, listed VolumesStart ("https://" +:+ ontap_ip +:+ "/api/storage/volumes") w)) /\
  (answers "/api/storage/aggregates" ->
   collect_tier_metrics rt ontap_ip username password w =
   (result, listed TiersStart ("https://" +:+ ontap_ip +:+ "/api/storage/aggregates") w)) /\
  (answers "/api/cluster/nodes" ->
   collect_node_metrics rt ontap_ip username password w =
   (result, listed NodesStart ("https://" +:+ ontap_ip +:+ "/api/cluster/nodes") w)).
Proof.
  intros Hrecords answers result.
  assert (get (VDict d) "records" (VDict d) = Ret (VDict d)) as Hget
    by (unfold get; by rewrite Hrecords).
  assert (forall body w',
             (forall k w'', body (VStr k) w'' = (Raise AttributeError, w'')) ->
             (items <- lift (iter (VDict d)) ;; for_each items body) w' = (result, w'))
    as Hloop.
  { intros body w' Hbody. unfold result. case_bool_decide as Hd.
    - subst d. reflexivity.
    - destruct (iter_object_nonempty d Hd) as (k & rest & ->).
      rewrite bind_lift_Ret. simpl. unfold bind. by rewrite Hbody. }
  split; [|split]; intros Hanswer.
  - rewrite (collect_volume_metrics_listed rt _ _ _ _ _ Hanswer eq_refl).
    rewrite Hget, bind_lift_Ret. by apply Hloop.
  - rewrite (collect_tier_metrics_listed rt _ _ _ _ _ Hanswer eq_refl).
    rewrite Hget, bind_lift_Ret. by apply Hloop.
  - rewrite (collect_node_metrics_listed rt _ _ _ _ _ Hanswer eq_refl).
    rewrite Hget, bind_lift_Ret. by apply Hloop.
Qed.

Lemma object_without_records_witness :
  Cases.error_fields !! "records" = None /\
  http_get Cases.odd 0 "https://10.0.1.2/api/storage/volumes" "admin" "secret"
  = Responded (mk_response 200 (Some (VDict Cases.error_fields))) /\
  collect_volume_metrics Cases.odd "10.0.1.2" "admin" "secret" Fixture.fresh =
  (Raise AttributeError,
   listed VolumesStart "https://10.0.1.2/api/storage/volumes" Fixture.fresh).
Proof.
  cbv zeta. split; [vm_compute; reflexivity|]. split; [reflexivity|].
  exact (proj1 (object_without_records Cases.odd "10.0.1.2" "admin" "secret"
                  Fixture.fresh Cases.error_fields
                  ltac:(vm_compute; reflexivity)) eq_refl).
Defined.

(** The empty object: the collector returns as after a sweep of no
    entries. *)
Example empty_object_on_fixture :
  collect_volume_metrics Cases.odd "10.0.1.3" "admin" "secret" Fixture.fresh =
  (Ret tt, listed VolumesStart "https://10.0.1.3/api/storage/volumes" Fixture.fresh).
Proof. vm_compute. reflexivity. Qed.

(** X10: a list endpoint that answers 200 with an object whose ["records"]
    is [null], a boolean or a number makes the collector raise [TypeError]
    when it starts its loop: the default of [data.get("records", data)]
    only applies to an absent key.  Nothing is recorded beyond the start
    record and the request. *)
Theorem records_not_iterable (rt : runtime) (ontap_ip username password : string)
    (w : world) (d : gmap string value) (records : value) :
  d !! "records" = Some records ->
  iter records = Raise TypeError ->
  let answers path :=
    http_get rt (length (requests w)) ("https://" +:+ ontap_ip +:+ path)
      username password = Responded (mk_response 200 (Some (VDict d))) in
  (answers "/api/storage/volumes" ->
   collect_volume_metrics rt ontap_ip username password w =
   (Raise TypeError,
    listed VolumesStart ("https://" +:+ ontap_ip +:+ "/api/storage/volumes") w)) /\
  (answers "/api/storage/aggregates" ->
   collect_tier_metrics rt ontap_ip username password w =
   (Raise TypeError,
    listed TiersStart ("https://" +:+ ontap_ip +:+ "/api/storage/aggregates") w)) /\
  (answers "/api/cluster/nodes" ->
   collect_node_metrics rt ontap_ip username password w =
   (Raise TypeError,
    listed NodesStart ("https://" +:+ ontap_ip +:+ "/api/cluster/nodes") w)).
Proof.
  intros Hrecords Hiter answers.
  assert (get (VDict d) "records" (VDict d) = Ret records) as Hget
    by (unfold get; by rewrite Hrecords).
  split; [|split]; intros Hanswer.
  - rewrite (collect_volume_metrics_listed rt _ _ _ _ _ Hanswer eq_refl).
    by rewrite Hget, bind_lift_Ret, Hiter.
  - rewrite (collect_tier_metrics_listed rt _ _ _ _ _ Hanswer eq_refl).
    by rewrite Hget, bind_lift_Ret, Hiter.
  - rewrite (collect_node_metrics_listed rt _ _ _ _ _ Hanswer eq_refl).
    by rewrite Hget, bind_lift_Ret, Hiter.
Qed.

Lemma records_not_iterable_witness :
  iter VNone = Raise TypeError /\
  collect_volume_metrics Cases.odd "10.0.1.4" "admin" "secret" Fixture.fresh =
  (Raise TypeError,
   listed VolumesStart "https://10.0.1.4/api/storage/volumes" Fixture.fresh).
Proof.
  split; [reflexivity|].
  exact (proj1 (records_not_iterable Cases.odd "10.0.1.4" "admin" "secret"
                  Fixture.fresh Cases.null_records_fields VNone
                  ltac:(vm_compute; reflexivity) eq_refl) eq_refl).
Defined.

(** X11: no request is repeated: on an envelope of [n] records the volume
    collector and the aggregate collector make at most [1 + n] requests,
    the list and at most one detail per record, however the fetches turn
    out. *)
Theorem requests_bounded_by_records (rt : runtime) (ontap_ip username password : string)
    (w : world) (d : gmap string value) (records : list value) :
  d !! "records" = Some (VList records) ->
  let answers path :=
    http_get rt (length (requests w)) ("https://" +:+ ontap_ip +:+ path)
      username password = Responded (mk_response 200 (Some (VDict d))) in
  let made collector :=
    length (requests (exec (collector rt ontap_ip username password) w)) in
  (answers "/api/storage/volumes" ->
   (made collect_volume_metrics <= 1 + length records + length (requests w))%nat) /\
  (answers "/api/storage/aggregates" ->
   (made collect_tier_metrics <= 1 + length records + length (requests w))%nat).
Proof.
  intros Hrecords answers made.
  assert (get (VDict d) "records" (VDict d) = Ret (VList records)) as Hget
    by (unfold get; by rewrite Hrecords).
  split; intros Hanswer; unfold made, exec.
  - rewrite (collect_volume_metrics_listed rt _ _ _ _ _ Hanswer eq_refl).
    rewrite Hget, bind_lift_Ret. cbn [iter]. rewrite bind_lift_Ret.
    pose proof (for_each_requests_bound _ records
                  (listed VolumesStart ("https://" +:+ ontap_ip +:+ "/api/storage/volumes") w)
                  (volume_entry_one_request rt ontap_ip username password)) as Hbound.
    simpl in Hbound. unfold exec in Hbound. lia.
  - rewrite (collect_tier_metrics_listed rt _ _ _ _ _ Hanswer eq_refl).
    rewrite Hget, bind_lift_Ret. cbn [iter]. rewrite bind_lift_Ret.
    pose proof (for_each_requests_bound _ records
                  (listed TiersStart ("https://" +:+ ontap_ip +:+ "/api/storage/aggregates") w)
                  (tier_entry_one_request rt ontap_ip username password)) as Hbound.
    simpl in Hbound. unfold exec in Hbound. lia.
Qed.

Lemma requests_bounded_by_records_witness :
  http_get Fixture.upstream 0 "https://10.0.0.1/api/storage/volumes" "admin" "secret"
  = Responded (mk_response 200 (Some (VDict Cases.volume_envelope_fields))) /\
  (length (requests (exec (collect_volume_metrics Fixture.upstream "10.0.0.1" "admin" "secret")
                       Fixture.fresh)) <= 4)%nat.
Proof.
  split; [reflexivity|].
  exact (proj1 (requests_bounded_by_records Fixture.upstream "10.0.0.1" "admin" "secret"
                  Fixture.fresh Cases.volume_envelope_fields
                  Fixture.volume_records ltac:(vm_compute; reflexivity)) eq_refl).
Defined.

(* ================================================================== *)
(** * What is recorded for a node and for a volume *)
(* ================================================================== *)

(** X12: from a node list entry the collector records [uptime], the [count]
    of [controller.cpu] and the [memory_size] of [controller], each with
    default 0, under the label of the node's name; the body returns, makes
    no request and counts no failure.  The fields read have the expected
    shape: [state] is a string, [controller] and its [cpu] are objects when
    present, and the three values are numbers that [Gauge.set] accepts. *)
Theorem node_metrics_recorded (rt : runtime)
    (node node_name uptime controller cpu cpu_count memory_size : value)
    (state : string) (fu fc fm : PrimFloat.float) (w : world) :
  get node "name" (VStr "Inconnu") = Ret node_name ->
  get node "uptime" (VInt 0) = Ret uptime ->
  get node "state" (VStr "") = Ret (VStr state) ->
  get node "controller" (VDict ∅) = Ret controller ->
  get controller "cpu" (VDict ∅) = Ret cpu ->
  get cpu "count" (VInt 0) = Ret cpu_count ->
  get controller "memory_size" (VInt 0) = Ret memory_size ->
  float rt uptime = Ret fu -> float rt cpu_count = Ret fc ->
  float rt memory_size = Ret fm ->
  let r := node_entry rt node w in
  let labels := [str rt node_name] in
  r.1 = Ret tt /\
  gauges r.2 !! (node_uptime, labels) = Some fu /\
  gauges r.2 !! (node_cpu_count, labels) = Some fc /\
  gauges r.2 !! (node_memory_size, labels) = Some fm /\
  requests r.2 = requests w /\
  failed_requests r.2 = failed_requests w /\
  log r.2 = (INFO, NodeSummary node_name uptime (lower_string state) cpu_count memory_size)
            :: log w.
Proof.
  intros Hname Hup Hstate Hctl Hcpu Hcount Hmem Hfu Hfc Hfm. cbv zeta.
  erewrite node_entry_run by eassumption.
  split; [reflexivity|].
  do 3 (split; [lookup_sample|]).
  repeat split.
Qed.

Lemma node_metrics_recorded_witness :
  let r := node_entry Fixture.upstream (hd VNone Fixture.node_records) Fixture.fresh in
  r.1 = Ret tt /\
  gauges r.2 !! (node_uptime, ["node1"]) = Some 1234%float /\
  gauges r.2 !! (node_cpu_count, ["node1"]) = Some 8%float /\
  gauges r.2 !! (node_memory_size, ["node1"]) = Some 17179869184%float.
Proof.
  pose proof (node_metrics_recorded Fixture.upstream (hd VNone Fixture.node_records)
    (VStr "node1") (VInt 1234)
    (Fixture.dict [("cpu", Fixture.dict [("count", VInt 8)]);
                   ("memory_size", VInt 17179869184)])
    (Fixture.dict [("count", VInt 8)]) (VInt 8) (VInt 17179869184) "UP"
    1234%float 8%float 17179869184%float Fixture.fresh
    eq_refl eq_refl eq_refl eq_refl eq_refl eq_refl eq_refl eq_refl eq_refl eq_refl) as H.
  cbv zeta in *. tauto.
Defined.

(** X13: from a volume detail object whose [space] object is not empty, the
    collector records [used], [size] and [available], each with default 0,
    in [volume_used], [volume_size] and [volume_available] under the label
    of the volume's name; what the two later blocks of the body do, or
    fail to do, leaves these samples as recorded.  The three values are
    numbers that [Gauge.set] accepts. *)
Theorem volume_space_recorded (rt : runtime) (vol_name vol_detail space : value)
    (used size available pct : value) (fu fs fa fp : PrimFloat.float) (w : world) :
  get vol_detail "space" (VDict ∅) = Ret space ->
  truthy space = true ->
  get space "used" (VInt 0) = Ret used ->
  get space "size" (VInt 0) = Ret size ->
  get space "available" (VInt 0) = Ret available ->
  percent_used used size = Ret pct ->
  float rt used = Ret fu -> float rt size = Ret fs ->
  float rt available = Ret fa -> float rt pct = Ret fp ->
  let w' := exec (volume_detail_metrics rt vol_name vol_detail) w in
  let labels := [str rt vol_name] in
  gauges w' !! (volume_used, labels) = Some fu /\
  gauges w' !! (volume_size, labels) = Some fs /\
  gauges w' !! (volume_available, labels) = Some fa.
Proof.
  intros Hspace Htrue Hused Hsize Havail Hpct Hfu Hfs Hfa Hfp. cbv zeta.
  unfold volume_detail_metrics. rewrite exec_bind.
  erewrite volume_space_metrics_run by eassumption.
  split; [|split];
    (rewrite (volume_later_blocks_footprint rt vol_name vol_detail _ _ [str rt vol_name])
       by not_among);
    lookup_sample.
Qed.

Lemma volume_space_recorded_witness :
  let w' := exec (volume_detail_metrics Fixture.upstream (VStr "vol1") Fixture.vol1_detail)
              Fixture.fresh in
  gauges w' !! (volume_used, ["vol1"]) = Some 50%float /\
  gauges w' !! (volume_size, ["vol1"]) = Some 200%float /\
  gauges w' !! (volume_available, ["vol1"]) = Some 150%float.
Proof.
  exact (volume_space_recorded Fixture.upstream (VStr "vol1") Fixture.vol1_detail
           (Fixture.dict [("used", VInt 50); ("size", VInt 200); ("available", VInt 150)])
           (VInt 50) (VInt 200) (VInt 150) (VFloat 25%float)
           50%float 200%float 150%float 25%float Fixture.fresh
           eq_refl eq_refl eq_refl eq_refl eq_refl eq_refl eq_refl eq_refl eq_refl eq_refl).
Defined.

(** X14: a [size] that is present and is not a number ([null], a string, a
    list or an object) makes the percentage raise [TypeError] at
    [size > 0], before anything is written: the recording of the volume or
    of the aggregate raises and leaves the state as it was.  Nothing in the
    collector catches the exception. *)
Theorem non_numeric_size_raises (rt : runtime) (name size : value)
    (d fields : gmap string value) (w : world) :
  fields !! "size" = Some size ->
  as_number size = None ->
  (forall used, percent_used used size = Raise TypeError) /\
  (d !! "space" = Some (VDict fields) ->
   volume_detail_metrics rt name (VDict d) w = (Raise TypeError, w)) /\
  (forall space,
      d !! "space" = Some (VDict space) ->
      space !! "block_storage" = Some (VDict fields) ->
      tier_detail_metrics rt name (VDict d) w = (Raise TypeError, w)).
Proof.
  intros Hsize Hnum.
  assert (forall used, percent_used used size = Raise TypeError) as Hpct.
  { intros used. unfold percent_used, gt. by rewrite Hnum. }
  assert (truthy (VDict fields) = true) as Htrue.
  { simpl. rewrite bool_decide_eq_false_2; [done|].
    intros ->. by rewrite lookup_empty in Hsize. }
  split; [exact Hpct|]. split.
  - intros Hspace.
    assert (volume_space_metrics rt name (VDict d) w = (Raise TypeError, w)) as Hrun.
    { unfold volume_space_metrics. cbn [get]. rewrite Hspace. cbn [from_option id].
      rewrite bind_lift_Ret, Htrue. cbn [get].
      rewrite !bind_lift_Ret, Hsize. cbn [from_option id]. by rewrite Hpct. }
    unfold volume_detail_metrics, bind. by rewrite Hrun.
  - intros space Hspace Hbs. unfold tier_detail_metrics. cbn [get].
    rewrite Hspace. cbn [from_option id]. rewrite bind_lift_Ret. cbn [get].
    rewrite Hbs. cbn [from_option id]. rewrite bind_lift_Ret. cbn [get].
    rewrite !bind_lift_Ret, Hsize. cbn [from_option id]. by rewrite Hpct.
Qed.

Lemma non_numeric_size_raises_witness :
  as_number VNone = None /\
  volume_detail_metrics Cases.odd (VStr "odd") (VDict Cases.odd_detail_fields) Fixture.fresh
  = (Raise TypeError, Fixture.fresh).
Proof.
  split; [reflexivity|].
  exact (proj1 (proj2 (non_numeric_size_raises Cases.odd (VStr "odd") VNone
                         Cases.odd_detail_fields Cases.odd_space_fields Fixture.fresh
                         ltac:(vm_compute; reflexivity) eq_refl))
           ltac:(vm_compute; reflexivity)).
Defined.

(** On host 10.0.1.5 the sweep gives up the volume whose detail is gone,
    raises at the volume whose size is [null], and never asks for the
    healthy volume listed after it. *)
Example sweep_stops_at_odd_size :
  let r := collect_volume_metrics Cases.odd "10.0.1.5" "admin" "secret" Fixture.fresh in
  r.1 = Raise TypeError /\
  requests r.2 = [ "https://10.0.1.5/api/storage/volumes/8";
                   "https://10.0.1.5/api/storage/volumes/0";
                   "https://10.0.1.5/api/storage/volumes" ] /\
  gauges r.2 = ∅.
Proof. vm_compute. repeat split. Qed.

(** X15: an info series of a volume that reads 1 before a run of the volume
    collector reads 1 after it, whatever the upstream answers: the
    collector sets info samples to 1 and never resets or removes one.  When
    the style, type, snapshot policy or SVM of a volume changes, the series
    of the old combination stays at 1 beside the new one. *)
Theorem volume_info_never_cleared (rt : runtime) (ontap_ip username password : string)
    (w : world) (lvs : list string) :
  gauges w !! (volume_info, lvs) = Some 1%float ->
  gauges (exec (collect_volume_metrics rt ontap_ip username password) w)
    !! (volume_info, lvs) = Some 1%float.
Proof. apply collect_volume_metrics_info_stays. Qed.

Lemma volume_info_never_cleared_witness :
  gauges (exec (collect_volume_metrics Fixture.upstream "10.0.0.1" "admin" "secret")
            Cases.swept)
    !! (volume_info, ["old"; "flexvol"; "rw"; "default"; "svm1"]) = Some 1%float.
Proof.
  exact (volume_info_never_cleared Fixture.upstream "10.0.0.1" "admin" "secret"
           Cases.swept ["old"; "flexvol"; "rw"; "default"; "svm1"] eq_refl).
Defined.

(** A volume whose snapshot policy changed between two sweeps: two info
    series at 1. *)
Example volume_info_after_change :
  let record policy :=
    volume_info_metric Fixture.upstream (VStr "vol1")
      (Fixture.dict [("style", VStr "flexvol");
                     ("snapshot_policy", Fixture.dict [("name", VStr policy)])]) in
  let w := exec (record "hourly") (exec (record "default") Fixture.fresh) in
  gauges w !! (volume_info, ["vol1"; "flexvol"; "unknown"; "default"; "unknown"])
  = Some 1%float /\
  gauges w !! (volume_info, ["vol1"; "flexvol"; "unknown"; "hourly"; "unknown"])
  = Some 1%float.
Proof. vm_compute. repeat split. Qed.

(** X16: recording is overwriting: recording the same document a second
    time changes no sample, whatever the document holds and whether the
    recording returns or raises part of the way.  This holds for the three
    recorders: of a volume detail, of an aggregate detail, of a node
    entry. *)
Theorem recording_twice_changes_nothing (rt : runtime) (name document : value)
    (w : world) :
  (let m := volume_detail_metrics rt name document in
   gauges (exec m (exec m w)) = gauges (exec m w)) /\
  (let m := tier_detail_metrics rt name document in
   gauges (exec m (exec m w)) = gauges (exec m w)) /\
  (let m := node_entry rt document in
   gauges (exec m (exec m w)) = gauges (exec m w)).
Proof.
  cbv zeta. split; [|split]; apply writes_only_idem.
  - apply volume_detail_metrics_writes_only.
  - apply tier_detail_metrics_writes_only.
  - apply node_entry_writes_only.
Qed.

(* ================================================================== *)
(** * Creation times that are not UTC texts *)
(* ================================================================== *)

(** X17: a creation time that is present, true and not a string (a number
    of seconds, say) is recorded as 0 with one ERROR record: the call of
    [replace] on it raises [AttributeError], which the [except] clause of
    the block catches like a malformed date. *)
Theorem non_string_create_time_recorded_zero (rt : runtime)
    (vol_name vol_detail create_time : value) (w : world) :
  get vol_detail "create_time" VNone = Ret create_time ->
  truthy create_time = true ->
  (forall s, create_time <> VStr s) ->
  volume_create_time_metric rt vol_name vol_detail w =
  (Ret tt,
   record_sample (volume_create_time, [str rt vol_name]) 0%float
     (record_log ERROR (VolumeDateError vol_name create_time) w)).
Proof.
  intros Hget Htrue Hstr.
  apply (volume_create_time_metric_failed rt _ _ _ AttributeError w Hget Htrue).
  unfold create_time_timestamp.
  destruct create_time; try done. by destruct (Hstr s).
Qed.

Lemma non_string_create_time_recorded_zero_witness :
  let run := volume_create_time_metric Fixture.upstream (VStr "vol1")
               (Fixture.dict [("create_time", VInt 1672531200)]) Fixture.fresh in
  truthy (VInt 1672531200) = true /\
  run.1 = Ret tt /\
  gauges run.2 !! (volume_create_time, ["vol1"]) = Some 0%float /\
  log run.2 = [(ERROR, VolumeDateError (VStr "vol1") (VInt 1672531200))].
Proof.
  cbv zeta. split; [reflexivity|].
  rewrite (non_string_create_time_recorded_zero Fixture.upstream (VStr "vol1")
             (Fixture.dict [("create_time", VInt 1672531200)]) (VInt 1672531200)
             Fixture.fresh eq_refl eq_refl ltac:(intros s; discriminate)).
  repeat split.
Defined.

(** X18: a creation time written with an offset from UTC,
    [YYYY-MM-DDThh:mm:ss+HH:MM] or [YYYY-MM-DDThh:mm:ss-HH:MM], is recorded
    in [volume_create_time] as the Unix time of the instant it denotes: the
    Unix time of its fields read as UTC, less the offset.  The offset lies
    strictly between minus and plus 24 hours. *)
Theorem create_time_offset_honoured (rt : runtime) (vol_name vol_detail : value)
    (y m d hh mm ss : Z) (neg : bool) (oh om : Z) (w : world) :
  Datetime.valid_fields y m d hh mm ss 0 = true ->
  0 <= oh < 100 -> 0 <= om < 100 ->
  Datetime.valid_offset (IsoText.offset_seconds neg oh om * 1000000) = true ->
  get vol_detail "create_time" VNone
  = Ret (VStr (IsoText.iso8601_offset y m d hh mm ss neg oh om)) ->
  let run := volume_create_time_metric rt vol_name vol_detail w in
  run.1 = Ret tt /\
  gauges run.2 !! (volume_create_time, [str rt vol_name])
  = Some (UnixTime.as_float
            (UnixTime.unix_time y m d hh mm ss - IsoText.offset_seconds neg oh om)).
Proof.
  intros Hvalid Hoh Hom Hoff Hget. cbv zeta.
  pose proof (create_time_timestamp_offset rt y m d hh mm ss neg oh om Hvalid Hoh Hom Hoff)
    as Hconv.
  assert (truthy (VStr (IsoText.iso8601_offset y m d hh mm ss neg oh om)) = true) as Htrue
    by reflexivity.
  unfold UnixTime.as_float.
  destruct (int_truediv
              ((UnixTime.unix_time y m d hh mm ss - IsoText.offset_seconds neg oh om)
               * 1000000) 1000000) as [t|e] eqn:Hdiv.
  - rewrite (volume_create_time_metric_converted rt _ _ _ t w Hget Htrue Hconv).
    split; [done|]. simpl. apply lookup_insert_eq.
  - rewrite (volume_create_time_metric_failed rt _ _ _ e w Hget Htrue Hconv).
    split; [done|]. simpl. apply lookup_insert_eq.
Qed.

Lemma create_time_offset_honoured_witness :
  IsoText.iso8601_offset 2023 1 1 1 0 0 false 1 0 = "2023-01-01T01:00:00+01:00" /\
  UnixTime.as_float (UnixTime.unix_time 2023 1 1 1 0 0 - IsoText.offset_seconds false 1 0)
  = 1672531200%float /\
  gauges (exec (volume_create_time_metric Fixture.upstream (VStr "vol1")
                  (Fixture.dict [("create_time", VStr "2023-01-01T01:00:00+01:00")]))
            Fixture.fresh)
    !! (volume_create_time, ["vol1"])
  = Some (UnixTime.as_float
            (UnixTime.unix_time 2023 1 1 1 0 0 - IsoText.offset_seconds false 1 0)).
Proof.
  split; [reflexivity|]. split; [vm_compute; reflexivity|].
  exact (proj2 (create_time_offset_honoured Fixture.upstream (VStr "vol1")
                  (Fixture.dict [("create_time", VStr "2023-01-01T01:00:00+01:00")])
                  2023 1 1 1 0 0 false 1 0 Fixture.fresh
                  eq_refl ltac:(lia) ltac:(lia) eq_refl eq_refl)).
Defined.

(** Offsets to the east and to the west of Greenwich, and one that
    [datetime] refuses. *)
Example create_time_offsets :
  create_time_timestamp Fixture.upstream (VStr "2023-01-01T01:00:00+01:00")
  = Ret 1672531200%float /\
  create_time_timestamp Fixture.upstream (VStr "2022-12-31T19:00:00-05:00")
  = Ret 1672531200%float /\
  create_time_timestamp Fixture.upstream (VStr "2023-01-01T00:00:00+24:00")
  = Raise ValueError.
Proof. vm_compute. repeat split. Qed.

(** X19: a creation time written without [Z] or an offset,
    [YYYY-MM-DDThh:mm:ss], parses to a [datetime] without a zone, and the
    value recorded in [volume_create_time] is the timestamp that the
    process gives to those fields in its own local zone: the same text is
    recorded differently by exporters running in different zones. *)
Theorem create_time_without_zone_is_local (rt : runtime) (vol_name vol_detail : value)
    (y m d hh mm ss : Z) (t : PrimFloat.float) (w : world) :
  Datetime.valid_fields y m d hh mm ss 0 = true ->
  get vol_detail "create_time" VNone
  = Ret (VStr (IsoText.iso8601_naive y m d hh mm ss)) ->
  local_timestamp rt (Datetime.mk_datetime y m d hh mm ss 0 None) = Ret t ->
  let run := volume_create_time_metric rt vol_name vol_detail w in
  run.1 = Ret tt /\
  gauges run.2 !! (volume_create_time, [str rt vol_name]) = Some t.
Proof.
  intros Hvalid Hget Hlocal. cbv zeta.
  pose proof (create_time_timestamp_naive rt y m d hh mm ss Hvalid) as Hconv.
  rewrite Hlocal in Hconv.
  assert (truthy (VStr (IsoText.iso8601_naive y m d hh mm ss)) = true) as Htrue
    by reflexivity.
  rewrite (volume_create_time_metric_converted rt _ _ _ t w Hget Htrue Hconv).
  split; [done|]. simpl. apply lookup_insert_eq.
Qed.

Lemma create_time_without_zone_is_local_witness :
  let detail := Fixture.dict [("create_time", VStr "2023-01-01T02:00:00")] in
  let recorded zone :=
    gauges (exec (volume_create_time_metric (Cases.in_zone zone) (VStr "vol1") detail)
              Fixture.fresh) !! (volume_create_time, ["vol1"]) in
  IsoText.iso8601_naive 2023 1 1 2 0 0 = "2023-01-01T02:00:00" /\
  recorded 7200 = Some 1672531200%float /\
  recorded 0 = Some 1672538400%float.
Proof.
  cbv zeta. split; [reflexivity|]. split.
  - exact (proj2 (create_time_without_zone_is_local (Cases.in_zone 7200) (VStr "vol1")
                    (Fixture.dict [("create_time", VStr "2023-01-01T02:00:00")])
                    2023 1 1 2 0 0 1672531200%float Fixture.fresh
                    eq_refl eq_refl ltac:(vm_compute; reflexivity))).
  - exact (proj2 (create_time_without_zone_is_local (Cases.in_zone 0) (VStr "vol1")
                    (Fixture.dict [("create_time", VStr "2023-01-01T02:00:00")])
                    2023 1 1 2 0 0 1672538400%float Fixture.fresh
                    eq_refl eq_refl ltac:(vm_compute; reflexivity))).
Defined.

(* ================================================================== *)
(** * The connection parameters of a scrape *)
(* ================================================================== *)

(** X20: each connection parameter of a scrape is the query parameter when
    that is given and not empty; otherwise the environment variable of the
    same name when it is set, even to the empty string; otherwise the
    default written in the code.  An empty query parameter thus cannot
    blank out a value, while an empty environment variable can. *)
Theorem connection_parameter_resolution (args environ : gmap string string)
    (name default : string) :
  let resolved := Handler.parameter args environ name default in
  (forall v, args !! name = Some v -> v <> "" -> resolved = v) /\
  (forall v, (args !! name = None \/ args !! name = Some "") ->
             environ !! name = Some v -> resolved = v) /\
  ((args !! name = None \/ args !! name = Some "") ->
   environ !! name = None -> resolved = default) /\
  (resolved = "" -> environ !! name = Some "" \/ default = "").
Proof.
  cbv zeta. unfold Handler.parameter, Handler.args_get, Handler.getenv, Handler.or_else.
  split; [|split; [|split]].
  - intros v -> Hv. by destruct (String.eqb_spec v "").
  - intros v [-> | ->] ->; done.
  - intros [-> | ->] ->; done.
  - destruct (args !! name) as [v|].
    + destruct (String.eqb_spec v "") as [->|Hv]; [|done].
      destruct (environ !! name) as [e|]; simpl; intros ->; auto.
    + destruct (environ !! name) as [e|]; simpl; intros ->; auto.
Qed.

Lemma connection_parameter_resolution_witness :
  let resolved := Handler.parameter Cases.scrape_args Cases.process_environ in
  Cases.scrape_args !! "ONTAP_IP" = Some "10.0.0.1" /\
  Cases.scrape_args !! "ONTAP_USER" = Some "" /\
  Cases.scrape_args !! "ONTAP_PASS" = None /\
  resolved "ONTAP_IP" "default_ip" = "10.0.0.1" /\
  resolved "ONTAP_USER" "admin" = "monitor" /\
  resolved "ONTAP_PASS" "password" = "password".
Proof.
  cbv zeta.
  split; [vm_compute; reflexivity|]. split; [vm_compute; reflexivity|].
  split; [vm_compute; reflexivity|]. split; [|split].
  - exact (proj1 (connection_parameter_resolution Cases.scrape_args Cases.process_environ
                    "ONTAP_IP" "default_ip") "10.0.0.1"
             ltac:(vm_compute; reflexivity) ltac:(discriminate)).
  - exact (proj1 (proj2 (connection_parameter_resolution Cases.scrape_args
                           Cases.process_environ "ONTAP_USER" "admin")) "monitor"
             ltac:(right; vm_compute; reflexivity) ltac:(vm_compute; reflexivity)).
  - exact (proj1 (proj2 (proj2 (connection_parameter_resolution Cases.scrape_args
                                  Cases.process_environ "ONTAP_PASS" "password")))
             ltac:(left; vm_compute; reflexivity) ltac:(vm_compute; reflexivity)).
Defined.

(* ================================================================== *)
(** * The fetcher and the requests, in general *)
(* ================================================================== *)

(** X21: whatever the upstream does, [fetch_json] returns and never raises;
    it makes exactly one request, to the URL it is given; it touches no
    gauge sample and no failure count of another URL; and it adds 1 to the
    failure count of its URL exactly when the fetch fails, 0 otherwise.  A
    200 answer with a JSON body is returned as it is, without a log
    record. *)
Theorem fetch_json_contract (rt : runtime) (url username password : string) (w : world) :
  let answer := http_get rt (length (requests w)) url username password in
  let r := fetch_json rt url username password w in
  (exists v, r.1 = Ret v) /\
  requests r.2 = url :: requests w /\
  gauges r.2 = gauges w /\
  (forall url', url' <> url -> failed_requests r.2 !! url' = failed_requests w !! url') /\
  counter_value (failed_requests r.2) url
  = (counter_value (failed_requests w) url + (if fetch_fails answer then 1 else 0))%nat /\
  (forall v, answer = Responded (mk_response 200 (Some v)) ->
             r.1 = Ret v /\ log r.2 = log w).
Proof.
  cbv zeta. split; [apply fetch_json_returns|]. split; [apply fetch_json_requests|].
  split; [apply fetch_json_same_gauges|].
  split; [intros url' Hne; by apply fetch_json_same_failed_requests_ne|].
  split.
  - destruct (fetch_fails (http_get rt (length (requests w)) url username password))
      eqn:Hfails.
    + rewrite (fetch_json_fails_run rt url username password w Hfails). simpl.
      unfold counter_value at 1. rewrite lookup_insert_eq. simpl. lia.
    + destruct (http_get rt (length (requests w)) url username password)
        as [e|[status [v|]]] eqn:Hanswer; simpl in Hfails; try done.
      * destruct (Z.eqb_spec status 200) as [->|]; [|done].
        rewrite (fetch_json_success rt url username password w v Hanswer). simpl. lia.
      * by rewrite orb_true_r in Hfails.
  - intros v Hanswer.
    by rewrite (fetch_json_success rt url username password w v Hanswer).
Qed.

Lemma fetch_json_contract_witness :
  let url := "https://10.0.0.1/api/storage/aggregates/1" in
  let r := fetch_json Fixture.upstream url "admin" "secret" Cases.swept in
  r.1 = Ret Fixture.aggr1_detail /\ log r.2 = [] /\
  failed_requests r.2 !! "https://10.0.0.9/api/storage/volumes" = Some 2%nat.
Proof.
  cbv zeta.
  destruct (fetch_json_contract Fixture.upstream "https://10.0.0.1/api/storage/aggregates/1"
              "admin" "secret" Cases.swept) as (_ & _ & _ & Hother & _ & Hok).
  destruct (Hok Fixture.aggr1_detail eq_refl) as [Hret Hlog].
  split; [exact Hret|]. split; [exact Hlog|].
  etrans; [apply Hother; discriminate | reflexivity].
Defined.

(** X22: every request of a collector goes to a URL that starts with the
    text ["https://" + ontap_ip]: the list URL, and for each detail the
    link of the entry appended to that text as the upstream gave it.
    Requests are only added to those made before. *)
Theorem requests_start_with_host (rt : runtime) (ontap_ip username password : string)
    (w : world) :
  let added collector :=
    exists new,
      requests (exec (collector rt ontap_ip username password) w)
      = (new ++ requests w)%list /\
      Forall (fun url => String.prefix ("https://" +:+ ontap_ip) url = true) new in
  added collect_volume_metrics /\
  added collect_tier_metrics /\
  added collect_node_metrics.
Proof.
  cbv zeta. split; [|split].
  - apply collect_volume_metrics_on_host.
  - apply collect_tier_metrics_on_host.
  - apply collect_node_metrics_on_host.
Qed.
